(** * Ternoa validator exporter: stake snapshots, movements and era rewards

    A shallow embedding of [exporter/ternoa-exporter.py].  The chain client
    ([substrateinterface]) and the metrics sink ([prometheus_client]) are the
    program's two collaborators: the first is a record of query answers, the
    second the ordered log of [Gauge.set] calls the program makes.

    Python [float] is IEEE 754 binary64, taken from the Standard Library's
    executable specification [SpecFloat] (round to nearest, ties to even).
    Python exceptions are the [Raise] outcome of [result]; every handler of
    the program catches [Exception] without looking at its class, so the
    outcome carries no payload. *)

From Stdlib Require Import ZArith String Ascii List Bool Lia DecimalString.
From Stdlib Require Import Floats.SpecFloat.
Import ListNotations.
Open Scope string_scope.
Open Scope Z_scope.

(** ** Outcomes of fallible Python code *)

Inductive result (A : Type) : Type :=
| Ok (a : A)
| Raise.
Arguments Ok {A} a.
Arguments Raise {A}.

Definition bind {A B : Type} (r : result A) (k : A -> result B) : result B :=
  match r with
  | Ok a => k a
  | Raise => Raise
  end.

Notation "x <- c ;; k" := (bind c (fun x => k))
  (at level 61, c at next level, right associativity).

(** ** Python numbers: [int] and [float] *)

Definition prec : Z := 53.
Definition emax : Z := 1024.

Definition f_zero : spec_float := S754_zero false.
Definition f_add : spec_float -> spec_float -> spec_float := SFadd prec emax.
Definition f_sub : spec_float -> spec_float -> spec_float := SFsub prec emax.
Definition f_mul : spec_float -> spec_float -> spec_float := SFmul prec emax.
Definition f_div : spec_float -> spec_float -> spec_float := SFdiv prec emax.

Inductive num : Type :=
| NInt (z : Z)
| NFloat (f : spec_float).

(** [float(n)] for an [int]: correctly rounded, [OverflowError] when the
    integer is beyond the largest finite double. *)
Definition float_of_int (z : Z) : result spec_float :=
  match binary_normalize prec emax z 0 false with
  | S754_infinity _ => Raise
  | f => Ok f
  end.

(** The literal [1e18]. *)
Definition f_1e18 : spec_float := S754_finite false 7812500000000000 7.

(** The literals [0.0], [0] and [1]. *)
Definition zero_float : num := NFloat f_zero.
Definition zero_int : num := NInt 0.
Definition one_int : num := NInt 1.

(** Implicit conversion of an operand of mixed arithmetic. *)
Definition as_float (x : num) : result spec_float :=
  match x with
  | NInt z => float_of_int z
  | NFloat f => Ok f
  end.

(** [x + y] *)
Definition py_add (x y : num) : result num :=
  match x, y with
  | NInt a, NInt b => Ok (NInt (a + b))
  | _, _ => a <- as_float x ;; b <- as_float y ;; Ok (NFloat (f_add a b))
  end.

(** [x - y] *)
Definition py_sub (x y : num) : result num :=
  match x, y with
  | NInt a, NInt b => Ok (NInt (a - b))
  | _, _ => a <- as_float x ;; b <- as_float y ;; Ok (NFloat (f_sub a b))
  end.

(** [x * y] *)
Definition py_mul (x y : num) : result num :=
  match x, y with
  | NInt a, NInt b => Ok (NInt (a * b))
  | _, _ => a <- as_float x ;; b <- as_float y ;; Ok (NFloat (f_mul a b))
  end.

(** An integer as an exact (not normalised) binary number, the operand of
    the correctly rounded [int / int]. *)
Definition exact_of_int (z : Z) : spec_float :=
  match z with
  | Z0 => S754_zero false
  | Zpos p => S754_finite false p 0
  | Zneg p => S754_finite true p 0
  end.

(** [x / y]: true division.  A zero divisor raises [ZeroDivisionError];
    [int / int] is rounded once from the exact quotient and raises
    [OverflowError] beyond the doubles. *)
Definition py_truediv (x y : num) : result num :=
  match x, y with
  | NInt a, NInt b =>
      if b =? 0 then Raise
      else match f_div (exact_of_int a) (exact_of_int b) with
           | S754_infinity _ => Raise
           | q => Ok (NFloat q)
           end
  | _, _ =>
      a <- as_float x ;; b <- as_float y ;;
      if SFeqb b f_zero then Raise else Ok (NFloat (f_div a b))
  end.

(** [abs(x)] *)
Definition py_abs (x : num) : num :=
  match x with
  | NInt z => NInt (Z.abs z)
  | NFloat f => NFloat (SFabs f)
  end.

(** [x > 0], [x < 0] and [x == 0] against the [int] literal; all three are
    [False] on a NaN. *)
Definition gt_zero (x : num) : bool :=
  match x with
  | NInt z => 0 <? z
  | NFloat f => SFltb f_zero f
  end.

Definition lt_zero (x : num) : bool :=
  match x with
  | NInt z => z <? 0
  | NFloat f => SFltb f f_zero
  end.

Definition eq_zero (x : num) : bool :=
  match x with
  | NInt z => z =? 0
  | NFloat f => SFeqb f f_zero
  end.

(** ** The metrics sink *)

(** The seven gauge families declared at module level. *)
Inductive gauge : Type :=
| VALIDATOR_SELF_STAKE
| VALIDATOR_CAPS_IN
| VALIDATOR_CAPS_OUT
| VALIDATOR_REWARDS
| VALIDATOR_NOMINATIONS
| VALIDATOR_TOTAL_STAKE
| VALIDATOR_NOMINATOR_COUNT.

(** One call [G.labels(validator=.., name=.., <third>=..).set(value)]; the
    third label is [status], [type] or [era] according to the family. *)
Record gauge_set : Type := GaugeSet {
  g_family : gauge;
  g_validator : string;
  g_name : string;
  g_third : string;
  g_value : num
}.

Definition gauge_eqb (a b : gauge) : bool :=
  match a, b with
  | VALIDATOR_SELF_STAKE, VALIDATOR_SELF_STAKE
  | VALIDATOR_CAPS_IN, VALIDATOR_CAPS_IN
  | VALIDATOR_CAPS_OUT, VALIDATOR_CAPS_OUT
  | VALIDATOR_REWARDS, VALIDATOR_REWARDS
  | VALIDATOR_NOMINATIONS, VALIDATOR_NOMINATIONS
  | VALIDATOR_TOTAL_STAKE, VALIDATOR_TOTAL_STAKE
  | VALIDATOR_NOMINATOR_COUNT, VALIDATOR_NOMINATOR_COUNT => true
  | _, _ => false
  end.

(** The published values: per family and label set, the last value set. *)
Definition registry : Type := gauge -> string -> string -> string -> option num.

Definition empty_registry : registry := fun _ _ _ _ => None.

Definition apply_set (r : registry) (w : gauge_set) : registry :=
  fun g v n t =>
    if gauge_eqb g (g_family w) && String.eqb v (g_validator w)
       && String.eqb n (g_name w) && String.eqb t (g_third w)
    then Some (g_value w)
    else r g v n t.

Definition apply_sets (r : registry) (ws : list gauge_set) : registry :=
  fold_left apply_set ws r.

(** ** [track_stake_movements] *)

Definition track_stake_movements (validator name : string)
    (current_stake : num) (previous_stake : option num)
  : result ((num * num) * list gauge_set) :=
  match previous_stake with
  | None => Ok ((zero_float, zero_float), [])
  | Some previous =>
      stake_difference <- py_sub current_stake previous ;;
      if gt_zero stake_difference then
        Ok ((stake_difference, zero_float),
            [GaugeSet VALIDATOR_CAPS_IN validator name "nomination" stake_difference])
      else if lt_zero stake_difference then
        let abs_difference := py_abs stake_difference in
        Ok ((zero_float, abs_difference),
            [GaugeSet VALIDATOR_CAPS_OUT validator name "unstake" abs_difference])
      else Ok ((zero_float, zero_float), [])
  end.

(** ** Values decoded from the chain

    [.value] of a query answer is a tree of plain Python values.  SCALE has
    no floating-point and no [bytes] result after decoding: numbers arrive
    as [int], addresses and byte strings as [str]. *)

#[local] Set Warnings "-register-all".
Inductive pyval : Type :=
| PNone
| PBool (b : bool)
| PInt (z : Z)
| PStr (s : string)
| PList (items : list pyval)
| PTuple (items : list pyval)
| PDict (entries : list (string * pyval)).

(** A query answer: an object with a [.value]; whether the object itself is
    truthy is the client's business. *)
Record scale_obj : Type := ScaleObj {
  obj_truthy : bool;
  obj_value : pyval
}.

(** The connection handle: [substrate.query(module, storage, params)], which
    answers an object or [None] or raises, and
    [substrate.query_map(module, storage)], whose answer is a sequence of
    (key, value) pairs.  An answer is a function of the question. *)
Record substrate : Type := Substrate {
  query : string -> string -> list pyval -> result (option scale_obj);
  query_map : string -> string -> result (list (pyval * pyval))
}.

(** A Python [dict] with [str] keys, in insertion order. *)
Definition dict (A : Type) : Type := list (string * A).

Fixpoint dict_get {A : Type} (d : dict A) (k : string) : option A :=
  match d with
  | [] => None
  | (k', a) :: rest => if String.eqb k' k then Some a else dict_get rest k
  end.

(** [d[k] = a]: a present key keeps its place, a new key goes last. *)
Fixpoint dict_set {A : Type} (d : dict A) (k : string) (a : A) : dict A :=
  match d with
  | [] => [(k, a)]
  | (k', a') :: rest =>
      if String.eqb k' k then (k', a) :: rest else (k', a') :: dict_set rest k a
  end.

(** Truth value of a decoded value. *)
Definition truthy (v : pyval) : bool :=
  match v with
  | PNone => false
  | PBool b => b
  | PInt z => negb (z =? 0)
  | PStr s => negb (String.eqb s "")
  | PList items | PTuple items => negb (Nat.eqb (List.length items) 0)
  | PDict entries => negb (Nat.eqb (List.length entries) 0)
  end.

(** [v[k]] with a [str] key: [KeyError] on a missing key, [TypeError] on
    anything that is not a dict. *)
Definition py_subscript_key (v : pyval) (k : string) : result pyval :=
  match v with
  | PDict entries =>
      match dict_get entries k with
      | Some x => Ok x
      | None => Raise
      end
  | _ => Raise
  end.

(** [v[i]] with a literal index [0] or [1]. *)
Definition py_subscript_index (v : pyval) (i : nat) : result pyval :=
  match v with
  | PList items | PTuple items =>
      match nth_error items i with
      | Some x => Ok x
      | None => Raise
      end
  | PStr s =>
      match String.get i s with
      | Some c => Ok (PStr (String c EmptyString))
      | None => Raise
      end
  | _ => Raise
  end.

(** [v.get(k, default)]: only a dict has the method. *)
Definition py_get (v : pyval) (k : string) (default : pyval) : result pyval :=
  match v with
  | PDict entries =>
      match dict_get entries k with
      | Some x => Ok x
      | None => Ok default
      end
  | _ => Raise
  end.

(** [len(v)] *)
Definition py_len (v : pyval) : result Z :=
  match v with
  | PList items | PTuple items => Ok (Z.of_nat (List.length items))
  | PStr s => Ok (Z.of_nat (String.length s))
  | PDict entries =>
      Ok (Z.of_nat (List.length (nodup string_dec (map fst entries))))
  | _ => Raise
  end.

(** [for x in v] *)
Fixpoint characters (s : string) : list pyval :=
  match s with
  | EmptyString => []
  | String c rest => PStr (String c EmptyString) :: characters rest
  end.

Definition py_iter (v : pyval) : result (list pyval) :=
  match v with
  | PList items | PTuple items => Ok items
  | PStr s => Ok (characters s)
  | PDict entries => Ok (map PStr (nodup string_dec (map fst entries)))
  | _ => Raise
  end.

(** [s[:20]] *)
Definition first_20 (s : string) : string := substring 0 20 s.

(** ** Per-validator records built by the program *)

(** The dict literal of [get_validator_stakes]. *)
Record stake_info : Type := StakeInfo {
  self_stake : num;
  total_stake : num;
  nominations : num;
  nominator_count : num;
  rewards : num;
  slashes : num
}.

Definition zero_stake_info : stake_info :=
  StakeInfo zero_int zero_int zero_int zero_int zero_int zero_int.

(** The dict literal of [get_identities]. *)
Record identity_info : Type := IdentityInfo {
  display : string;
  legal : string;
  web : string;
  riot : string;
  email : string;
  twitter : string
}.

Definition empty_identity : identity_info := IdentityInfo "" "" "" "" "" "".

Definition object_truthy (o : option scale_obj) : bool :=
  match o with
  | Some obj => obj_truthy obj
  | None => false
  end.

Section Exporter.

(** The two builtins whose full behaviour is outside this development:
    [str(v)] of a list, tuple or dict, and [float(s)] of a [str] ([None]
    when the text is no number and [ValueError] is raised). *)
Variable repr_compound : pyval -> string.
Variable float_of_str : string -> option spec_float.

(** [str(v)] *)
Definition py_str (v : pyval) : string :=
  match v with
  | PStr s => s
  | PInt z => NilZero.string_of_int (Z.to_int z)
  | PNone => "None"
  | PBool true => "True"
  | PBool false => "False"
  | PList _ | PTuple _ | PDict _ => repr_compound v
  end.

(** [float(v)] *)
Definition py_float (v : pyval) : result spec_float :=
  match v with
  | PInt z => float_of_int z
  | PBool b => float_of_int (if b then 1 else 0)
  | PStr s =>
      match float_of_str s with
      | Some f => Ok f
      | None => Raise
      end
  | _ => Raise
  end.

(** ** [extract_identity_value] *)

Definition extract_identity_value (value : pyval) : string :=
  if negb (truthy value) then ""
  else
    match value with
    | PDict entries =>
        match dict_get entries "Raw" with
        | Some raw => py_str raw
        | None =>
            match dict_get entries "None" with
            | Some _ => ""
            | None => py_str value
            end
        end
    | _ => py_str value
    end.

(** ** [get_era_rewards] *)

(** First pass: [total_points += float(entry[1])] over the entries that are
    lists of at least two items. *)
Fixpoint total_points_pass (entries : list pyval) (total_points : num)
  : result num :=
  match entries with
  | [] => Ok total_points
  | PList (_ :: points :: _) :: rest =>
      p <- py_float points ;;
      t <- py_add total_points (NFloat p) ;;
      total_points_pass rest t
  | _ :: rest => total_points_pass rest total_points
  end.

(** Second pass: the points of the first entry whose [str(entry[0])] is the
    validator, [0] when the loop ends without a [break]. *)
Fixpoint validator_points_pass (validator : string) (entries : list pyval)
  : result num :=
  match entries with
  | [] => Ok zero_int
  | PList (address :: points :: _) :: rest =>
      if String.eqb (py_str address) validator
      then p <- py_float points ;; Ok (NFloat p)
      else validator_points_pass validator rest
  | _ :: rest => validator_points_pass validator rest
  end.

(** [if total_points == 0: total_points = 1] *)
Definition guard_total (total_points : num) : num :=
  if eq_zero total_points then one_int else total_points.

(** The inner [try] block; [Ok None] when it ends without a [return]. *)
Definition reward_share (sub : substrate) (validator : string)
    (era_index : pyval) (reward_points : scale_obj) : result (option num) :=
  match obj_value reward_points with
  | PList entries =>
      total_points <- total_points_pass entries zero_int ;;
      validator_points <- validator_points_pass validator entries ;;
      let total_points := guard_total total_points in
      era_reward <- query sub "Staking" "ErasValidatorReward" [era_index] ;;
      match era_reward with
      | Some reward =>
          if obj_truthy reward && truthy (obj_value reward) then
            raw <- py_float (obj_value reward) ;;
            total_reward <- py_truediv (NFloat raw) (NFloat f_1e18) ;;
            ratio <- py_truediv validator_points total_points ;;
            validator_reward <- py_mul ratio total_reward ;;
            Ok (Some validator_reward)
          else Ok None
      | None => Ok None
      end
  | _ => Ok None
  end.

Definition get_era_rewards (sub : substrate) (validator : string)
    (era_index : pyval) : num :=
  match query sub "Staking" "ErasRewardPoints" [era_index] with
  | Ok (Some reward_points) =>
      if obj_truthy reward_points then
        match reward_share sub validator era_index reward_points with
        | Ok (Some validator_reward) => validator_reward
        | Ok None => zero_float
        | Raise => zero_float
        end
      else zero_float
  | Ok None => zero_float
  | Raise => zero_float
  end.

(** ** [get_era_slashes] *)

Definition get_era_slashes (sub : substrate) (validator : string)
    (era_index : pyval) : num := zero_float.

(** ** [get_validator_stakes] *)

(** The body of the per-validator [try]: [Ok None] when [exposure] is falsy
    and nothing is stored. *)
Definition validator_stake (sub : substrate) (era_index : pyval)
    (validator : string) : result (option stake_info) :=
  exposure <- query sub "Staking" "ErasStakers" [era_index; PStr validator] ;;
  match exposure with
  | Some e =>
      if obj_truthy e then
        own_raw <- py_subscript_key (obj_value e) "own" ;;
        own_float <- py_float own_raw ;;
        own <- py_truediv (NFloat own_float) (NFloat f_1e18) ;;
        total_raw <- py_subscript_key (obj_value e) "total" ;;
        total_float <- py_float total_raw ;;
        total <- py_truediv (NFloat total_float) (NFloat f_1e18) ;;
        others <- py_sub total own ;;
        others_list <- py_get (obj_value e) "others" (PList []) ;;
        nominators <- py_len others_list ;;
        let rewards := get_era_rewards sub validator era_index in
        let slashes := get_era_slashes sub validator era_index in
        Ok (Some (StakeInfo own total others (NInt nominators) rewards slashes))
      else Ok None
  | None => Ok None
  end.

(** One turn of [for validator in validators], with its handler. *)
Definition stakes_step (sub : substrate) (era_index : pyval)
    (stakes : dict stake_info) (validator : string) : dict stake_info :=
  match validator_stake sub era_index validator with
  | Ok (Some info) => dict_set stakes validator info
  | Ok None => stakes
  | Raise => dict_set stakes validator zero_stake_info
  end.

Definition stakes_loop (sub : substrate) (era_index : pyval)
    (validators : list string) (stakes : dict stake_info) : dict stake_info :=
  fold_left (stakes_step sub era_index) validators stakes.

(** [active_era.value["index"]] *)
Definition active_era_index (sub : substrate) : result pyval :=
  active_era <- query sub "Staking" "ActiveEra" [] ;;
  match active_era with
  | Some obj => py_subscript_key (obj_value obj) "index"
  | None => Raise
  end.

Definition get_validator_stakes (sub : substrate) (validators : list string)
  : result (dict stake_info) :=
  era_index <- active_era_index sub ;;
  Ok (stakes_loop sub era_index validators []).

(** ** [get_identities] *)

(** [extract_identity_value(info.get(k, ""))] *)
Definition info_field (info : pyval) (k : string) : result string :=
  raw <- py_get info k (PStr "") ;;
  Ok (extract_identity_value raw).

(** [identity_raw and identity_raw.value] *)
Definition has_value (o : option scale_obj) : bool :=
  match o with
  | Some obj => obj_truthy obj && truthy (obj_value obj)
  | None => false
  end.

Definition value_of (o : option scale_obj) : pyval :=
  match o with
  | Some obj => obj_value obj
  | None => PNone
  end.

(** The [try] of the sub-identity branch; [Ok None] when [identity_info]
    is not reassigned. *)
Definition parent_identity (sub : substrate) (parent_value : pyval)
  : result (option identity_info) :=
  sub_identity_raw <- py_subscript_index parent_value 1 ;;
  let sub_identity_name := extract_identity_value sub_identity_raw in
  parent_raw <- py_subscript_index parent_value 0 ;;
  let parent_wallet := py_str parent_raw in
  identity_raw <- query sub "Identity" "IdentityOf" [PStr parent_wallet] ;;
  if has_value identity_raw then
    info <- py_get (value_of identity_raw) "info" (PDict []) ;;
    display_name <- info_field info "display" ;;
    legal <- info_field info "legal" ;;
    web <- info_field info "web" ;;
    riot <- info_field info "riot" ;;
    email <- info_field info "email" ;;
    twitter <- info_field info "twitter" ;;
    Ok (Some (IdentityInfo
                (if negb (String.eqb display_name "")
                 then (display_name ++ "/" ++ sub_identity_name)%string
                 else sub_identity_name)
                legal web riot email twitter))
  else Ok None.

(** The [try] of the branch without a parent. *)
Definition own_identity (sub : substrate) (wallet : string)
  : result (option identity_info) :=
  identity_raw <- query sub "Identity" "IdentityOf" [PStr wallet] ;;
  if has_value identity_raw then
    info <- py_get (value_of identity_raw) "info" (PDict []) ;;
    display_name <- info_field info "display" ;;
    legal <- info_field info "legal" ;;
    web <- info_field info "web" ;;
    riot <- info_field info "riot" ;;
    email <- info_field info "email" ;;
    twitter <- info_field info "twitter" ;;
    Ok (Some (IdentityInfo display_name legal web riot email twitter))
  else Ok None.

(** What a branch leaves in [identity_info]. *)
Definition or_default (r : result (option identity_info)) : identity_info :=
  match r with
  | Ok (Some info) => info
  | Ok None => empty_identity
  | Raise => empty_identity
  end.

(** The value stored at [identities[wallet]]. *)
Definition wallet_identity (sub : substrate) (wallet : string) : identity_info :=
  match query sub "Identity" "SuperOf" [PStr wallet] with
  | Ok parent =>
      if has_value parent
      then or_default (parent_identity sub (value_of parent))
      else or_default (own_identity sub wallet)
  | Raise => empty_identity
  end.

Definition get_identities (sub : substrate) (wallets : list string)
  : dict identity_info :=
  fold_left (fun identities wallet =>
               dict_set identities wallet (wallet_identity sub wallet))
            wallets [].

(** ** [update_metrics] *)

(** [validators_id.get(validator, {}).get("display", "") or validator[:20]] *)
Definition display_name_of (validators_id : dict identity_info)
    (validator : string) : string :=
  let shown :=
    match dict_get validators_id validator with
    | Some info => display info
    | None => ""
    end in
  if negb (String.eqb shown "") then shown else first_20 validator.

(** ["active" if validator in active_validators else "waiting"] *)
Definition status_of (active_validators : list string) (validator : string)
  : string :=
  if existsb (String.eqb validator) active_validators
  then "active" else "waiting".

(** [previous_stakes.get(validator, {}).get("total_stake")] *)
Definition previous_total_of (previous_stakes : dict stake_info)
    (validator : string) : option num :=
  match dict_get previous_stakes validator with
  | Some info => Some (total_stake info)
  | None => None
  end.

(** The [set] calls that follow [track_stake_movements] in the loop body. *)
Definition stake_gauges (validator name status era : string)
    (info : stake_info) : list gauge_set :=
  [ GaugeSet VALIDATOR_SELF_STAKE validator name status (self_stake info);
    GaugeSet VALIDATOR_NOMINATIONS validator name status (nominations info);
    GaugeSet VALIDATOR_TOTAL_STAKE validator name status (total_stake info);
    GaugeSet VALIDATOR_NOMINATOR_COUNT validator name status (nominator_count info) ]
  ++ (if gt_zero (rewards info)
      then [GaugeSet VALIDATOR_REWARDS validator name era (rewards info)]
      else [])%list.

(** The body of [for validator, stake_info in validator_stakes.items()]:
    the [set] calls it makes, in order. *)
Definition validator_metrics (active_validators : list string)
    (validators_id : dict identity_info) (previous_stakes : dict stake_info)
    (current_era : pyval) (validator : string) (info : stake_info)
  : result (list gauge_set) :=
  let status := status_of active_validators validator in
  let name := display_name_of validators_id validator in
  let current_total := total_stake info in
  let previous_total := previous_total_of previous_stakes validator in
  moved <- track_stake_movements validator name current_total previous_total ;;
  Ok (snd moved ++ stake_gauges validator name status (py_str current_era) info)%list.

(** The loop: the [set] calls made, and whether it ran to its end. *)
Fixpoint validators_loop (active_validators : list string)
    (validators_id : dict identity_info) (previous_stakes : dict stake_info)
    (current_era : pyval) (items : list (string * stake_info))
  : list gauge_set * result unit :=
  match items with
  | [] => ([], Ok tt)
  | (validator, info) :: rest =>
      match validator_metrics active_validators validators_id previous_stakes
                              current_era validator info with
      | Ok sets =>
          let '(later, outcome) :=
            validators_loop active_validators validators_id previous_stakes
                              current_era rest in
          ((sets ++ later)%list, outcome)
      | Raise => ([], Raise)
      end
  end.

(** What one call leaves behind: the outcome ([Raise] is the re-raise of the
    handler), the global [previous_stakes], and the [set] calls made. *)
Record cycle : Type := Cycle {
  outcome : result unit;
  previous_after : dict stake_info;
  gauge_sets : list gauge_set
}.

(** Everything before the loop. *)
Definition gather (sub : substrate)
  : result (list string * dict stake_info * dict identity_info * pyval) :=
  validators_result <- query_map sub "Staking" "Validators" ;;
  let validators := map (fun v => py_str (fst v)) validators_result in
  session <- query sub "Session" "Validators" [] ;;
  session_items <- match session with
                   | Some obj => py_iter (obj_value obj)
                   | None => Raise
                   end ;;
  let active_validators := map py_str session_items in
  validator_stakes <- get_validator_stakes sub validators ;;
  let validators_id := get_identities sub validators in
  current_era <- active_era_index sub ;;
  Ok (active_validators, validator_stakes, validators_id, current_era).

Definition update_metrics (sub : substrate) (previous_stakes : dict stake_info)
  : cycle :=
  match gather sub with
  | Ok (active_validators, validator_stakes, validators_id, current_era) =>
      let '(sets, finished) :=
        validators_loop active_validators validators_id previous_stakes
                          current_era validator_stakes in
      match finished with
      | Ok _ => Cycle (Ok tt) validator_stakes sets
      | Raise => Cycle Raise previous_stakes sets
      end
  | Raise => Cycle Raise previous_stakes []
  end.

(** ** Observations used in the statements *)

(** The value a call returns, and the [set] calls it made. *)
Definition returned {A : Type} (r : result (A * list gauge_set)) : result A :=
  x <- r ;; Ok (fst x).

Definition performed {A : Type} (r : result (A * list gauge_set))
  : list gauge_set :=
  match r with
  | Ok x => snd x
  | Raise => []
  end.

(** The doubles 100.0, 80.0 and 20.0. *)
Definition f_100 : spec_float := S754_finite false 7036874417766400 (-46).
Definition f_80 : spec_float := S754_finite false 5629499534213120 (-46).
Definition f_20 : spec_float := S754_finite false 5629499534213120 (-48).

(** Python's [==] between numbers, the equality of the stake invariant;
    an [int] and a [float] are compared exactly. *)
Definition float_eq_int (f : spec_float) (z : Z) : bool :=
  match f with
  | S754_zero _ => z =? 0
  | S754_finite s m e =>
      if 0 <=? e then cond_Zopp s (Zpos m * 2 ^ e) =? z
      else cond_Zopp s (Zpos m) =? z * 2 ^ (- e)
  | _ => false
  end.

Definition py_eq (x y : num) : bool :=
  match x, y with
  | NInt a, NInt b => a =? b
  | NFloat f, NFloat g => SFeqb f g
  | NInt a, NFloat g => float_eq_int g a
  | NFloat f, NInt b => float_eq_int f b
  end.

(** Instances of the two builtins for closed examples, none of which takes
    [str()] of a list, tuple or dict or [float()] of a [str]. *)
Definition repr_opaque (v : pyval) : string := "<compound>".
Definition float_of_no_str (s : string) : option spec_float := None.

(** An answer with a value. *)
Definition answer (v : pyval) : result (option scale_obj) :=
  Ok (Some (ScaleObj true v)).

(** A chain in era 5 where validator ["v"] has 0.2 CAPS of its own in a
    total of 0.9 CAPS and no reward data is stored. *)
Definition chain_rounding : substrate :=
  Substrate
    (fun module storage params =>
       if String.eqb storage "ActiveEra" then answer (PDict [("index", PInt 5)])
       else if String.eqb storage "ErasStakers" then
         answer (PDict [("total", PInt 900000000000000000);
                        ("own", PInt 200000000000000000);
                        ("others", PList [])])
       else Ok None)
    (fun module storage => Ok []).

(** The doubles 0.2, 0.9, 0.7 and 0.8999999999999999. *)
Definition f_0_2 : spec_float := S754_finite false 7205759403792794 (-55).
Definition f_0_9 : spec_float := S754_finite false 8106479329266893 (-53).
Definition f_0_7 : spec_float := S754_finite false 6305039478318694 (-53).
Definition f_below_0_9 : spec_float := S754_finite false 8106479329266892 (-53).

(** A chain in era 5 where validator ["v"] has 1 CAPS of its own in a total
    of 3 CAPS behind one nominator, and the reward-points query raises. *)
Definition chain_reward_failure : substrate :=
  Substrate
    (fun module storage params =>
       if String.eqb storage "ActiveEra" then answer (PDict [("index", PInt 5)])
       else if String.eqb storage "ErasStakers" then
         answer (PDict [("total", PInt 3000000000000000000);
                        ("own", PInt 1000000000000000000);
                        ("others", PList [PDict [("who", PStr "n");
                                                 ("value", PInt 2000000000000000000)]])])
       else if String.eqb storage "ErasRewardPoints" then Raise
       else Ok None)
    (fun module storage => Ok []).

(** The doubles 1.0, 2.0 and 3.0. *)
Definition f_1 : spec_float := S754_finite false 4503599627370496 (-52).
Definition f_2 : spec_float := S754_finite false 4503599627370496 (-51).
Definition f_3 : spec_float := S754_finite false 6755399441055744 (-51).

(** What the loop leaves at a key: decided by the validator's own step when
    the validator is in the input, untouched otherwise. *)
Definition entry_after (sub : substrate) (era_index : pyval)
    (before : option stake_info) (validator : string) : option stake_info :=
  match validator_stake sub era_index validator with
  | Ok (Some info) => Some info
  | Ok None => before
  | Raise => Some zero_stake_info
  end.

(** What a stake field holds: the [int] 0 of a zeroed snapshot, or a
    float. *)
Definition stake_number (x : num) : Prop :=
  x = zero_int \/ exists f, x = NFloat f.

(** ** The reward formula as the specification words it *)

(** The reward-points table [[address, points], ...] as it is decoded. *)
Definition obj_items (table : list (string * Z)) : list pyval :=
  map (fun e => PList [PStr (fst e); PInt (snd e)]) table.

Definition points_table (table : list (string * Z)) : pyval :=
  PList (obj_items table).

(** The double nearest to an integer. *)
Definition nearest_double (z : Z) : spec_float :=
  binary_normalize prec emax z 0 false.

(** "the sum of points over all entries" *)
Definition summed_points (table : list (string * Z)) : spec_float :=
  fold_left (fun acc e => f_add acc (nearest_double (snd e))) table f_zero.

(** "the points of the first entry whose address equals the validator
    (0 if no entry matches)" *)
Definition first_points (validator : string) (table : list (string * Z))
  : spec_float :=
  match find (fun e => String.eqb (fst e) validator) table with
  | Some e => nearest_double (snd e)
  | None => f_zero
  end.

(** "(validatorPoints / totalPoints) * (rawPool / 10^18)" for a given
    total. *)
Definition reward_formula (validator_points total_points : spec_float)
    (pool : Z) : result num :=
  ratio <- py_truediv (NFloat validator_points) (NFloat total_points) ;;
  caps <- py_truediv (NFloat (nearest_double pool)) (NFloat f_1e18) ;;
  py_mul ratio caps.

(** The formula with the total the plain sum. *)
Definition reward_over_sum (validator : string) (table : list (string * Z))
    (pool : Z) : result num :=
  reward_formula (first_points validator table) (summed_points table) pool.

(** The formula with a zero sum replaced by 1. *)
Definition reward_over_guarded_sum (validator : string)
    (table : list (string * Z)) (pool : Z) : result num :=
  let sum := summed_points table in
  reward_formula (first_points validator table)
                 (if SFeqb sum f_zero then nearest_double 1 else sum) pool.

(** A chain in era 5 with a reward-points table and a reward pool. *)
Definition chain_with_rewards (table : list (string * Z)) (pool : Z)
  : substrate :=
  Substrate
    (fun module storage params =>
       if String.eqb storage "ErasRewardPoints" then answer (points_table table)
       else if String.eqb storage "ErasValidatorReward" then answer (PInt pool)
       else Ok None)
    (fun module storage => Ok []).

(** The double 300.0 and the raw pool of 1000 CAPS. *)
Definition f_300 : spec_float := S754_finite false 5277655813324800 (-44).
Definition pool_1000 : Z := 1000 * 10 ^ 18.

(** ** Identity records for the examples *)

(** A chain where wallet ["w"] is the sub-identity "alice" of ["p"], and
    the identity query about ["p"] has the given answer. *)
Definition chain_sub_identity (parent_answer : result (option scale_obj))
  : substrate :=
  Substrate
    (fun module storage params =>
       match params with
       | [PStr wallet] =>
           if String.eqb storage "SuperOf" && String.eqb wallet "w" then
             answer (PTuple [PStr "p"; PDict [("Raw", PStr "alice")]])
           else if String.eqb storage "IdentityOf" && String.eqb wallet "p" then
             parent_answer
           else Ok None
       | _ => Ok None
       end)
    (fun module storage => Ok []).

(** The parent's record with display "Bob", and with no display. *)
Definition record_bob : pyval :=
  PDict [("info", PDict [("display", PDict [("Raw", PStr "Bob")]);
                         ("legal", PDict [("None", PNone)])])].

Definition record_no_display : pyval :=
  PDict [("info", PDict [("display", PDict [("None", PNone)]);
                         ("legal", PDict [("Raw", PStr "Bob Ltd")])])].

(** [display_name/sub_identity_name], or the sub-identity name alone. *)
Definition sub_identity_display (display_name sub_identity_name : string)
  : string :=
  if String.eqb display_name "" then sub_identity_name
  else (display_name ++ "/" ++ sub_identity_name)%string.

(** ** Further chains for the examples *)

(** The exposure of a validator with 1 CAPS of its own in a total of 3. *)
Definition exposure_1_of_3 : pyval :=
  PDict [("total", PInt 3000000000000000000);
         ("own", PInt 1000000000000000000);
         ("others", PList [PDict [("who", PStr "n");
                                  ("value", PInt 2000000000000000000)]])].

(** A chain in era 5 where the exposure query raises for ["bad"] only. *)
Definition chain_one_failing : substrate :=
  Substrate
    (fun module storage params =>
       if String.eqb storage "ActiveEra" then answer (PDict [("index", PInt 5)])
       else if String.eqb storage "ErasStakers" then
         match params with
         | [_; PStr validator] =>
             if String.eqb validator "bad" then Raise else answer exposure_1_of_3
         | _ => Ok None
         end
       else Ok None)
    (fun module storage => Ok []).

(** A chain in era 5 where ["gone"] has no exposure ([None]). *)
Definition chain_no_exposure : substrate :=
  Substrate
    (fun module storage params =>
       if String.eqb storage "ActiveEra" then answer (PDict [("index", PInt 5)])
       else if String.eqb storage "ErasStakers" then
         match params with
         | [_; PStr validator] =>
             if String.eqb validator "gone" then Ok None else answer exposure_1_of_3
         | _ => Ok None
         end
       else if String.eqb storage "Validators" then answer (PList [PStr "a"])
       else Ok None)
    (fun module storage => Ok [(PStr "a", PNone); (PStr "gone", PNone)]).

(** A chain whose active-era query raises. *)
Definition chain_era_failure : substrate :=
  Substrate
    (fun module storage params =>
       if String.eqb storage "ActiveEra" then Raise
       else if String.eqb storage "Validators" then answer (PList [PStr "a"])
       else answer exposure_1_of_3)
    (fun module storage => Ok [(PStr "a", PNone)]).

(** A previous state with one validator at 3 CAPS. *)
Definition previous_a : dict stake_info :=
  [("a", StakeInfo (NFloat f_1) (NFloat f_3) (NFloat f_2) (NInt 1)
                   zero_float zero_float)].

(** ** Shapes used in the further properties *)

(** The two kinds of snapshot the program builds: the all-zero one of the
    handler, and one with float stakes whose nominations are the float
    difference, an integer count and slashes 0.0. *)
Definition well_formed_snapshot (info : stake_info) : Prop :=
  info = zero_stake_info \/
  exists own total reward count,
    info = StakeInfo (NFloat own) (NFloat total) (NFloat (f_sub total own))
                     (NInt count) (NFloat reward) zero_float /\
    0 <= count.

(** [len(exposure.value.get("others", []))] when the value is a dict whose
    ["others"], if present, is a list. *)
Definition nominators_of (entries : list (string * pyval)) : Z :=
  match dict_get entries "others" with
  | Some (PList items) => Z.of_nat (List.length items)
  | _ => 0
  end.

(** [isinstance(entry, list) and len(entry) >= 2] *)
Definition entry_is_pair (entry : pyval) : bool :=
  match entry with
  | PList (_ :: _ :: _) => true
  | _ => false
  end.

(** [isinstance(value, list)] *)
Definition is_list (value : pyval) : bool :=
  match value with
  | PList _ => true
  | _ => false
  end.

(** A float that is neither negative nor a NaN. *)
Definition nonneg_float (f : spec_float) : Prop :=
  match f with
  | S754_zero s | S754_infinity s | S754_finite s _ _ => s = false
  | S754_nan => False
  end.

(** [[str(v[0]) for v in validators_result]] *)
Definition listed_validators (validators_result : list (pyval * pyval))
  : list string :=
  map (fun v => py_str (fst v)) validators_result.

(** The two movement families. *)
Definition is_movement (g : gauge) : bool :=
  match g with
  | VALIDATOR_CAPS_IN | VALIDATOR_CAPS_OUT => true
  | _ => false
  end.

(** The four families set for every validator of the map. *)
Definition is_stake_family (g : gauge) : bool :=
  match g with
  | VALIDATOR_SELF_STAKE | VALIDATOR_NOMINATIONS
  | VALIDATOR_TOTAL_STAKE | VALIDATOR_NOMINATOR_COUNT => true
  | _ => false
  end.

(** The snapshot field that [update_metrics] passes to the [set] of a
    family of stake or reward gauges. *)
Definition stake_field (g : gauge) (info : stake_info) : num :=
  match g with
  | VALIDATOR_SELF_STAKE => self_stake info
  | VALIDATOR_NOMINATIONS => nominations info
  | VALIDATOR_TOTAL_STAKE => total_stake info
  | VALIDATOR_NOMINATOR_COUNT => nominator_count info
  | _ => rewards info
  end.

(** [extract_identity_value(info.get(k, ""))] for an [info] that is a dict. *)
Definition info_text (info : list (string * pyval)) (k : string) : string :=
  extract_identity_value
    (match dict_get info k with
     | Some raw => raw
     | None => PStr ""
     end).

(** ** [create_connection] *)

Definition MAX_RETRIES : nat := 5.
Definition RETRY_DELAY : Z := 5.

(** What a run does besides computing: the sleeps (in seconds), the [set]
    calls on the gauges, and the [close] of a connection. *)
Inductive event : Type :=
| Slept (seconds : Z)
| Published (w : gauge_set)
| Closed.

(** The body of the [try]: the [SubstrateInterface] constructor, whose
    outcome at each attempt is given by [connect], then the query of
    [System.Number] on the new connection. *)
Definition open_connection (connect : nat -> result substrate) (attempt : nat)
  : result substrate :=
  sub <- connect attempt ;;
  _ <- query sub "System" "Number" [] ;;
  Ok sub.

(** [for attempt in range(MAX_RETRIES)] over the attempts still to make; a
    loop that ran out would return [None]. *)
Fixpoint connection_attempts (connect : nat -> result substrate)
    (attempts : list nat) : result (option substrate) * list event :=
  match attempts with
  | [] => (Ok None, [])
  | attempt :: rest =>
      match open_connection connect attempt with
      | Ok sub => (Ok (Some sub), [])
      | Raise =>
          if Nat.eqb attempt (MAX_RETRIES - 1) then (Raise, [])
          else
            let '(connected, later) := connection_attempts connect rest in
            (connected, Slept RETRY_DELAY :: later)
      end
  end.

Definition create_connection (connect : nat -> result substrate)
  : result (option substrate) * list event :=
  connection_attempts connect (seq 0 MAX_RETRIES).

(** A connection on which every query raises, and a network where the
    first attempt cannot connect, the second connects to it, and the third
    connects to a chain that answers. *)
Definition chain_dead : substrate :=
  Substrate (fun module storage params => Raise) (fun module storage => Raise).

Definition connect_on_third (attempt : nat) : result substrate :=
  match attempt with
  | O => Raise
  | S O => Ok chain_dead
  | _ => Ok chain_rounding
  end.

(** ** [metrics_loop] *)

(** Whether a loop is still running when the observation ends, or an
    exception has ended it. *)
Inductive progress : Type :=
| Polling
| Failed.

Definition published (sets : list gauge_set) : list event :=
  map Published sets.

(** The inner [while True]: one [update_metrics] and one sleep of 60
    seconds per cycle, until a cycle raises.  [views] is the connection as
    it answers during each successive cycle; the observation ends with the
    list. *)
Fixpoint poll (views : list substrate) (previous_stakes : dict stake_info)
  : progress * dict stake_info * list event :=
  match views with
  | [] => (Polling, previous_stakes, [])
  | view :: later =>
      let c := update_metrics view previous_stakes in
      match outcome c with
      | Ok _ =>
          let '(p, kept, events) := poll later (previous_after c) in
          (p, kept, (published (gauge_sets c) ++ Slept 60 :: events)%list)
      | Raise => (Failed, previous_after c, published (gauge_sets c))
      end
  end.

(** What the network does during one turn of the outer loop: the outcome
    of the constructor at each attempt, and the views of the connection
    made. *)
Record round : Type := Round {
  round_connect : nat -> result substrate;
  round_views : substrate -> list substrate
}.

(** One turn of the outer [while True]: connect, poll, and on an exception
    sleep 5 seconds and then close the connection if there is one.  With
    [None] for a connection the first [update_metrics] raises before any
    [set]. *)
Definition metrics_round (r : round) (previous_stakes : dict stake_info)
  : progress * dict stake_info * list event :=
  let '(connected, waits) := create_connection (round_connect r) in
  match connected with
  | Ok (Some sub) =>
      let '(p, kept, events) := poll (round_views r sub) previous_stakes in
      match p with
      | Polling => (Polling, kept, (waits ++ events)%list)
      | Failed => (Failed, kept, (waits ++ events ++ [Slept 5; Closed])%list)
      end
  | Ok None => (Failed, previous_stakes, (waits ++ [Slept 5])%list)
  | Raise => (Failed, previous_stakes, (waits ++ [Slept 5])%list)
  end.

(** The outer [while True], over the rounds observed. *)
Fixpoint metrics_loop (rounds : list round) (previous_stakes : dict stake_info)
  : dict stake_info * list event :=
  match rounds with
  | [] => (previous_stakes, [])
  | r :: later =>
      let '(p, kept, events) := metrics_round r previous_stakes in
      match p with
      | Polling => (kept, events)
      | Failed =>
          let '(final, more) := metrics_loop later kept in
          (final, (events ++ more)%list)
      end
  end.

(** The invariant of the global [previous_stakes]: distinct keys and
    snapshots of the two kinds the program builds. *)
Definition well_formed_stakes (stakes : dict stake_info) : Prop :=
  NoDup (map fst stakes) /\
  forall v info, dict_get stakes v = Some info -> well_formed_snapshot info.

(** A network that cannot be reached, and one whose third attempt connects
    to a chain that completes one cycle and then fails to give the active
    era. *)
Definition round_unreachable : round :=
  Round (fun attempt => Raise) (fun sub => []).

Definition round_two_cycles : round :=
  Round connect_on_third (fun sub => [chain_no_exposure; chain_era_failure]).

(** ** Chains and states for the further properties *)

(** A chain in era 5 whose exposure answers have a total and no own
    stake. *)
Definition chain_partial_exposure : substrate :=
  Substrate
    (fun module storage params =>
       if String.eqb storage "ActiveEra" then answer (PDict [("index", PInt 5)])
       else if String.eqb storage "ErasStakers" then
         answer (PDict [("total", PInt 3000000000000000000)])
       else Ok None)
    (fun module storage => Ok []).

(** A chain with the given reward-points value and the given answer to the
    reward-pool query. *)
Definition chain_with_reward_data (points : pyval)
    (pool : result (option scale_obj)) : substrate :=
  Substrate
    (fun module storage params =>
       if String.eqb storage "ErasRewardPoints" then answer points
       else if String.eqb storage "ErasValidatorReward" then pool
       else Ok None)
    (fun module storage => Ok []).

(** A reward-points list with two entries that are no pairs. *)
Definition points_with_junk : list pyval :=
  [PStr "junk"; PList [PStr "v"; PInt 30]; PList [PStr "x"];
   PList [PStr "w"; PInt 70]].

(** A previous state with one validator at 1 CAPS. *)
Definition previous_a_low : dict stake_info :=
  [("a", StakeInfo (NFloat f_1) (NFloat f_1) (NFloat f_zero) (NInt 0)
                   zero_float zero_float)].

(** The inbound movement of 2 CAPS of validator ["a"]. *)
Definition caps_in_a : gauge_set :=
  GaugeSet VALIDATOR_CAPS_IN "a" "a" "nomination" (NFloat f_2).

(** The snapshot of a validator with 1 CAPS of its own in a total of 3. *)
Definition snapshot_1_of_3 : stake_info :=
  StakeInfo (NFloat f_1) (NFloat f_3) (NFloat f_2) (NInt 1)
            zero_float zero_float.

(** A chain in era 5 that lists ["a"] and ["b"], each with 1 CAPS of its
    own in a total of 3, where ["a"] has 30 of the 100 reward points of
    the era, ["b"] has none, and the pool is 1000 CAPS. *)
Definition chain_paying : substrate :=
  Substrate
    (fun module storage params =>
       if String.eqb storage "ActiveEra" then answer (PDict [("index", PInt 5)])
       else if String.eqb storage "ErasStakers" then answer exposure_1_of_3
       else if String.eqb storage "ErasRewardPoints" then
         answer (points_table [("a", 30); ("w", 70)])
       else if String.eqb storage "ErasValidatorReward" then
         answer (PInt pool_1000)
       else if String.eqb storage "Validators" then answer (PList [PStr "a"])
       else Ok None)
    (fun module storage => Ok [(PStr "a", PNone); (PStr "b", PNone)]).

(** The snapshot of ["a"] on that chain. *)
Definition snapshot_paid : stake_info :=
  StakeInfo (NFloat f_1) (NFloat f_3) (NFloat f_2) (NInt 1)
            (NFloat f_300) zero_float.


(** * Properties *)

(** Inversion of a chain of binds that ends in [Ok]. *)
Ltac bind_ok H :=
  repeat match type of H with
  | bind ?c _ = Ok _ =>
      let E := fresh "E" in
      destruct c eqn:E; cbn [bind] in H; [| discriminate H]
  end.

(** ** Numbers *)

Example literals_are_doubles :
  nearest_double (10 ^ 18) = f_1e18 /\
  nearest_double 1 = f_1 /\ nearest_double 2 = f_2 /\ nearest_double 3 = f_3 /\
  nearest_double 20 = f_20 /\ nearest_double 80 = f_80 /\
  nearest_double 100 = f_100 /\ nearest_double 300 = f_300.
Proof. vm_compute. repeat split. Qed.

Lemma py_sub_floats (a b : spec_float) :
  py_sub (NFloat a) (NFloat b) = Ok (NFloat (f_sub a b)).
Proof. reflexivity. Qed.

Lemma gt_zero_not_lt (d : num) : gt_zero d = true -> lt_zero d = false.
Proof.
  destruct d as [z | f]; simpl.
  - intros H. apply Z.ltb_lt in H. apply Z.ltb_ge. lia.
  - destruct f as [s | s | | s m e]; try destruct s; cbv; congruence.
Qed.

Lemma eq_zero_not_gt (d : num) : eq_zero d = true -> gt_zero d = false.
Proof.
  destruct d as [z | f]; simpl.
  - intros H. apply Z.eqb_eq in H. subst z. reflexivity.
  - destruct f as [s | s | | s m e]; try destruct s; cbv; congruence.
Qed.

Lemma eq_zero_not_lt (d : num) : eq_zero d = true -> lt_zero d = false.
Proof.
  destruct d as [z | f]; simpl.
  - intros H. apply Z.eqb_eq in H. subst z. reflexivity.
  - destruct f as [s | s | | s m e]; try destruct s; cbv; congruence.
Qed.

(** [f - f] is a zero, or a NaN when [f] is infinite or a NaN: in no case
    above or below zero. *)
Lemma f_sub_diag (f : spec_float) :
  f_sub f f = S754_zero false \/ f_sub f f = S754_nan.
Proof.
  destruct f as [s | s | | s m e]; simpl.
  - left. destruct s; reflexivity.
  - right. destruct s; reflexivity.
  - right. reflexivity.
  - left. unfold f_sub, SFsub.
    rewrite Z.min_id. unfold shl_align. rewrite !Z.sub_diag. reflexivity.
Qed.

Lemma py_sub_diag (x : num) :
  exists d, py_sub x x = Ok d /\ gt_zero d = false /\ lt_zero d = false.
Proof.
  destruct x as [z | f].
  - exists (NInt 0). simpl. rewrite Z.sub_diag. auto.
  - exists (NFloat (f_sub f f)). split; [reflexivity |].
    destruct (f_sub_diag f) as [H | H]; rewrite H; auto.
Qed.

(** Two zeros of any kind ([0], [0.0], [-0.0]) differ by a zero. *)
Lemma py_sub_zeros (x y : num) :
  eq_zero x = true -> eq_zero y = true ->
  exists d, py_sub x y = Ok d /\ gt_zero d = false /\ lt_zero d = false.
Proof.
  destruct x as [a | f], y as [b | g]; simpl; intros Hx Hy.
  - apply Z.eqb_eq in Hx, Hy. subst. exists (NInt 0). auto.
  - apply Z.eqb_eq in Hx. subst.
    destruct g as [s | s | | s m e]; try destruct s; try discriminate;
      eexists; (split; [reflexivity | auto]).
  - apply Z.eqb_eq in Hy. subst.
    destruct f as [s | s | | s m e]; try destruct s; try discriminate;
      eexists; (split; [reflexivity | auto]).
  - destruct f as [s | s | | s m e]; try destruct s; try discriminate;
      destruct g as [t | t | | t m' e']; try destruct t; try discriminate;
      eexists; (split; [reflexivity | auto]).
Qed.

(** ** Rounding to binary64: how far a result can be from overflow *)

Lemma digits2_pos_size (p : positive) : digits2_pos p = Pos.size p.
Proof. induction p; simpl; congruence. Qed.

Lemma Zdigits2_log2 (p : positive) : Zdigits2 (Zpos p) = Z.succ (Z.log2 (Zpos p)).
Proof.
  unfold Zdigits2. rewrite digits2_pos_size.
  destruct p; simpl; try rewrite Pos2Z.inj_succ; reflexivity.
Qed.

Lemma Zdigits2_nonneg (m : Z) : 0 <= Zdigits2 m.
Proof. destruct m; simpl; lia. Qed.

Lemma Zdigits2_upper (m : Z) : 0 <= m -> m < 2 ^ Zdigits2 m.
Proof.
  intros Hm. destruct m as [| p | p]; [reflexivity | | lia].
  rewrite Zdigits2_log2. apply Z.log2_spec. lia.
Qed.

Lemma Zdigits2_lower (p : positive) : 2 ^ (Zdigits2 (Zpos p) - 1) <= Zpos p.
Proof.
  rewrite Zdigits2_log2. replace (Z.succ (Z.log2 (Zpos p)) - 1) with (Z.log2 (Zpos p)) by lia.
  apply Z.log2_spec. lia.
Qed.

Lemma Zdigits2_le (m k : Z) : 0 <= k -> 0 <= m < 2 ^ k -> Zdigits2 m <= k.
Proof.
  intros Hk [Hm Hlt]. destruct m as [| p | p]; [simpl; lia | | lia].
  rewrite Zdigits2_log2.
  assert (Z.log2 (Zpos p) < k) by (apply Z.log2_lt_pow2; lia). lia.
Qed.

Lemma shr_1_div2 (mrs : shr_record) :
  0 <= shr_m mrs -> shr_m (shr_1 mrs) = Z.div2 (shr_m mrs).
Proof.
  destruct mrs as [m r s]. simpl. intros Hm.
  destruct m as [| [p | p |] | p]; try reflexivity; lia.
Qed.

Lemma iter_pos_shr_1 (n : positive) : forall mrs,
  0 <= shr_m mrs ->
  shr_m (iter_pos shr_1 n mrs) = Z.shiftr (shr_m mrs) (Zpos n).
Proof.
  assert (Hstep : forall mrs, 0 <= shr_m mrs -> shr_m (shr_1 mrs) = Z.shiftr (shr_m mrs) 1).
  { intros mrs H. rewrite shr_1_div2 by exact H. rewrite Z.div2_spec. reflexivity. }
  assert (Hnn : forall a k, 0 <= a -> 0 <= Z.shiftr a k).
  { intros a k Ha. apply Z.shiftr_nonneg. exact Ha. }
  induction n as [n IH | n IH |]; intros mrs Hm; cbn [iter_pos].
  - assert (H1 : 0 <= shr_m (shr_1 mrs)) by (rewrite Hstep; auto).
    assert (H2 : 0 <= shr_m (iter_pos shr_1 n (shr_1 mrs))) by (rewrite IH; auto).
    rewrite (IH _ H2), (IH _ H1), (Hstep _ Hm).
    rewrite !Z.shiftr_shiftr by lia. f_equal. lia.
  - assert (H1 : 0 <= shr_m (iter_pos shr_1 n mrs)) by (rewrite IH; auto).
    rewrite (IH _ H1), (IH _ Hm).
    rewrite !Z.shiftr_shiftr by lia. f_equal. lia.
  - apply Hstep. exact Hm.
Qed.

Lemma shr_spec (mrs : shr_record) (e n : Z) :
  0 <= shr_m mrs ->
  shr_m (fst (shr mrs e n)) = Z.shiftr (shr_m mrs) (Z.max 0 n) /\
  snd (shr mrs e n) = e + Z.max 0 n.
Proof.
  intros Hm. destruct n as [| p | p]; simpl.
  - split; [reflexivity | lia].
  - split; [apply iter_pos_shr_1; exact Hm | lia].
  - split; [reflexivity | lia].
Qed.

Lemma Zdigits2_shiftr (m n : Z) :
  0 <= m -> 0 <= n ->
  0 <= Z.shiftr m n /\ Zdigits2 (Z.shiftr m n) <= Z.max 0 (Zdigits2 m - n).
Proof.
  intros Hm Hn.
  assert (Hnn : 0 <= Z.shiftr m n) by (apply Z.shiftr_nonneg; exact Hm).
  split; [exact Hnn |].
  apply Zdigits2_le; [lia |]. split; [exact Hnn |].
  rewrite Z.shiftr_div_pow2 by exact Hn.
  pose proof (Zdigits2_upper m Hm) as Hup.
  pose proof (Zdigits2_nonneg m) as Hd.
  assert (Hpow : 0 < 2 ^ n) by (apply Z.pow_pos_nonneg; lia).
  destruct (Z_le_gt_dec n (Zdigits2 m)) as [Hle | Hgt].
  - rewrite Z.max_r by lia.
    apply Z.div_lt_upper_bound; [exact Hpow |].
    rewrite <- Z.pow_add_r by lia.
    replace (n + (Zdigits2 m - n)) with (Zdigits2 m) by lia. exact Hup.
  - rewrite Z.max_l by lia.
    rewrite Z.div_small; [reflexivity |]. split; [exact Hm |].
    apply Z.lt_le_trans with (2 ^ Zdigits2 m); [exact Hup |].
    apply Z.pow_le_mono_r; lia.
Qed.

Lemma Zdigits2_next (a b : Z) :
  0 <= a -> a <= b <= a + 1 -> Zdigits2 b <= Zdigits2 a + 1.
Proof.
  intros Ha Hb. pose proof (Zdigits2_upper a Ha) as Hup.
  pose proof (Zdigits2_nonneg a) as Hd.
  apply Zdigits2_le; [lia |]. split; [lia |].
  rewrite Z.pow_add_r by lia. change (2 ^ 1) with 2. lia.
Qed.

Lemma round_nearest_even_bounds (m : Z) (l : location) :
  m <= round_nearest_even m l <= m + 1.
Proof.
  destruct l as [| []]; simpl; try lia. destruct (Z.even m); lia.
Qed.

Lemma shr_m_record_of_loc (m : Z) (l : location) :
  shr_m (shr_record_of_loc m l) = m.
Proof. destruct l as [| []]; reflexivity. Qed.

(** The three ways rounding ends for a non-negative mantissa. *)
Lemma binary_round_aux_cases (s : bool) (m e : Z) (l : location) :
  0 <= m ->
  binary_round_aux prec emax s m e l = S754_zero s \/
  (binary_round_aux prec emax s m e l = S754_infinity s /\
   (971 < e \/ 1023 < Zdigits2 m + e)) \/
  (exists m' e',
      binary_round_aux prec emax s m e l = S754_finite s m' e' /\
      e' <= 971 /\ Zdigits2 (Zpos m') + e' <= 1024).
Proof.
  intros Hm. unfold binary_round_aux, shr_fexp.
  set (n1 := fexp prec emax (Zdigits2 m + e) - e).
  pose proof (shr_spec (shr_record_of_loc m l) e n1) as H1.
  rewrite shr_m_record_of_loc in H1. specialize (H1 Hm).
  destruct (shr (shr_record_of_loc m l) e n1) as [mrs1 e1].
  cbn [fst snd] in H1. destruct H1 as [Hm1 He1].
  destruct (Zdigits2_shiftr m (Z.max 0 n1) Hm ltac:(lia)) as [Hnn1 Hd1].
  rewrite <- Hm1 in Hnn1, Hd1.
  pose proof (round_nearest_even_bounds (shr_m mrs1) (loc_of_shr_record mrs1)) as Hr.
  set (m2 := round_nearest_even (shr_m mrs1) (loc_of_shr_record mrs1)) in *.
  pose proof (Zdigits2_next (shr_m mrs1) m2 Hnn1 Hr) as Hd2.
  set (n2 := fexp prec emax (Zdigits2 m2 + e1) - e1).
  pose proof (shr_spec (shr_record_of_loc m2 loc_Exact) e1 n2) as H2.
  rewrite shr_m_record_of_loc in H2. specialize (H2 ltac:(lia)).
  destruct (shr (shr_record_of_loc m2 loc_Exact) e1 n2) as [mrs2 e2].
  cbn [fst snd] in H2. destruct H2 as [Hm3 He2].
  destruct (Zdigits2_shiftr m2 (Z.max 0 n2) ltac:(lia) ltac:(lia)) as [Hnn3 Hd3].
  rewrite <- Hm3 in Hnn3, Hd3.
  pose proof (Zdigits2_nonneg m) as HD.
  unfold fexp, emin, prec, emax in n1, n2. subst n1 n2.
  destruct (shr_m mrs2) as [| p | p] eqn:Hp.
  - left. reflexivity.
  - right. change (Z.sub emax prec) with 971.
    assert (Hpos : 1 <= Zdigits2 (Zpos p)) by (simpl; lia).
    destruct (Z.leb e2 971) eqn:Hle.
    + right. exists p, e2. split; [reflexivity |].
      apply Z.leb_le in Hle. lia.
    + left. split; [reflexivity |]. apply Z.leb_gt in Hle. lia.
  - lia.
Qed.

Lemma nearest_double_cases (z : Z) :
  0 <= z ->
  nearest_double z = S754_zero false \/
  nearest_double z = S754_infinity false \/
  exists m e, nearest_double z = S754_finite false m e /\
              e <= 971 /\ Zdigits2 (Zpos m) + e <= 1024.
Proof.
  intros Hz. unfold nearest_double, binary_normalize.
  destruct z as [| p | p]; [left; reflexivity | | lia].
  unfold binary_round.
  destruct (shl_align p 0 (fexp prec emax (Zpos (digits2_pos p) + 0))) as [mz ez].
  destruct (binary_round_aux_cases false (Zpos mz) ez loc_Exact ltac:(lia))
    as [H | [[H _] | H]]; auto.
Qed.

Lemma f_div_1e18_cases (m : positive) (e : Z) :
  e <= 971 -> Zdigits2 (Zpos m) + e <= 1024 ->
  f_div (S754_finite false m e) f_1e18 = S754_zero false \/
  exists m' e', f_div (S754_finite false m e) f_1e18 = S754_finite false m' e'.
Proof.
  intros He Hd. unfold f_div, f_1e18, SFdiv, SFdiv_core_binary.
  change (Zdigits2 7812500000000000) with 53.
  set (d1 := Zdigits2 (Zpos m)) in *.
  set (e' := Z.min (fexp prec emax (d1 + e - (53 + 7))) (e - 7)).
  set (m' := match e - 7 - e' with
             | 0 => Zpos m
             | Zpos _ => Z.shiftl (Zpos m) (e - 7 - e')
             | Zneg _ => 0
             end).
  assert (Hs : 0 <= e - 7 - e') by (subst e'; lia).
  assert (Hm' : m' = Zpos m * 2 ^ (e - 7 - e')).
  { subst m'. destruct (e - 7 - e') as [| s | s] eqn:Es.
    - simpl. lia.
    - rewrite Z.shiftl_mul_pow2 by lia. reflexivity.
    - lia. }
  pose proof (Z_div_mod m' 7812500000000000 ltac:(lia)) as Hdiv.
  destruct (Z.div_eucl m' 7812500000000000) as [q r].
  destruct Hdiv as [Hq Hr].
  assert (Hpow : 0 < 2 ^ (e - 7 - e')) by (apply Z.pow_pos_nonneg; lia).
  assert (Hm'0 : 0 <= m') by (rewrite Hm'; lia).
  assert (Hq0 : 0 <= q) by lia.
  assert (Hup : m' < 2 ^ (d1 + (e - 7 - e'))).
  { rewrite Hm', Z.pow_add_r by (subst d1; simpl; lia).
    apply Z.mul_lt_mono_pos_r; [exact Hpow |].
    apply (Zdigits2_upper (Zpos m)). lia. }
  assert (Hdq : Zdigits2 q <= Z.max 0 (d1 + (e - 7 - e') - 52)).
  { apply Zdigits2_le; [lia |]. split; [exact Hq0 |].
    assert (H52 : 2 ^ 52 * q <= m') by lia.
    destruct (Z_le_gt_dec 52 (d1 + (e - 7 - e'))) as [Hle | Hgt].
    - rewrite Z.max_r by lia.
      apply Z.mul_lt_mono_pos_l with (2 ^ 52); [lia |].
      rewrite <- Z.pow_add_r by lia.
      replace (52 + (d1 + (e - 7 - e') - 52)) with (d1 + (e - 7 - e')) by lia.
      lia.
    - rewrite Z.max_l by lia. change (2 ^ 0) with 1.
      assert (2 ^ (d1 + (e - 7 - e')) <= 2 ^ 51)
        by (apply Z.pow_le_mono_r; lia).
      change (2 ^ 51) with 2251799813685248 in *.
      change (2 ^ 52) with 4503599627370496 in *. lia. }
  change (xorb false false) with false.
  destruct (binary_round_aux_cases false q e' (new_location 7812500000000000 r) Hq0)
    as [H | [[_ H] | [m1 [e1 [H _]]]]].
  - left. exact H.
  - exfalso. unfold fexp, emin, prec, emax in e'. subst e'. lia.
  - right. exists m1, e1. exact H.
Qed.

Lemma zero_times_caps (pool : Z) :
  0 <= pool ->
  nearest_double pool <> S754_infinity false ->
  f_mul f_zero (f_div (nearest_double pool) f_1e18) = f_zero.
Proof.
  intros Hpool Hfin.
  destruct (nearest_double_cases pool Hpool) as [H | [H | [m [e [H [He Hd]]]]]].
  - rewrite H. reflexivity.
  - contradiction.
  - rewrite H.
    destruct (f_div_1e18_cases m e He Hd) as [H' | [m' [e' H']]];
      rewrite H'; reflexivity.
Qed.

(** ** The sink *)

Lemma apply_sets_nil (r : registry) : apply_sets r [] = r.
Proof. reflexivity. Qed.

Lemma apply_sets_other_family (g : gauge) (sets : list gauge_set) :
  (forall w, In w sets -> g_family w <> g) ->
  forall (r : registry) v n t, apply_sets r sets g v n t = r g v n t.
Proof.
  unfold apply_sets.
  induction sets as [| w sets IH]; intros Hfam r v n t; simpl.
  - reflexivity.
  - rewrite IH by (intros w' Hw'; apply Hfam; right; exact Hw').
    unfold apply_set.
    assert (Hne : g_family w <> g) by (apply Hfam; left; reflexivity).
    destruct g, (g_family w); simpl; congruence.
Qed.

(** ** [track_stake_movements] *)

Example track_100_80 :
  returned (track_stake_movements "v" "n" (NFloat f_100) (Some (NFloat f_80)))
  = Ok (NFloat f_20, zero_float).
Proof. reflexivity. Qed.

Example track_80_100 :
  returned (track_stake_movements "v" "n" (NFloat f_80) (Some (NFloat f_100)))
  = Ok (zero_float, NFloat f_20).
Proof. reflexivity. Qed.

Example track_100_100 :
  returned (track_stake_movements "v" "n" (NFloat f_100) (Some (NFloat f_100)))
  = Ok (zero_float, zero_float).
Proof. reflexivity. Qed.

(** C2.  Without a previous total the movement is (0.0, 0.0) whatever the
    current total.  With one, and [diff = current - previous]: the movement
    is (diff, 0.0) when [diff > 0], (0.0, abs(diff)) when [diff < 0] and
    (0.0, 0.0) when [diff == 0]; whatever [diff] is, one of the two
    components returned is the literal 0.0. *)
Theorem track_stake_movements_pair
    (validator name : string) (current previous diff : num) :
  py_sub current previous = Ok diff ->
  let moved :=
    returned (track_stake_movements validator name current (Some previous)) in
  returned (track_stake_movements validator name current None)
    = Ok (zero_float, zero_float) /\
  (gt_zero diff = true -> moved = Ok (diff, zero_float)) /\
  (lt_zero diff = true -> moved = Ok (zero_float, py_abs diff)) /\
  (eq_zero diff = true -> moved = Ok (zero_float, zero_float)) /\
  (exists inbound outbound,
      moved = Ok (inbound, outbound) /\
      (inbound = zero_float \/ outbound = zero_float)).
Proof.
  intros Hdiff moved. subst moved.
  unfold track_stake_movements. rewrite Hdiff. cbn [bind].
  split; [reflexivity |].
  split; [intros Hgt; rewrite Hgt; reflexivity |].
  split.
  { intros Hlt. destruct (gt_zero diff) eqn:Hgt.
    - apply gt_zero_not_lt in Hgt. congruence.
    - rewrite Hlt. reflexivity. }
  split.
  { intros Hz. rewrite (eq_zero_not_gt _ Hz), (eq_zero_not_lt _ Hz).
    reflexivity. }
  destruct (gt_zero diff); [| destruct (lt_zero diff)];
    do 2 eexists; (split; [reflexivity | auto]).
Qed.

(** C10.  When there is no previous total, or the previous total is the
    current one (or both are zeros), the call sets no gauge, so the
    published values are what they were.  Otherwise the single [set] is on
    the inbound gauge with [diff] when [diff > 0], on the outbound gauge
    with [abs(diff)] when [diff < 0], and there is none in any other case. *)
Theorem track_stake_movements_sets
    (validator name : string) (current : num) (previous : option num) :
  let sets :=
    performed (track_stake_movements validator name current previous) in
  ((previous = None \/ previous = Some current \/
    (exists p, previous = Some p /\ eq_zero current = true /\ eq_zero p = true)) ->
   sets = [] /\ forall r, apply_sets r sets = r) /\
  (forall p diff, previous = Some p -> py_sub current p = Ok diff ->
     sets =
       if gt_zero diff then
         [GaugeSet VALIDATOR_CAPS_IN validator name "nomination" diff]
       else if lt_zero diff then
         [GaugeSet VALIDATOR_CAPS_OUT validator name "unstake" (py_abs diff)]
       else []).
Proof.
  intros sets. subst sets. split.
  - intros Hcase.
    assert (Hnone : performed
              (track_stake_movements validator name current previous) = []).
    { destruct Hcase as [-> | [-> | [p [-> [Hc Hp]]]]].
      - reflexivity.
      - destruct (py_sub_diag current) as [d [Hd [Hgt Hlt]]].
        unfold track_stake_movements. rewrite Hd. cbn [bind].
        rewrite Hgt, Hlt. reflexivity.
      - destruct (py_sub_zeros current p Hc Hp) as [d [Hd [Hgt Hlt]]].
        unfold track_stake_movements. rewrite Hd. cbn [bind].
        rewrite Hgt, Hlt. reflexivity. }
    rewrite Hnone. split; [reflexivity | intros r; apply apply_sets_nil].
  - intros p diff -> Hdiff.
    unfold track_stake_movements. rewrite Hdiff. cbn [bind].
    destruct (gt_zero diff); [| destruct (lt_zero diff)]; reflexivity.
Qed.

(** ** Dicts *)

Lemma dict_get_set_same {A : Type} (d : dict A) (k : string) (a : A) :
  dict_get (dict_set d k a) k = Some a.
Proof.
  induction d as [| [k' a'] d IH]; simpl.
  - rewrite String.eqb_refl. reflexivity.
  - destruct (String.eqb k' k) eqn:E; simpl; rewrite E; [reflexivity | exact IH].
Qed.

Lemma dict_get_set_other {A : Type} (d : dict A) (k k' : string) (a : A) :
  k <> k' -> dict_get (dict_set d k a) k' = dict_get d k'.
Proof.
  intros Hne. induction d as [| [k0 a0] d IH]; simpl.
  - destruct (String.eqb k k') eqn:E; [| reflexivity].
    apply String.eqb_eq in E. contradiction.
  - destruct (String.eqb k0 k) eqn:E; simpl.
    + apply String.eqb_eq in E. subst k0.
      destruct (String.eqb k k') eqn:E'; [| reflexivity].
      apply String.eqb_eq in E'. contradiction.
    + rewrite IH. reflexivity.
Qed.

Lemma dict_get_none_not_key {A : Type} (d : dict A) (k : string) :
  dict_get d k = None -> ~ In k (map fst d).
Proof.
  clear repr_compound float_of_str.
  induction d as [| [k' a] d IH]; simpl; intros Hget.
  - tauto.
  - destruct (String.eqb k' k) eqn:E; [discriminate |].
    apply String.eqb_neq in E. intros [Heq | Hin]; [congruence | exact (IH Hget Hin)].
Qed.

(** ** [get_validator_stakes] *)

Lemma stakes_step_lookup sub era stakes v w :
  dict_get (stakes_step sub era stakes v) w =
  if String.eqb v w then entry_after sub era (dict_get stakes w) w
  else dict_get stakes w.
Proof.
  unfold stakes_step, entry_after.
  destruct (String.eqb v w) eqn:E.
  - apply String.eqb_eq in E. subst w.
    destruct (validator_stake sub era v) as [[info |] |];
      try rewrite dict_get_set_same; reflexivity.
  - apply String.eqb_neq in E.
    destruct (validator_stake sub era v) as [[info |] |];
      try rewrite (dict_get_set_other _ _ _ _ E); reflexivity.
Qed.

Lemma stakes_loop_lookup sub era validators : forall stakes w,
  dict_get (stakes_loop sub era validators stakes) w =
  if existsb (String.eqb w) validators
  then entry_after sub era (dict_get stakes w) w
  else dict_get stakes w.
Proof.
  unfold stakes_loop.
  induction validators as [| v rest IH]; intros stakes w; simpl.
  - reflexivity.
  - rewrite IH, stakes_step_lookup. rewrite (String.eqb_sym w v).
    destruct (String.eqb v w) eqn:E; simpl.
    + unfold entry_after.
      destruct (existsb (String.eqb w) rest),
               (validator_stake sub era w) as [[info |] |]; reflexivity.
    + reflexivity.
Qed.

Lemma existsb_eqb_in (w : string) (l : list string) :
  existsb (String.eqb w) l = true <-> In w l.
Proof.
  rewrite existsb_exists. split.
  - intros [x [Hin Heq]]. apply String.eqb_eq in Heq. subst x. exact Hin.
  - intros Hin. exists w. split; [exact Hin | apply String.eqb_refl].
Qed.

Lemma existsb_remove (v w : string) (l : list string) :
  w <> v ->
  existsb (String.eqb w) (remove string_dec v l) = existsb (String.eqb w) l.
Proof.
  intros Hne. induction l as [| x l IH]; simpl.
  - reflexivity.
  - destruct (string_dec v x) as [-> | Hx]; simpl.
    + rewrite IH. destruct (String.eqb w x) eqn:E; [| reflexivity].
      apply String.eqb_eq in E. contradiction.
    + rewrite IH. reflexivity.
Qed.

(** A failing reward-points query is absorbed by [get_era_rewards]. *)
Lemma get_era_rewards_query_raises sub validator era :
  query sub "Staking" "ErasRewardPoints" [era] = Raise ->
  get_era_rewards sub validator era = zero_float.
Proof. intros H. unfold get_era_rewards. rewrite H. reflexivity. Qed.

(** Whether the per-validator step raises is decided before the reward
    lookup: by the exposure answer alone. *)
Lemma validator_stake_raises_by_exposure sub sub' era v :
  query sub "Staking" "ErasStakers" [era; PStr v]
  = query sub' "Staking" "ErasStakers" [era; PStr v] ->
  (validator_stake sub era v = Raise <-> validator_stake sub' era v = Raise).
Proof.
  intros Hq. unfold validator_stake. rewrite Hq.
  destruct (query sub' "Staking" "ErasStakers" [era; PStr v]) as [[e |] |];
    cbn [bind]; try tauto.
  destruct (obj_truthy e); try tauto.
  repeat match goal with
  | |- context [bind ?c _] =>
      lazymatch c with
      | context [bind _ _] => fail
      | _ => destruct c; cbn [bind]; try tauto
      end
  end; split; discriminate.
Qed.

(** C1, as the code has it.  When the per-validator step of one validator
    raises (exposure read, balance conversion, nominator count), the call
    still returns a map; there the validator, if it is in the input, has
    the all-zero snapshot, and every other validator has the entry it has
    when the failing validator is removed from the input.  A reward-points
    query that raises is not such a failure: it is absorbed inside
    [get_era_rewards], which then answers 0.0, and it does not decide
    whether the step raises. *)
Theorem failing_validator_is_zeroed
    (sub : substrate) (era : pyval) (validators : list string) (v : string) :
  active_era_index sub = Ok era ->
  validator_stake sub era v = Raise ->
  (exists stakes stakes',
      get_validator_stakes sub validators = Ok stakes /\
      get_validator_stakes sub (remove string_dec v validators) = Ok stakes' /\
      (In v validators -> dict_get stakes v = Some zero_stake_info) /\
      (forall w, w <> v -> dict_get stakes w = dict_get stakes' w)) /\
  (forall w, query sub "Staking" "ErasRewardPoints" [era] = Raise ->
             get_era_rewards sub w era = zero_float) /\
  (forall sub', query sub "Staking" "ErasStakers" [era; PStr v]
                = query sub' "Staking" "ErasStakers" [era; PStr v] ->
                validator_stake sub' era v = Raise).
Proof.
  intros Hera Hraise. split; [| split].
  - unfold get_validator_stakes. rewrite Hera. cbn [bind].
    do 2 eexists. split; [reflexivity |]. split; [reflexivity |]. split.
    + intros Hin. rewrite stakes_loop_lookup.
      apply existsb_eqb_in in Hin. rewrite Hin.
      unfold entry_after. rewrite Hraise. reflexivity.
    + intros w Hne. rewrite !stakes_loop_lookup.
      rewrite (existsb_remove v w validators Hne). reflexivity.
  - intros w. apply get_era_rewards_query_raises.
  - intros sub' Hq. apply (validator_stake_raises_by_exposure sub sub' era v Hq).
    exact Hraise.
Qed.

Lemma validator_stake_falsy sub era v exposure :
  query sub "Staking" "ErasStakers" [era; PStr v] = Ok exposure ->
  object_truthy exposure = false ->
  validator_stake sub era v = Ok None.
Proof.
  intros Hq Hfalsy. unfold validator_stake. rewrite Hq. cbn [bind].
  destruct exposure as [e |]; [| reflexivity].
  simpl in Hfalsy. rewrite Hfalsy. reflexivity.
Qed.

(** ** [update_metrics] *)

Lemma track_stake_movements_validator validator name current previous w :
  In w (performed (track_stake_movements validator name current previous)) ->
  g_validator w = validator /\
  (g_family w = VALIDATOR_CAPS_IN \/ g_family w = VALIDATOR_CAPS_OUT).
Proof.
  clear repr_compound float_of_str.
  unfold track_stake_movements.
  destruct previous as [p |]; [| simpl; tauto].
  destruct (py_sub current p) as [d |]; cbn [bind]; [| simpl; tauto].
  destruct (gt_zero d); [| destruct (lt_zero d)]; simpl;
    intros Hin; decompose [or] Hin; subst; simpl; auto; contradiction.
Qed.

Lemma stake_gauges_validator validator name status era info w :
  In w (stake_gauges validator name status era info) ->
  g_validator w = validator.
Proof.
  unfold stake_gauges. intros Hin. apply in_app_or in Hin.
  destruct Hin as [Hin | Hin].
  - simpl in Hin. decompose [or] Hin; subst; try reflexivity; contradiction.
  - destruct (gt_zero (rewards info)); simpl in Hin;
      decompose [or] Hin; subst; try reflexivity; contradiction.
Qed.

Lemma validator_metrics_validator av ids prev era validator info sets w :
  validator_metrics av ids prev era validator info = Ok sets ->
  In w sets -> g_validator w = validator.
Proof.
  unfold validator_metrics. intros Hrun Hin.
  destruct (track_stake_movements validator (display_name_of ids validator)
              (total_stake info) (previous_total_of prev validator))
    as [moved |] eqn:Htrack; cbn [bind] in Hrun; [| discriminate].
  injection Hrun as <-. apply in_app_or in Hin. destruct Hin as [Hin | Hin].
  - apply (track_stake_movements_validator validator
             (display_name_of ids validator) (total_stake info)
             (previous_total_of prev validator)).
    rewrite Htrack. exact Hin.
  - exact (stake_gauges_validator _ _ _ _ _ _ Hin).
Qed.

Lemma validators_loop_validators av ids prev era items w :
  In w (fst (validators_loop av ids prev era items)) ->
  In (g_validator w) (map fst items).
Proof.
  induction items as [| [validator info] rest IH]; simpl; [tauto |].
  destruct (validator_metrics av ids prev era validator info)
    as [sets |] eqn:Hrun; [| simpl; tauto].
  destruct (validators_loop av ids prev era rest) as [later finished].
  simpl. intros Hin. apply in_app_or in Hin. destruct Hin as [Hin | Hin].
  - left. symmetry. exact (validator_metrics_validator _ _ _ _ _ _ _ _ Hrun Hin).
  - right. apply IH. exact Hin.
Qed.

(** The two ways a cycle ends: before the loop, with nothing done; or in
    or after the loop over the map [get_validator_stakes] returned. *)
Lemma update_metrics_cases sub previous_stakes :
  update_metrics sub previous_stakes = Cycle Raise previous_stakes [] \/
  exists validators stakes,
    get_validator_stakes sub validators = Ok stakes /\
    (forall w, In w (gauge_sets (update_metrics sub previous_stakes)) ->
               In (g_validator w) (map fst stakes)) /\
    (outcome (update_metrics sub previous_stakes) = Ok tt ->
     previous_after (update_metrics sub previous_stakes) = stakes).
Proof.
  unfold update_metrics.
  destruct (gather sub) as [[[[av stakes] ids] era] |] eqn:Hgather;
    [| left; reflexivity].
  right. unfold gather in Hgather.
  destruct (query_map sub "Staking" "Validators") as [listed |];
    cbn [bind] in Hgather; [| discriminate].
  destruct (query sub "Session" "Validators" []) as [session |];
    cbn [bind] in Hgather; [| discriminate].
  destruct (match session with
            | Some obj => py_iter (obj_value obj)
            | None => Raise
            end) as [session_items |]; cbn [bind] in Hgather; [| discriminate].
  destruct (get_validator_stakes sub (map (fun v => py_str (fst v)) listed))
    as [built |] eqn:Hbuilt; cbn [bind] in Hgather; [| discriminate].
  destruct (active_era_index sub) as [era' |]; cbn [bind] in Hgather;
    [| discriminate].
  injection Hgather as <- <- <- <-.
  exists (map (fun v => py_str (fst v)) listed), built.
  split; [exact Hbuilt |].
  pose proof (validators_loop_validators
                (map py_str session_items)
                (get_identities sub (map (fun v => py_str (fst v)) listed))
                previous_stakes era' built) as Hloop.
  destruct (validators_loop (map py_str session_items)
              (get_identities sub (map (fun v => py_str (fst v)) listed))
              previous_stakes era' built) as [sets finished].
  destruct finished as [[] |]; simpl; split; auto; discriminate.
Qed.

(** C9.  A validator whose exposure answer is falsy ([None], or an object
    that is falsy) has no entry in the map returned, so no gauge is set for
    it in the cycle and a cycle that completes leaves it out of
    [previous_stakes]. *)
Theorem falsy_exposure_leaves_no_entry
    (sub : substrate) (era : pyval) (validators : list string) (v : string)
    (exposure : option scale_obj) :
  active_era_index sub = Ok era ->
  query sub "Staking" "ErasStakers" [era; PStr v] = Ok exposure ->
  object_truthy exposure = false ->
  (exists stakes,
      get_validator_stakes sub validators = Ok stakes /\
      dict_get stakes v = None) /\
  (forall previous_stakes,
      let c := update_metrics sub previous_stakes in
      (forall w, In w (gauge_sets c) -> g_validator w <> v) /\
      (outcome c = Ok tt -> dict_get (previous_after c) v = None)).
Proof.
  intros Hera Hq Hfalsy.
  assert (Hstep : validator_stake sub era v = Ok None)
    by (apply (validator_stake_falsy sub era v exposure); assumption).
  assert (Hloop : forall vs, dict_get (stakes_loop sub era vs []) v = None).
  { intros vs. rewrite stakes_loop_lookup. unfold entry_after.
    rewrite Hstep. destruct (existsb (String.eqb v) vs); reflexivity. }
  split.
  - unfold get_validator_stakes. rewrite Hera. cbn [bind].
    eexists. split; [reflexivity | apply Hloop].
  - intros previous_stakes c. subst c.
    destruct (update_metrics_cases sub previous_stakes)
      as [-> | [listed [stakes [Hstakes [Hsets Hprev]]]]].
    + simpl. split; [tauto | discriminate].
    + unfold get_validator_stakes in Hstakes. rewrite Hera in Hstakes.
      cbn [bind] in Hstakes. injection Hstakes as <-.
      split.
      * intros w Hw Heq. apply Hsets in Hw. rewrite Heq in Hw.
        exact (dict_get_none_not_key _ _ (Hloop listed) Hw).
      * intros Hok. rewrite (Hprev Hok). apply Hloop.
Qed.


Lemma raising_cycle_keeps_previous sub previous_stakes :
  outcome (update_metrics sub previous_stakes) = Raise ->
  previous_after (update_metrics sub previous_stakes) = previous_stakes.
Proof.
  unfold update_metrics.
  destruct (gather sub) as [[[[av stakes] ids] era] |]; [| reflexivity].
  destruct (validators_loop av ids previous_stakes era stakes)
    as [sets finished].
  destruct finished as [[] |]; simpl; [discriminate | reflexivity].
Qed.

(** C5.  When reading the active era index raises, [get_validator_stakes]
    raises, [update_metrics] re-raises having set no gauge, and
    [previous_stakes] is the map it was.  More generally a cycle that
    raises anywhere leaves [previous_stakes] as it was: the replacement is
    the last step, after the loop over all validators. *)
Theorem era_failure_keeps_previous_stakes
    (sub : substrate) (previous_stakes : dict stake_info) :
  active_era_index sub = Raise ->
  (forall validators, get_validator_stakes sub validators = Raise) /\
  update_metrics sub previous_stakes = Cycle Raise previous_stakes [] /\
  (forall sub' previous',
      outcome (update_metrics sub' previous') = Raise ->
      previous_after (update_metrics sub' previous') = previous').
Proof.
  intros Hera.
  assert (Hbuild : forall validators, get_validator_stakes sub validators = Raise).
  { intros validators. unfold get_validator_stakes. rewrite Hera. reflexivity. }
  split; [exact Hbuild |]. split.
  - unfold update_metrics, gather.
    destruct (query_map sub "Staking" "Validators") as [listed |];
      cbn [bind]; [| reflexivity].
    destruct (query sub "Session" "Validators" []) as [session |];
      cbn [bind]; [| reflexivity].
    destruct (match session with
              | Some obj => py_iter (obj_value obj)
              | None => Raise
              end) as [session_items |]; cbn [bind]; [| reflexivity].
    rewrite Hbuild. reflexivity.
  - intros sub' previous'. apply raising_cycle_keeps_previous.
Qed.

Lemma validator_stake_nominations sub era v info :
  validator_stake sub era v = Ok (Some info) ->
  py_sub (total_stake info) (self_stake info) = Ok (nominations info).
Proof.
  unfold validator_stake. intros H.
  destruct (query sub "Staking" "ErasStakers" [era; PStr v]) as [[e |] |];
    cbn [bind] in H; try discriminate.
  destruct (obj_truthy e); [| discriminate].
  bind_ok H. injection H as <-. simpl. assumption.
Qed.

(** C6, as the code has it.  In every snapshot of the map returned,
    [nominations] is [total_stake - self_stake] as Python computes it
    (rounded once for floats); the zeroed snapshot also satisfies
    [self_stake + nominations == total_stake]. *)
Theorem nominations_are_total_minus_self
    (sub : substrate) (validators : list string) (stakes : dict stake_info)
    (v : string) (info : stake_info) :
  get_validator_stakes sub validators = Ok stakes ->
  dict_get stakes v = Some info ->
  py_sub (total_stake info) (self_stake info) = Ok (nominations info) /\
  (info = zero_stake_info ->
   exists sum, py_add (self_stake info) (nominations info) = Ok sum /\
               py_eq sum (total_stake info) = true).
Proof.
  unfold get_validator_stakes. intros Hbuild Hget.
  destruct (active_era_index sub) as [era |]; cbn [bind] in Hbuild;
    [| discriminate].
  injection Hbuild as <-. rewrite stakes_loop_lookup in Hget.
  split.
  - destruct (existsb (String.eqb v) validators); [| discriminate].
    unfold entry_after in Hget.
    destruct (validator_stake sub era v) as [[built |] |] eqn:Hstep.
    + injection Hget as <-. exact (validator_stake_nominations _ _ _ _ Hstep).
    + discriminate.
    + injection Hget as <-. reflexivity.
  - intros ->. exists (NInt 0). split; reflexivity.
Qed.

(** ** Stake totals are numbers the tracker can subtract *)

Lemma py_truediv_float (x y r : num) :
  py_truediv x y = Ok r -> exists f, r = NFloat f.
Proof.
  unfold py_truediv. destruct x as [a | f], y as [b | g]; cbn [as_float bind];
    intros H.
  - destruct (b =? 0); [discriminate |].
    destruct (f_div (exact_of_int a) (exact_of_int b));
      try discriminate; injection H as <-; eexists; reflexivity.
  - destruct (float_of_int a); cbn [bind] in H; [| discriminate].
    destruct (SFeqb g f_zero); [discriminate |].
    injection H as <-. eexists; reflexivity.
  - destruct (float_of_int b); cbn [bind] in H; [| discriminate].
    destruct (SFeqb a f_zero); [discriminate |].
    injection H as <-. eexists; reflexivity.
  - destruct (SFeqb g f_zero); [discriminate |].
    injection H as <-. eexists; reflexivity.
Qed.

Lemma validator_stake_total sub era v info :
  validator_stake sub era v = Ok (Some info) ->
  stake_number (total_stake info).
Proof.
  unfold validator_stake. intros H.
  destruct (query sub "Staking" "ErasStakers" [era; PStr v]) as [[e |] |];
    cbn [bind] in H; try discriminate.
  destruct (obj_truthy e); [| discriminate].
  bind_ok H. injection H as <-. simpl. right.
  eapply py_truediv_float. eassumption.
Qed.

Lemma dict_set_all {A : Type} (P : A -> Prop) (d : dict A) (k : string) (a : A) :
  Forall (fun e => P (snd e)) d -> P a ->
  Forall (fun e => P (snd e)) (dict_set d k a).
Proof.
  intros Hd Ha. induction Hd as [| [k' a'] d He Hd IH]; simpl.
  - constructor; [exact Ha | constructor].
  - destruct (String.eqb k' k); constructor; assumption.
Qed.

Lemma dict_get_all {A : Type} (P : A -> Prop) (d : dict A) (k : string) (a : A) :
  Forall (fun e => P (snd e)) d -> dict_get d k = Some a -> P a.
Proof.
  intros Hd. induction Hd as [| [k' a'] d He Hd IH]; simpl; [discriminate |].
  destruct (String.eqb k' k); [| exact IH].
  intros H. injection H as <-. exact He.
Qed.

Lemma stakes_loop_totals sub era validators : forall stakes,
  Forall (fun e => stake_number (total_stake (snd e))) stakes ->
  Forall (fun e => stake_number (total_stake (snd e)))
         (stakes_loop sub era validators stakes).
Proof.
  unfold stakes_loop.
  induction validators as [| v rest IH]; intros stakes Hall; simpl;
    [exact Hall |].
  apply IH. unfold stakes_step.
  destruct (validator_stake sub era v) as [[info |] |] eqn:Hstep.
  - apply (dict_set_all (fun i => stake_number (total_stake i)));
      [exact Hall | exact (validator_stake_total _ _ _ _ Hstep)].
  - exact Hall.
  - apply (dict_set_all (fun i => stake_number (total_stake i)));
      [exact Hall | left; reflexivity].
Qed.

Lemma get_validator_stakes_totals sub validators stakes :
  get_validator_stakes sub validators = Ok stakes ->
  Forall (fun e => stake_number (total_stake (snd e))) stakes.
Proof.
  unfold get_validator_stakes. intros H.
  destruct (active_era_index sub) as [era |]; cbn [bind] in H; [| discriminate].
  injection H as <-. apply stakes_loop_totals. constructor.
Qed.

Lemma track_stake_movements_runs validator name current previous :
  stake_number current ->
  (forall p, previous = Some p -> stake_number p) ->
  track_stake_movements validator name current previous <> Raise.
Proof.
  clear repr_compound float_of_str.
  intros Hc Hp. unfold track_stake_movements.
  destruct previous as [p |]; [| discriminate].
  assert (Hsub : exists d, py_sub current p = Ok d).
  { destruct Hc as [-> | [f ->]], (Hp p eq_refl) as [-> | [g ->]];
      eexists; reflexivity. }
  destruct Hsub as [d ->]. cbn [bind].
  destruct (gt_zero d); [| destruct (lt_zero d)]; discriminate.
Qed.

(** Every turn of the loop runs through when the previous state, like the
    current one, was built by [get_validator_stakes]. *)
Lemma validators_loop_completes av ids previous_stakes era items :
  Forall (fun e => stake_number (total_stake (snd e))) previous_stakes ->
  Forall (fun e => stake_number (total_stake (snd e))) items ->
  snd (validators_loop av ids previous_stakes era items) = Ok tt.
Proof.
  intros Hprev Hitems.
  induction Hitems as [| [validator info] rest He Hrest IH]; simpl;
    [reflexivity |].
  unfold validator_metrics.
  destruct (track_stake_movements validator (display_name_of ids validator)
              (total_stake info) (previous_total_of previous_stakes validator))
    as [moved |] eqn:Htrack; cbn [bind].
  - destruct (validators_loop av ids previous_stakes era rest)
      as [later finished]. exact IH.
  - exfalso. revert Htrack. apply track_stake_movements_runs; [exact He |].
    intros p Hp. unfold previous_total_of in Hp.
    destruct (dict_get previous_stakes validator) as [before |] eqn:Hget;
      [| discriminate].
    injection Hp as <-.
    exact (dict_get_all (fun i => stake_number (total_stake i)) _ _ _ Hprev Hget).
Qed.

(** Starting from the empty [previous_stakes] of a fresh process, every
    state the cycles leave holds such totals, and a cycle whose queries
    before the loop succeed runs to its end. *)
Lemma update_metrics_keeps_stake_numbers sub previous_stakes :
  Forall (fun e => stake_number (total_stake (snd e))) previous_stakes ->
  Forall (fun e => stake_number (total_stake (snd e)))
         (previous_after (update_metrics sub previous_stakes)).
Proof.
  intros Hprev.
  destruct (update_metrics_cases sub previous_stakes)
    as [-> | [listed [stakes [Hstakes [_ Hafter]]]]]; [exact Hprev |].
  destruct (outcome (update_metrics sub previous_stakes)) as [[] |] eqn:Hout.
  - rewrite (Hafter eq_refl). exact (get_validator_stakes_totals _ _ _ Hstakes).
  - rewrite (raising_cycle_keeps_previous sub previous_stakes Hout). exact Hprev.
Qed.

Lemma update_metrics_completes sub previous_stakes :
  Forall (fun e => stake_number (total_stake (snd e))) previous_stakes ->
  gather sub <> Raise ->
  outcome (update_metrics sub previous_stakes) = Ok tt.
Proof.
  intros Hprev Hgather. unfold update_metrics.
  destruct (gather sub) as [[[[av stakes] ids] era] |] eqn:Hg;
    [| contradiction].
  assert (Hstakes : Forall (fun e => stake_number (total_stake (snd e))) stakes).
  { unfold gather in Hg. bind_ok Hg. injection Hg as <- <- <- <-.
    eapply get_validator_stakes_totals. eassumption. }
  pose proof (validators_loop_completes av ids previous_stakes era stakes
                Hprev Hstakes) as Hdone.
  destruct (validators_loop av ids previous_stakes era stakes)
    as [sets finished].
  simpl in Hdone. rewrite Hdone. reflexivity.
Qed.

(** ** The loop body of [update_metrics] *)

Lemma apply_sets_last (r : registry) (sets : list gauge_set) (w : gauge_set) :
  apply_sets r (sets ++ [w])
             (g_family w) (g_validator w) (g_name w) (g_third w)
  = Some (g_value w).
Proof.
  unfold apply_sets. rewrite fold_left_app. simpl. unfold apply_set.
  rewrite !String.eqb_refl. destruct (g_family w); reflexivity.
Qed.

(** ** [get_era_rewards] *)

Example reward_30_of_100 :
  get_era_rewards (chain_with_rewards [("v", 30); ("w", 70)] pool_1000)
                  "v" (PInt 5)
  = NFloat f_300.
Proof. vm_compute. reflexivity. Qed.

Lemma float_of_int_ok (z : Z) :
  float_of_int z <> Raise -> float_of_int z = Ok (nearest_double z).
Proof.
  unfold float_of_int, nearest_double.
  destruct (binary_normalize prec emax z 0 false); congruence.
Qed.

Lemma total_points_pass_floats (table : list (string * Z)) :
  Forall (fun e => float_of_int (snd e) <> Raise) table ->
  forall a,
    total_points_pass
      (map (fun e => PList [PStr (fst e); PInt (snd e)]) table) (NFloat a)
    = Ok (NFloat (fold_left (fun acc e => f_add acc (nearest_double (snd e)))
                            table a)).
Proof.
  induction 1 as [| e rest He Hrest IH]; intros a.
  - reflexivity.
  - cbn [map total_points_pass py_float fold_left].
    rewrite (float_of_int_ok _ He). cbn [bind].
    change (py_add (NFloat a) (NFloat (nearest_double (snd e))))
      with (Ok (NFloat (f_add a (nearest_double (snd e))))).
    cbn [bind]. apply IH.
Qed.

(** The first pass leaves the [int] 0 on an empty table and the float sum
    otherwise; either way the guard sees the sum. *)
Lemma total_points_pass_guarded (table : list (string * Z)) :
  Forall (fun e => float_of_int (snd e) <> Raise) table ->
  exists total,
    total_points_pass (obj_items table) zero_int = Ok total /\
    eq_zero total = SFeqb (summed_points table) f_zero /\
    guard_total total =
      if SFeqb (summed_points table) f_zero then one_int
      else NFloat (summed_points table).
Proof.
  intros Hconv. unfold obj_items. destruct Hconv as [| e rest He Hrest].
  - exists zero_int. repeat split; reflexivity.
  - exists (NFloat (summed_points (e :: rest))).
    split; [| split; reflexivity].
    cbn [map total_points_pass py_float].
    rewrite (float_of_int_ok _ He). cbn [bind].
    change (py_add zero_int (NFloat (nearest_double (snd e))))
      with (Ok (NFloat (f_add f_zero (nearest_double (snd e))))).
    cbn [bind]. apply (total_points_pass_floats rest Hrest).
Qed.

(** The second pass finds the first matching entry; without a match it
    leaves the [int] 0, which divides as the float 0.0 does. *)
Lemma validator_points_pass_first (validator : string)
    (table : list (string * Z)) :
  Forall (fun e => float_of_int (snd e) <> Raise) table ->
  exists points,
    validator_points_pass validator (obj_items table) = Ok points /\
    (points = NFloat (first_points validator table) \/
     points = zero_int /\ first_points validator table = f_zero).
Proof.
  unfold obj_items, first_points.
  induction 1 as [| e rest He Hrest IH].
  - exists zero_int. split; [reflexivity | right; split; reflexivity].
  - cbn [map validator_points_pass py_str find].
    destruct (String.eqb (fst e) validator).
    + exists (NFloat (nearest_double (snd e))). split; [| left; reflexivity].
      cbn [py_float]. rewrite (float_of_int_ok _ He). reflexivity.
    + exact IH.
Qed.

Lemma truediv_guarded (points : num) (first sum : spec_float) :
  points = NFloat first \/ points = zero_int /\ first = f_zero ->
  py_truediv points
    (if SFeqb sum f_zero then one_int else NFloat sum)
  = py_truediv (NFloat first)
      (NFloat (if SFeqb sum f_zero then nearest_double 1 else sum)).
Proof.
  intros [-> | [-> ->]]; destruct (SFeqb sum f_zero) eqn:E.
  - reflexivity.
  - reflexivity.
  - reflexivity.
  - unfold py_truediv. cbn [as_float bind]. reflexivity.
Qed.

Lemma py_truediv_floats (a b : spec_float) :
  SFeqb b f_zero = false ->
  py_truediv (NFloat a) (NFloat b) = Ok (NFloat (f_div a b)).
Proof. intros H. unfold py_truediv. cbn [as_float bind]. rewrite H. reflexivity. Qed.

Lemma guarded_sum_not_zero (sum : spec_float) :
  SFeqb (if SFeqb sum f_zero then nearest_double 1 else sum) f_zero = false.
Proof. destruct (SFeqb sum f_zero) eqn:E; [reflexivity | exact E]. Qed.

(** C3, as the code has it.  For a table of [address, points] entries and
    a pool that is present, all within the range of [float]: when the pool
    is not zero the reward is
    (validatorPoints / totalPoints) * (pool / 1e18), where validatorPoints
    is the points of the first entry for the validator (0.0 without one)
    and totalPoints is the float sum of all points, replaced by 1 when that
    sum is zero; a pool of zero is falsy and the reward is 0.0. *)
Theorem era_reward_is_guarded_share
    (sub : substrate) (validator : string) (era : pyval)
    (table : list (string * Z)) (pool : Z) :
  query sub "Staking" "ErasRewardPoints" [era] = answer (points_table table) ->
  query sub "Staking" "ErasValidatorReward" [era] = answer (PInt pool) ->
  Forall (fun e => float_of_int (snd e) <> Raise) table ->
  float_of_int pool <> Raise ->
  (pool <> 0 ->
   Ok (get_era_rewards sub validator era)
   = reward_over_guarded_sum validator table pool) /\
  (pool = 0 -> get_era_rewards sub validator era = zero_float).
Proof.
  intros Hpoints Hpool Hconv Hpoolconv.
  unfold get_era_rewards. rewrite Hpoints. unfold answer.
  cbn [obj_truthy]. unfold reward_share. cbn [obj_value points_table].
  destruct (total_points_pass_guarded table Hconv)
    as [total [Htotal [Htz Hguard]]].
  destruct (validator_points_pass_first validator table Hconv)
    as [points [Hfirst Hrel]].
  rewrite Htotal, Hfirst. cbn [bind]. rewrite Hpool. unfold answer.
  cbn [bind obj_truthy obj_value truthy py_float andb].
  split.
  - intros Hnz.
    assert (Hpool0 : (pool =? 0) = false) by (apply Z.eqb_neq; exact Hnz).
    rewrite Hpool0. cbn [negb].
    rewrite (float_of_int_ok _ Hpoolconv). cbn [bind].
    rewrite Hguard, (truediv_guarded points _ (summed_points table) Hrel).
    unfold reward_over_guarded_sum, reward_formula.
    rewrite (py_truediv_floats _ _ (guarded_sum_not_zero (summed_points table))).
    rewrite (py_truediv_floats _ f_1e18 eq_refl).
    reflexivity.
  - intros ->. reflexivity.
Qed.

(** ** [get_identities] *)

Example bob_alice :
  display (wallet_identity (chain_sub_identity (answer record_bob)) "w")
  = "Bob/alice".
Proof. reflexivity. Qed.

Example alice_alone :
  display (wallet_identity (chain_sub_identity (answer record_no_display)) "w")
  = "alice".
Proof. reflexivity. Qed.

Lemma get_identities_lookup sub wallets : forall identities w,
  dict_get (fold_left (fun identities wallet =>
                         dict_set identities wallet (wallet_identity sub wallet))
                      wallets identities) w
  = if existsb (String.eqb w) wallets then Some (wallet_identity sub w)
    else dict_get identities w.
Proof.
  induction wallets as [| x rest IH]; intros identities w; simpl.
  - reflexivity.
  - rewrite IH. destruct (String.eqb w x) eqn:E; simpl.
    + apply String.eqb_eq in E. subst x. rewrite dict_get_set_same.
      destruct (existsb (String.eqb w) rest); reflexivity.
    + apply String.eqb_neq in E.
      rewrite dict_get_set_other by congruence. reflexivity.
Qed.

(** C8, as the code has it.  For a wallet that is a sub-identity: when the
    parent's identity record is present (with an [info] dict), the display
    is "<parentDisplay>/<subName>" if the record's display name is not
    empty and "<subName>" if it is; when the parent has no identity record,
    the display is empty.  This is the entry [get_identities] returns for
    the wallet. *)
Theorem sub_identity_display_name
    (sub : substrate) (wallets : list string) (wallet : string)
    (parent : option scale_obj) (parent_raw sub_identity_raw : pyval)
    (identity_raw : option scale_obj) :
  query sub "Identity" "SuperOf" [PStr wallet] = Ok parent ->
  has_value parent = true ->
  py_subscript_index (value_of parent) 0 = Ok parent_raw ->
  py_subscript_index (value_of parent) 1 = Ok sub_identity_raw ->
  query sub "Identity" "IdentityOf" [PStr (py_str parent_raw)] = Ok identity_raw ->
  (In wallet wallets ->
   dict_get (get_identities sub wallets) wallet
   = Some (wallet_identity sub wallet)) /\
  (has_value identity_raw = false ->
   display (wallet_identity sub wallet) = "") /\
  (has_value identity_raw = true ->
   forall info shown,
     py_get (value_of identity_raw) "info" (PDict []) = Ok (PDict info) ->
     py_get (PDict info) "display" (PStr "") = Ok shown ->
     display (wallet_identity sub wallet)
     = sub_identity_display (extract_identity_value shown)
                            (extract_identity_value sub_identity_raw)).
Proof.
  intros Hsuper Hparent Hzero Hone Hidentity.
  split; [| split].
  - intros Hin. unfold get_identities. rewrite get_identities_lookup.
    apply existsb_eqb_in in Hin. rewrite Hin. reflexivity.
  - intros Habsent. unfold wallet_identity. rewrite Hsuper, Hparent.
    unfold parent_identity. rewrite Hone, Hzero. cbn [bind].
    rewrite Hidentity. cbn [bind]. rewrite Habsent. reflexivity.
  - intros Hpresent info shown Hinfo Hshown.
    unfold wallet_identity. rewrite Hsuper, Hparent.
    unfold parent_identity. rewrite Hone, Hzero. cbn [bind].
    rewrite Hidentity. cbn [bind]. rewrite Hpresent, Hinfo. cbn [bind].
    unfold info_field. rewrite Hshown. cbn [bind py_get].
    unfold sub_identity_display.
    repeat match goal with
    | |- context [match dict_get info ?k with _ => _ end] =>
        destruct (dict_get info k)
    end; cbn [bind or_default display];
      destruct (String.eqb (extract_identity_value shown) ""); reflexivity.
Qed.

Lemma float_of_int_inv (z : Z) (f : spec_float) :
  float_of_int z = Ok f ->
  f = nearest_double z /\ nearest_double z <> S754_infinity false.
Proof.
  unfold float_of_int, nearest_double.
  destruct (binary_normalize prec emax z 0 false); intros H;
    try discriminate; injection H as <-; split; congruence.
Qed.

Lemma guard_total_not_zero (total : num) : eq_zero (guard_total total) = false.
Proof.
  unfold guard_total. destruct (eq_zero total) eqn:E; [reflexivity | exact E].
Qed.




(** * Further properties of the code *)

(** ** Dicts: keys *)

Lemma dict_get_in_keys {A : Type} (d : dict A) (k : string) :
  In k (map fst d) <-> dict_get d k <> None.
Proof.
  clear repr_compound float_of_str.
  split.
  - intros Hin Hnone. exact (dict_get_none_not_key d k Hnone Hin).
  - induction d as [| [k' a] d IH]; simpl; [congruence |].
    destruct (String.eqb k' k) eqn:E.
    + apply String.eqb_eq in E. intros _. left. exact E.
    + intros H. right. exact (IH H).
Qed.

Lemma dict_set_same {A : Type} (d : dict A) (k : string) (a : A) :
  dict_get d k = Some a -> dict_set d k a = d.
Proof.
  induction d as [| [k' a'] d IH]; simpl; [discriminate |].
  destruct (String.eqb k' k) eqn:E.
  - intros H. injection H as ->. reflexivity.
  - intros H. rewrite (IH H). reflexivity.
Qed.

Lemma dict_set_keys {A : Type} (d : dict A) (k : string) (a : A) :
  map fst (dict_set d k a) =
  if existsb (String.eqb k) (map fst d) then map fst d
  else (map fst d ++ [k])%list.
Proof.
  induction d as [| [k' a'] d IH]; simpl; [reflexivity |].
  rewrite (String.eqb_sym k k').
  destruct (String.eqb k' k) eqn:E; simpl; [reflexivity |].
  rewrite IH. destruct (existsb (String.eqb k) (map fst d)); reflexivity.
Qed.

Lemma dict_set_distinct_keys {A : Type} (d : dict A) (k : string) (a : A) :
  NoDup (map fst d) -> NoDup (map fst (dict_set d k a)).
Proof.
  intros Hd. rewrite dict_set_keys.
  destruct (existsb (String.eqb k) (map fst d)) eqn:E; [exact Hd |].
  apply NoDup_app; [exact Hd | repeat constructor; simpl; tauto |].
  intros x Hx [<- | []].
  apply existsb_eqb_in in Hx. congruence.
Qed.

Lemma dict_get_of_entry {A : Type} (d : dict A) (k : string) (a : A) :
  NoDup (map fst d) -> In (k, a) d -> dict_get d k = Some a.
Proof.
  clear repr_compound float_of_str.
  induction d as [| [k' a'] d IH]; simpl; intros Hd Hin; [contradiction |].
  inversion Hd as [| x l Hnotin Hrest]; subst.
  destruct Hin as [Heq | Hin].
  - injection Heq as -> ->. rewrite String.eqb_refl. reflexivity.
  - destruct (String.eqb k' k) eqn:E; [| exact (IH Hrest Hin)].
    apply String.eqb_eq in E. subst k'. exfalso. apply Hnotin.
    exact (in_map fst _ _ Hin).
Qed.

(** ** [get_validator_stakes]: the shape of the map *)

Lemma stakes_loop_distinct_keys sub era validators : forall stakes,
  NoDup (map fst stakes) ->
  NoDup (map fst (stakes_loop sub era validators stakes)).
Proof.
  unfold stakes_loop.
  induction validators as [| v rest IH]; intros stakes Hd; simpl; [exact Hd |].
  apply IH. unfold stakes_step.
  destruct (validator_stake sub era v) as [[info |] |];
    try apply dict_set_distinct_keys; exact Hd.
Qed.

Lemma get_validator_stakes_distinct_keys sub validators stakes :
  get_validator_stakes sub validators = Ok stakes -> NoDup (map fst stakes).
Proof.
  unfold get_validator_stakes. intros H.
  destruct (active_era_index sub) as [era |]; cbn [bind] in H; [| discriminate].
  injection H as <-. apply stakes_loop_distinct_keys. constructor.
Qed.

(** X1.  The keys of the map returned are pairwise distinct, and they are
    exactly the input validators whose exposure answer was not falsy:
    every listed validator is either skipped or present once, and nothing
    else is in the map. *)
Theorem snapshot_keys_are_the_processed_validators
    (sub : substrate) (era : pyval) (validators : list string)
    (stakes : dict stake_info) :
  active_era_index sub = Ok era ->
  get_validator_stakes sub validators = Ok stakes ->
  NoDup (map fst stakes) /\
  forall v, In v (map fst stakes) <->
            In v validators /\ validator_stake sub era v <> Ok None.
Proof.
  intros Hera Hbuild.
  split; [exact (get_validator_stakes_distinct_keys _ _ _ Hbuild) |].
  unfold get_validator_stakes in Hbuild. rewrite Hera in Hbuild.
  cbn [bind] in Hbuild. injection Hbuild as <-.
  intros v. rewrite dict_get_in_keys, stakes_loop_lookup.
  destruct (existsb (String.eqb v) validators) eqn:E.
  - apply existsb_eqb_in in E. unfold entry_after. simpl.
    destruct (validator_stake sub era v) as [[info |] |];
      split; try congruence; try tauto;
      intros _; split; [exact E | discriminate | exact E | discriminate].
  - simpl. split; [congruence |]. intros [Hin _].
    apply existsb_eqb_in in Hin. congruence.
Qed.

Lemma stakes_step_again sub era stakes v :
  dict_get stakes v = entry_after sub era None v ->
  stakes_step sub era stakes v = stakes.
Proof.
  unfold stakes_step, entry_after.
  destruct (validator_stake sub era v) as [[info |] |]; intros H;
    try reflexivity; apply dict_set_same; exact H.
Qed.

(** X2.  Listing validators again changes nothing: the map for an input
    followed by validators it already contains is the map for the input,
    entry for entry and in the same order. *)
Theorem repeated_validators_change_nothing
    (sub : substrate) (validators again : list string) :
  incl again validators ->
  get_validator_stakes sub (validators ++ again)%list
  = get_validator_stakes sub validators.
Proof.
  intros Hincl. unfold get_validator_stakes.
  destruct (active_era_index sub) as [era |]; cbn [bind]; [| reflexivity].
  f_equal. unfold stakes_loop. rewrite fold_left_app.
  fold (stakes_loop sub era validators []).
  assert (Hkeep : forall ws stakes,
             (forall w, In w ws ->
                        dict_get stakes w = entry_after sub era None w) ->
             fold_left (stakes_step sub era) ws stakes = stakes).
  { induction ws as [| w ws IH]; intros stakes Hall; simpl; [reflexivity |].
    rewrite stakes_step_again by (apply Hall; left; reflexivity).
    apply IH. intros w' Hw'. apply Hall. right. exact Hw'. }
  apply Hkeep. intros w Hw. rewrite stakes_loop_lookup.
  assert (Hin : existsb (String.eqb w) validators = true)
    by (apply existsb_eqb_in, Hincl, Hw).
  rewrite Hin. reflexivity.
Qed.

Lemma py_mul_float (a : spec_float) (y r : num) :
  py_mul (NFloat a) y = Ok r -> exists f, r = NFloat f.
Proof.
  clear repr_compound float_of_str.
  unfold py_mul. cbn [as_float bind]. intros H.
  destruct (as_float y); cbn [bind] in H; [| discriminate].
  injection H as <-. eexists; reflexivity.
Qed.

(** The reward is a float in every case. *)
Lemma get_era_rewards_float sub validator era :
  exists f, get_era_rewards sub validator era = NFloat f.
Proof.
  unfold get_era_rewards.
  destruct (query sub "Staking" "ErasRewardPoints" [era]) as [[rp |] |];
    try (eexists; reflexivity).
  destruct (obj_truthy rp); [| eexists; reflexivity].
  destruct (reward_share sub validator era rp) as [[r |] |] eqn:Hshare;
    try (eexists; reflexivity).
  unfold reward_share in Hshare.
  destruct (obj_value rp); try discriminate.
  bind_ok Hshare.
  match type of Hshare with
  | match ?o with _ => _ end = _ => destruct o as [reward |]; [| discriminate]
  end.
  destruct (obj_truthy reward && truthy (obj_value reward)); [| discriminate].
  bind_ok Hshare. injection Hshare as <-.
  match goal with
  | Hm : py_mul ?x _ = Ok _, Hd : py_truediv _ _ = Ok ?x |- _ =>
      let f := fresh "f" in
      destruct (py_truediv_float _ _ _ Hd) as [f ->];
      exact (py_mul_float _ _ _ Hm)
  end.
Qed.

Lemma validator_stake_well_formed sub era v info :
  validator_stake sub era v = Ok (Some info) -> well_formed_snapshot info.
Proof.
  unfold validator_stake. intros H.
  destruct (query sub "Staking" "ErasStakers" [era; PStr v]) as [[e |] |];
    cbn [bind] in H; try discriminate.
  destruct (obj_truthy e); [| discriminate].
  bind_ok H. injection H as <-. right.
  repeat match goal with
  | Hd : py_truediv _ _ = Ok ?r |- _ =>
      let f := fresh "f" in
      destruct (py_truediv_float _ _ _ Hd) as [f ->]; clear Hd
  end.
  match goal with
  | Hs : py_sub _ _ = Ok _ |- _ =>
      rewrite py_sub_floats in Hs; injection Hs as <-
  end.
  destruct (get_era_rewards_float sub v era) as [reward ->].
  match goal with
  | Hl : py_len ?l = Ok ?n |- _ =>
      do 4 eexists; split; [reflexivity |];
      unfold py_len in Hl;
      destruct l; try discriminate; injection Hl as <-; apply Nat2Z.is_nonneg
  end.
Qed.

Lemma stakes_loop_all (P : stake_info -> Prop) sub era validators :
  P zero_stake_info ->
  (forall v info, validator_stake sub era v = Ok (Some info) -> P info) ->
  forall stakes,
    Forall (fun e => P (snd e)) stakes ->
    Forall (fun e => P (snd e)) (stakes_loop sub era validators stakes).
Proof.
  intros Hzero Hstep. unfold stakes_loop.
  induction validators as [| v rest IH]; intros stakes Hall; simpl;
    [exact Hall |].
  apply IH. unfold stakes_step.
  destruct (validator_stake sub era v) as [[info |] |] eqn:E.
  - apply (dict_set_all P); [exact Hall | exact (Hstep v info E)].
  - exact Hall.
  - apply (dict_set_all P); [exact Hall | exact Hzero].
Qed.

(** X3.  Every snapshot in the map returned is of one of two kinds: the
    all-zero snapshot (six [int] zeros), or a snapshot whose self stake,
    total stake and rewards are floats, whose nominations are the float
    difference total - self, whose nominator count is a non-negative
    [int], and whose slashes are 0.0. *)
Theorem snapshots_are_well_formed
    (sub : substrate) (validators : list string) (stakes : dict stake_info)
    (v : string) (info : stake_info) :
  get_validator_stakes sub validators = Ok stakes ->
  dict_get stakes v = Some info ->
  well_formed_snapshot info.
Proof.
  unfold get_validator_stakes. intros Hbuild Hget.
  destruct (active_era_index sub) as [era |]; cbn [bind] in Hbuild;
    [| discriminate].
  injection Hbuild as <-.
  refine (dict_get_all well_formed_snapshot _ _ _ _ Hget).
  apply stakes_loop_all.
  - left. reflexivity.
  - intros w built. apply validator_stake_well_formed.
  - constructor.
Qed.

(** X4.  For a validator whose exposure is a dict with [int] own and total
    (within float range) and whose ["others"] is a list or is missing, the
    map holds own / 1e18, total / 1e18, their float difference, the length
    of the list (0 when the key is missing), the era reward and slashes
    0.0. *)
Theorem snapshot_of_an_exposure
    (sub : substrate) (era : pyval) (validators : list string) (v : string)
    (entries : list (string * pyval)) (own total : Z) :
  active_era_index sub = Ok era ->
  In v validators ->
  query sub "Staking" "ErasStakers" [era; PStr v] = answer (PDict entries) ->
  dict_get entries "own" = Some (PInt own) ->
  dict_get entries "total" = Some (PInt total) ->
  float_of_int own <> Raise ->
  float_of_int total <> Raise ->
  (forall others, dict_get entries "others" = Some others ->
                  exists items, others = PList items) ->
  exists stakes,
    get_validator_stakes sub validators = Ok stakes /\
    dict_get stakes v =
      Some (StakeInfo
              (NFloat (f_div (nearest_double own) f_1e18))
              (NFloat (f_div (nearest_double total) f_1e18))
              (NFloat (f_sub (f_div (nearest_double total) f_1e18)
                             (f_div (nearest_double own) f_1e18)))
              (NInt (nominators_of entries))
              (get_era_rewards sub v era) zero_float).
Proof.
  intros Hera Hin Hq Hown Htotal Hoc Htc Hothers.
  unfold get_validator_stakes. rewrite Hera. cbn [bind].
  eexists. split; [reflexivity |].
  rewrite stakes_loop_lookup.
  apply existsb_eqb_in in Hin. rewrite Hin.
  unfold entry_after, validator_stake. rewrite Hq. unfold answer.
  cbn [bind obj_truthy obj_value py_subscript_key py_get].
  rewrite Hown, Htotal. cbn [bind py_float].
  rewrite (float_of_int_ok _ Hoc), (float_of_int_ok _ Htc). cbn [bind].
  rewrite !(py_truediv_floats _ f_1e18 eq_refl). cbn [bind].
  rewrite py_sub_floats. cbn [bind]. unfold nominators_of, get_era_slashes.
  destruct (dict_get entries "others") as [others |] eqn:Ho.
  - destruct (Hothers others eq_refl) as [items ->]. reflexivity.
  - reflexivity.
Qed.

(** X5.  A validator whose exposure answer is truthy but is not a dict
    holding both ["own"] and ["total"] is not dropped: it is in the map
    with the all-zero snapshot. *)
Theorem exposure_without_stakes_is_zeroed
    (sub : substrate) (era : pyval) (validators : list string) (v : string)
    (value : pyval) :
  active_era_index sub = Ok era ->
  In v validators ->
  query sub "Staking" "ErasStakers" [era; PStr v] = answer value ->
  (forall entries, value = PDict entries ->
                   dict_get entries "own" = None \/
                   dict_get entries "total" = None) ->
  exists stakes,
    get_validator_stakes sub validators = Ok stakes /\
    dict_get stakes v = Some zero_stake_info.
Proof.
  intros Hera Hin Hq Hshape.
  unfold get_validator_stakes. rewrite Hera. cbn [bind].
  eexists. split; [reflexivity |].
  rewrite stakes_loop_lookup.
  apply existsb_eqb_in in Hin. rewrite Hin.
  unfold entry_after.
  assert (Hraise : validator_stake sub era v = Raise).
  { unfold validator_stake. rewrite Hq. unfold answer.
    cbn [bind obj_truthy obj_value].
    destruct value as [| b | z | s | items | items | entries];
      try reflexivity.
    cbn [py_subscript_key].
    destruct (Hshape entries eq_refl) as [Hnone | Hnone].
    - rewrite Hnone. reflexivity.
    - rewrite Hnone.
      destruct (dict_get entries "own") as [own |]; [| reflexivity].
      cbn [bind]. destruct (py_float own) as [f |]; [| reflexivity].
      cbn [bind].
      destruct (py_truediv (NFloat f) (NFloat f_1e18)); reflexivity. }
  rewrite Hraise. reflexivity.
Qed.

(** ** [get_era_rewards]: entries, missing data, zero shares *)

Lemma total_points_pass_pairs (entries : list pyval) : forall total,
  total_points_pass (filter entry_is_pair entries) total
  = total_points_pass entries total.
Proof.
  induction entries as [| entry rest IH]; intros total; [reflexivity |].
  destruct entry as [| b | z | s | [| a [| p items]] | items | d];
    cbn [filter entry_is_pair total_points_pass]; try apply IH.
  destruct (py_float p) as [f |]; cbn [bind]; [| reflexivity].
  destruct (py_add total (NFloat f)) as [t |]; cbn [bind]; [apply IH | reflexivity].
Qed.

Lemma validator_points_pass_pairs (validator : string) (entries : list pyval) :
  validator_points_pass validator (filter entry_is_pair entries)
  = validator_points_pass validator entries.
Proof.
  induction entries as [| entry rest IH]; [reflexivity |].
  destruct entry as [| b | z | s | [| a [| p items]] | items | d];
    cbn [filter entry_is_pair validator_points_pass]; try apply IH.
  destruct (String.eqb (py_str a) validator); [reflexivity | apply IH].
Qed.

(** X6.  Entries of the reward-points list that are not lists of at least
    two items are ignored: the reward is the one computed from the list
    with those entries removed. *)
Theorem malformed_entries_are_ignored
    (sub sub' : substrate) (validator : string) (era : pyval)
    (entries : list pyval) :
  query sub "Staking" "ErasRewardPoints" [era] = answer (PList entries) ->
  query sub' "Staking" "ErasRewardPoints" [era]
  = answer (PList (filter entry_is_pair entries)) ->
  query sub' "Staking" "ErasValidatorReward" [era]
  = query sub "Staking" "ErasValidatorReward" [era] ->
  get_era_rewards sub' validator era = get_era_rewards sub validator era.
Proof.
  intros Hq Hq' Hpool. unfold get_era_rewards. rewrite Hq, Hq'.
  unfold answer. cbn [obj_truthy]. unfold reward_share. cbn [obj_value].
  rewrite total_points_pass_pairs, validator_points_pass_pairs, Hpool.
  reflexivity.
Qed.

Lemma total_points_pass_unreadable (entries : list pyval)
    (address points : pyval) (items : list pyval) :
  In (PList (address :: points :: items)) entries ->
  py_float points = Raise ->
  forall total, total_points_pass entries total = Raise.
Proof.
  intros Hin Hbad.
  induction entries as [| entry rest IH]; intros total; [contradiction |].
  destruct Hin as [-> | Hin].
  - cbn [total_points_pass]. rewrite Hbad. reflexivity.
  - destruct entry as [| b | z | s | [| a [| p more]] | more | d];
      cbn [total_points_pass]; try (apply IH; exact Hin).
    destruct (py_float p) as [f |]; cbn [bind]; [| reflexivity].
    destruct (py_add total (NFloat f)) as [t |]; cbn [bind];
      [apply IH; exact Hin | reflexivity].
Qed.

(** X7.  One entry whose points [float()] rejects, anywhere in the list,
    makes the reward 0.0 for every validator of that era, also for the
    validators whose own entries are sound. *)
Theorem unreadable_points_zero_every_reward
    (sub : substrate) (era : pyval) (entries : list pyval)
    (address points : pyval) (items : list pyval) :
  query sub "Staking" "ErasRewardPoints" [era] = answer (PList entries) ->
  In (PList (address :: points :: items)) entries ->
  py_float points = Raise ->
  forall validator, get_era_rewards sub validator era = zero_float.
Proof.
  intros Hq Hin Hbad validator. unfold get_era_rewards. rewrite Hq.
  unfold answer. cbn [obj_truthy]. unfold reward_share. cbn [obj_value].
  rewrite (total_points_pass_unreadable entries address points items Hin Hbad).
  reflexivity.
Qed.

(** X8.  The reward is 0.0 whenever the reward-points value is not a list,
    and, whatever the reward-points answer, whenever the pool query raises
    or its answer is [None], falsy or has a falsy value. *)
Theorem missing_reward_data_gives_zero
    (sub : substrate) (validator : string) (era : pyval) :
  ((exists obj, query sub "Staking" "ErasRewardPoints" [era] = Ok (Some obj) /\
                is_list (obj_value obj) = false) \/
   query sub "Staking" "ErasValidatorReward" [era] = Raise \/
   (exists pool, query sub "Staking" "ErasValidatorReward" [era] = Ok pool /\
                 has_value pool = false)) ->
  get_era_rewards sub validator era = zero_float.
Proof.
  intros Hcase. unfold get_era_rewards.
  destruct (query sub "Staking" "ErasRewardPoints" [era]) as [[rp |] |];
    try reflexivity.
  destruct (obj_truthy rp); [| reflexivity].
  unfold reward_share.
  destruct Hcase as [[obj [Hobj Hshape]] | Hpool].
  - injection Hobj as <-. destruct (obj_value rp); try reflexivity.
    discriminate.
  - destruct (obj_value rp) as [| b | z | s | entries | items | d];
      try reflexivity.
    destruct (total_points_pass entries zero_int) as [total |];
      cbn [bind]; [| reflexivity].
    destruct (validator_points_pass validator entries) as [points |];
      cbn [bind]; [| reflexivity].
    destruct Hpool as [-> | [pool [-> Hfalsy]]]; cbn [bind]; [reflexivity |].
    destruct pool as [reward |]; [| reflexivity].
    simpl in Hfalsy. rewrite Hfalsy. reflexivity.
Qed.

Lemma binary_normalize_nonneg (m e : Z) :
  0 <= m -> nonneg_float (binary_normalize prec emax m e false).
Proof.
  clear repr_compound float_of_str.
  intros Hm. unfold binary_normalize.
  destruct m as [| p | p]; [reflexivity | | lia].
  unfold binary_round.
  destruct (shl_align p e (fexp prec emax (Zpos (digits2_pos p) + e)))
    as [mz ez].
  destruct (binary_round_aux_cases false (Zpos mz) ez loc_Exact ltac:(lia))
    as [H | [[H _] | [m' [e' [H _]]]]]; rewrite H; reflexivity.
Qed.

Lemma f_add_nonneg (x y : spec_float) :
  nonneg_float x -> nonneg_float y -> nonneg_float (f_add x y).
Proof.
  clear repr_compound float_of_str.
  destruct x as [sx | sx | | sx mx ex], y as [sy | sy | | sy my ey];
    cbn [nonneg_float]; intros Hx Hy; subst; try contradiction;
    try reflexivity.
  unfold f_add, SFadd. apply binary_normalize_nonneg.
  cbn [cond_Zopp]. lia.
Qed.

Lemma summed_points_nonneg (table : list (string * Z)) :
  Forall (fun e => 0 <= snd e) table -> nonneg_float (summed_points table).
Proof.
  clear repr_compound float_of_str.
  intros Hnn. unfold summed_points.
  assert (Hgen : forall start, nonneg_float start ->
            nonneg_float
              (fold_left (fun acc e => f_add acc (nearest_double (snd e)))
                         table start)).
  { induction Hnn as [| e rest He Hrest IH]; intros start Hs; simpl;
      [exact Hs |].
    apply IH. apply f_add_nonneg; [exact Hs |].
    apply binary_normalize_nonneg. exact He. }
  apply Hgen. reflexivity.
Qed.

Lemma zero_over_nonneg (sum : spec_float) :
  nonneg_float sum -> SFeqb sum f_zero = false -> f_div f_zero sum = f_zero.
Proof.
  clear repr_compound float_of_str.
  destruct sum as [s | s | | s m e]; simpl; intros Hs Hnz; subst;
    try contradiction; try reflexivity.
  discriminate.
Qed.

(** With a ratio of 0.0 the product is 0.0, whatever the pool answers. *)
Lemma zero_ratio_gives_zero_reward sub validator era entries total points :
  query sub "Staking" "ErasRewardPoints" [era] = answer (PList entries) ->
  total_points_pass entries zero_int = Ok total ->
  validator_points_pass validator entries = Ok points ->
  py_truediv points (guard_total total) = Ok zero_float ->
  (forall obj, query sub "Staking" "ErasValidatorReward" [era] = Ok (Some obj) ->
               exists pool, 0 <= pool /\ obj_value obj = PInt pool) ->
  get_era_rewards sub validator era = zero_float.
Proof.
  intros Hq Htotal Hpoints Hratio Hpool.
  unfold get_era_rewards. rewrite Hq. unfold answer. cbn [obj_truthy].
  unfold reward_share. cbn [obj_value]. rewrite Htotal, Hpoints. cbn [bind].
  destruct (query sub "Staking" "ErasValidatorReward" [era])
    as [[reward |] |] eqn:Hr; cbn [bind]; try reflexivity.
  destruct (Hpool reward eq_refl) as [pool [Hpos Hvalue]].
  destruct (obj_truthy reward && truthy (obj_value reward)); [| reflexivity].
  rewrite Hvalue. cbn [py_float].
  destruct (float_of_int pool) as [raw |] eqn:Hraw; cbn [bind];
    [| reflexivity].
  destruct (float_of_int_inv pool raw Hraw) as [-> Hfin].
  rewrite (py_truediv_floats _ f_1e18 eq_refl). cbn [bind].
  rewrite Hratio. cbn [bind]. unfold zero_float, py_mul. cbn [as_float bind].
  rewrite (zero_times_caps pool Hpos Hfin). reflexivity.
Qed.

(** X9.  Over a table of non-negative points, a validator with no entry,
    or whose first entry has 0 points, gets exactly 0.0, whatever the
    other entries and whatever (non-negative) pool the chain answers. *)
Theorem no_points_no_reward
    (sub : substrate) (validator : string) (era : pyval)
    (table : list (string * Z)) :
  Forall (fun e => 0 <= snd e) table ->
  Forall (fun e => float_of_int (snd e) <> Raise) table ->
  (forall e, find (fun e => String.eqb (fst e) validator) table = Some e ->
             snd e = 0) ->
  query sub "Staking" "ErasRewardPoints" [era] = answer (points_table table) ->
  (forall obj, query sub "Staking" "ErasValidatorReward" [era] = Ok (Some obj) ->
               exists pool, 0 <= pool /\ obj_value obj = PInt pool) ->
  get_era_rewards sub validator era = zero_float.
Proof.
  intros Hnn Hconv Hfirst Hq Hpool.
  destruct (total_points_pass_guarded table Hconv)
    as [total [Htotal [Htz Hguard]]].
  destruct (validator_points_pass_first validator table Hconv)
    as [points [Hpoints Hrel]].
  assert (Hzero : first_points validator table = f_zero).
  { unfold first_points.
    destruct (find (fun e => String.eqb (fst e) validator) table) as [e |];
      [| reflexivity].
    rewrite (Hfirst e eq_refl). reflexivity. }
  rewrite Hzero in Hrel.
  apply (zero_ratio_gives_zero_reward sub validator era (obj_items table)
           total points Hq Htotal Hpoints); [| exact Hpool].
  rewrite Hguard.
  destruct (SFeqb (summed_points table) f_zero) eqn:Hs.
  - destruct Hrel as [-> | [-> _]]; reflexivity.
  - assert (Hdiv : f_div f_zero (summed_points table) = f_zero)
      by (apply zero_over_nonneg; [apply summed_points_nonneg; exact Hnn | exact Hs]).
    destruct Hrel as [-> | [-> _]]; unfold py_truediv, zero_int;
      cbn [as_float bind];
      try change (float_of_int 0) with (Ok f_zero);
      cbn [bind]; rewrite Hs, Hdiv; reflexivity.
Qed.

(** ** [update_metrics]: what a cycle publishes *)

Lemma gather_ok sub av stakes ids era :
  gather sub = Ok (av, stakes, ids, era) ->
  exists listed session items,
    query_map sub "Staking" "Validators" = Ok listed /\
    query sub "Session" "Validators" [] = Ok (Some session) /\
    py_iter (obj_value session) = Ok items /\
    av = map py_str items /\
    get_validator_stakes sub (listed_validators listed) = Ok stakes /\
    ids = get_identities sub (listed_validators listed) /\
    active_era_index sub = Ok era.
Proof.
  unfold gather. intros H.
  destruct (query_map sub "Staking" "Validators") as [listed |];
    cbn [bind] in H; [| discriminate].
  destruct (query sub "Session" "Validators" []) as [[session |] |];
    cbn [bind] in H; try discriminate.
  destruct (py_iter (obj_value session)) as [items |] eqn:Hiter;
    cbn [bind] in H; [| discriminate].
  fold (listed_validators listed) in H.
  destruct (get_validator_stakes sub (listed_validators listed))
    as [built |] eqn:Hbuilt; cbn [bind] in H; [| discriminate].
  destruct (active_era_index sub) as [era' |]; cbn [bind] in H;
    [| discriminate].
  injection H as <- <- <- <-.
  exists listed, session, items. repeat split; auto.
Qed.

(** A cycle is the loop over the gathered map, or nothing at all. *)
Lemma update_metrics_loop sub previous_stakes :
  (gather sub = Raise /\
   update_metrics sub previous_stakes = Cycle Raise previous_stakes []) \/
  exists av stakes ids era,
    gather sub = Ok (av, stakes, ids, era) /\
    gauge_sets (update_metrics sub previous_stakes)
    = fst (validators_loop av ids previous_stakes era stakes) /\
    outcome (update_metrics sub previous_stakes)
    = snd (validators_loop av ids previous_stakes era stakes) /\
    (outcome (update_metrics sub previous_stakes) = Ok tt ->
     previous_after (update_metrics sub previous_stakes) = stakes).
Proof.
  unfold update_metrics.
  destruct (gather sub) as [[[[av stakes] ids] era] |]; [| left; auto].
  right. exists av, stakes, ids, era. split; [reflexivity |].
  destruct (validators_loop av ids previous_stakes era stakes)
    as [sets finished].
  destruct finished as [[] |]; simpl; repeat split; auto; discriminate.
Qed.

Lemma validators_loop_sets av ids prev era items w :
  In w (fst (validators_loop av ids prev era items)) ->
  exists v info sets,
    In (v, info) items /\
    validator_metrics av ids prev era v info = Ok sets /\
    In w sets.
Proof.
  induction items as [| [validator info] rest IH]; simpl; [tauto |].
  destruct (validator_metrics av ids prev era validator info)
    as [sets |] eqn:Hrun; [| simpl; tauto].
  destruct (validators_loop av ids prev era rest) as [later finished].
  simpl in *. intros Hin. apply in_app_or in Hin. destruct Hin as [Hin | Hin].
  - exists validator, info, sets. auto.
  - destruct (IH Hin) as [v [i [s [Hitem [Hs Hw]]]]].
    exists v, i, s. auto.
Qed.

(** The sets of one turn: those of the tracker, then the stake gauges. *)
Lemma validator_metrics_sets av ids prev era v info sets :
  validator_metrics av ids prev era v info = Ok sets ->
  sets =
    (performed (track_stake_movements v (display_name_of ids v)
                  (total_stake info) (previous_total_of prev v))
     ++ stake_gauges v (display_name_of ids v) (status_of av v)
                     (py_str era) info)%list.
Proof.
  unfold validator_metrics. intros H.
  destruct (track_stake_movements v (display_name_of ids v)
              (total_stake info) (previous_total_of prev v))
    as [moved |]; cbn [bind] in H; [| discriminate].
  injection H as <-. reflexivity.
Qed.

Lemma lt_zero_abs_positive (d : num) :
  lt_zero d = true -> gt_zero (py_abs d) = true.
Proof.
  clear repr_compound float_of_str.
  destruct d as [z | f]; simpl.
  - intros H. apply Z.ltb_lt in H. apply Z.ltb_lt. lia.
  - destruct f as [s | s | | s m e]; try destruct s; cbv; congruence.
Qed.

Lemma track_stake_movements_positive validator name current previous w :
  In w (performed (track_stake_movements validator name current previous)) ->
  gt_zero (g_value w) = true.
Proof.
  clear repr_compound float_of_str.
  unfold track_stake_movements.
  destruct previous as [p |]; [| simpl; tauto].
  destruct (py_sub current p) as [d |]; cbn [bind]; [| simpl; tauto].
  destruct (gt_zero d) eqn:Hgt; [| destruct (lt_zero d) eqn:Hlt]; simpl;
    intros Hin; decompose [or] Hin; subst; simpl; auto; try contradiction.
  apply lt_zero_abs_positive. exact Hlt.
Qed.

Lemma stake_gauges_families validator name status era info w :
  In w (stake_gauges validator name status era info) ->
  (is_stake_family (g_family w) = true /\ g_third w = status) \/
  (g_family w = VALIDATOR_REWARDS /\ g_third w = era /\
   g_value w = rewards info /\ gt_zero (rewards info) = true).
Proof.
  clear repr_compound float_of_str.
  unfold stake_gauges. intros Hin. apply in_app_or in Hin.
  destruct Hin as [Hin | Hin].
  - left. simpl in Hin. decompose [or] Hin; subst; simpl; auto; contradiction.
  - right. destruct (gt_zero (rewards info)) eqn:Hpos; simpl in Hin;
      decompose [or] Hin; subst; simpl; auto; contradiction.
Qed.

(** X10.  No cycle publishes a zero, negative or NaN value on the inbound,
    outbound or rewards gauges: every value set on them is greater than 0. *)
Theorem movement_and_reward_values_are_positive
    (sub : substrate) (previous_stakes : dict stake_info) (w : gauge_set) :
  In w (gauge_sets (update_metrics sub previous_stakes)) ->
  is_movement (g_family w) = true \/ g_family w = VALIDATOR_REWARDS ->
  gt_zero (g_value w) = true.
Proof.
  intros Hin Hfam.
  destruct (update_metrics_loop sub previous_stakes)
    as [[_ Hnone] | [av [stakes [ids [era [_ [Hsets _]]]]]]].
  - rewrite Hnone in Hin. contradiction.
  - rewrite Hsets in Hin.
    destruct (validators_loop_sets _ _ _ _ _ _ Hin)
      as [v [info [sets [_ [Hrun Hw]]]]].
    rewrite (validator_metrics_sets _ _ _ _ _ _ _ Hrun) in Hw.
    apply in_app_or in Hw. destruct Hw as [Hw | Hw].
    + exact (track_stake_movements_positive _ _ _ _ _ Hw).
    + destruct (stake_gauges_families _ _ _ _ _ _ Hw)
        as [[Hstake _] | [_ [_ [-> Hpos]]]]; [| exact Hpos].
      destruct Hfam as [Hm | Hr]; destruct (g_family w); discriminate.
Qed.

(** X11.  A movement gauge is set only for a validator that has an entry
    in [previous_stakes]; in particular the first cycle of a process, whose
    [previous_stakes] is empty, sets none. *)
Theorem movement_needs_a_previous_entry
    (sub : substrate) (previous_stakes : dict stake_info) (w : gauge_set) :
  In w (gauge_sets (update_metrics sub previous_stakes)) ->
  is_movement (g_family w) = true ->
  previous_stakes <> [] /\ dict_get previous_stakes (g_validator w) <> None.
Proof.
  intros Hin Hfam.
  assert (Hget : dict_get previous_stakes (g_validator w) <> None).
  { destruct (update_metrics_loop sub previous_stakes)
      as [[_ Hnone] | [av [stakes [ids [era [_ [Hsets _]]]]]]].
    - rewrite Hnone in Hin. contradiction.
    - rewrite Hsets in Hin.
      destruct (validators_loop_sets _ _ _ _ _ _ Hin)
        as [v [info [sets [_ [Hrun Hw]]]]].
      rewrite (validator_metrics_sets _ _ _ _ _ _ _ Hrun) in Hw.
      apply in_app_or in Hw. destruct Hw as [Hw | Hw].
      + destruct (track_stake_movements_validator _ _ _ _ _ Hw) as [-> _].
        unfold previous_total_of in Hw.
        destruct (dict_get previous_stakes v); [discriminate |].
        simpl in Hw. contradiction.
      + destruct (stake_gauges_families _ _ _ _ _ _ Hw)
          as [[Hstake _] | [Hr _]]; destruct (g_family w); discriminate. }
  split; [| exact Hget].
  intros ->. apply Hget. reflexivity.
Qed.

Lemma validators_loop_same_totals av ids prev era items :
  (forall v info, In (v, info) items ->
                  previous_total_of prev v = Some (total_stake info)) ->
  snd (validators_loop av ids prev era items) = Ok tt /\
  forall w, In w (fst (validators_loop av ids prev era items)) ->
            is_movement (g_family w) = false.
Proof.
  induction items as [| [validator info] rest IH]; intros Hsame;
    cbn [validators_loop].
  - split; [reflexivity | simpl; tauto].
  - unfold validator_metrics.
    rewrite (Hsame validator info (or_introl eq_refl)).
    unfold track_stake_movements.
    destruct (py_sub_diag (total_stake info)) as [d [-> [Hgt Hlt]]].
    cbn [bind]. rewrite Hgt, Hlt. cbn [bind snd app].
    destruct IH as [Hdone Hnone];
      [intros v i Hin; apply Hsame; right; exact Hin |].
    destruct (validators_loop av ids prev era rest) as [later finished].
    cbn [fst snd] in *. split; [exact Hdone |].
    intros w Hin. apply in_app_or in Hin. destruct Hin as [Hin | Hin].
    + destruct (stake_gauges_families _ _ _ _ _ _ Hin)
        as [[Hstake _] | [Hr _]]; destruct (g_family w);
        try discriminate; reflexivity.
    + exact (Hnone w Hin).
Qed.

(** X12.  A cycle over a chain that answers as it did in the cycle just
    completed runs to its end, leaves [previous_stakes] as it is and sets
    no movement gauge. *)
Theorem unchanged_chain_reports_no_movement
    (sub : substrate) (previous_stakes : dict stake_info) :
  outcome (update_metrics sub previous_stakes) = Ok tt ->
  let first := update_metrics sub previous_stakes in
  let second := update_metrics sub (previous_after first) in
  outcome second = Ok tt /\
  previous_after second = previous_after first /\
  forall w, In w (gauge_sets second) -> is_movement (g_family w) = false.
Proof.
  intros Hok first second. subst first second.
  destruct (update_metrics_loop sub previous_stakes)
    as [[_ Hnone] | [av [stakes [ids [era [Hgather [_ [_ Hafter]]]]]]]].
  { rewrite Hnone in Hok. discriminate. }
  rewrite (Hafter Hok).
  destruct (gather_ok _ _ _ _ _ Hgather)
    as [listed [session [items [_ [_ [_ [_ [Hbuilt _]]]]]]]].
  pose proof (get_validator_stakes_distinct_keys _ _ _ Hbuilt) as Hkeys.
  destruct (update_metrics_loop sub stakes)
    as [[Hraise _] | [av' [stakes' [ids' [era' [Hgather' [Hsets [Hout Hafter']]]]]]]].
  { congruence. }
  rewrite Hgather in Hgather'. injection Hgather' as <- <- <- <-.
  destruct (validators_loop_same_totals av ids stakes era stakes)
    as [Hdone Hquiet].
  { intros v info Hin. unfold previous_total_of.
    rewrite (dict_get_of_entry stakes v info Hkeys Hin). reflexivity. }
  rewrite Hout, Hsets. split; [exact Hdone |].
  split; [| exact Hquiet].
  apply Hafter'. rewrite Hout. exact Hdone.
Qed.

Lemma get_validator_stakes_keys sub validators stakes v :
  get_validator_stakes sub validators = Ok stakes ->
  In v (map fst stakes) -> In v validators.
Proof.
  unfold get_validator_stakes. intros H Hin.
  destruct (active_era_index sub) as [era |]; cbn [bind] in H; [| discriminate].
  injection H as <-. apply dict_get_in_keys in Hin.
  rewrite stakes_loop_lookup in Hin.
  destruct (existsb (String.eqb v) validators) eqn:E.
  - apply existsb_eqb_in. exact E.
  - simpl in Hin. congruence.
Qed.

(** X13.  A cycle sets gauges only for validators that the chain lists in
    [Staking.Validators], and a cycle that completes keeps no other
    validator in [previous_stakes]: one that is no longer listed is dropped
    from tracking. *)
Theorem only_listed_validators_are_published
    (sub : substrate) (previous_stakes : dict stake_info)
    (listed : list (pyval * pyval)) :
  query_map sub "Staking" "Validators" = Ok listed ->
  let c := update_metrics sub previous_stakes in
  (forall w, In w (gauge_sets c) ->
             In (g_validator w) (listed_validators listed)) /\
  (outcome c = Ok tt ->
   forall v, ~ In v (listed_validators listed) ->
             dict_get (previous_after c) v = None).
Proof.
  intros Hlisted c. subst c.
  destruct (update_metrics_loop sub previous_stakes)
    as [[_ Hnone] | [av [stakes [ids [era [Hgather [Hsets [_ Hafter]]]]]]]].
  { rewrite Hnone. simpl. split; [tauto | discriminate]. }
  destruct (gather_ok _ _ _ _ _ Hgather)
    as [listed' [session [items [Hq [_ [_ [_ [Hbuilt _]]]]]]]].
  rewrite Hlisted in Hq. injection Hq as <-.
  split.
  - intros w Hin. rewrite Hsets in Hin.
    apply (get_validator_stakes_keys _ _ _ _ Hbuilt).
    exact (validators_loop_validators _ _ _ _ _ _ Hin).
  - intros Hok v Hnot. rewrite (Hafter Hok).
    destruct (dict_get stakes v) eqn:Hget; [| reflexivity].
    exfalso. apply Hnot. apply (get_validator_stakes_keys _ _ _ _ Hbuilt).
    apply dict_get_in_keys. congruence.
Qed.

Lemma display_name_of_empty ids v : display_name_of ids v = "" -> v = "".
Proof.
  clear repr_compound float_of_str.
  unfold display_name_of, first_20.
  destruct (match dict_get ids v with Some info => display info | None => "" end)
    as [| c shown]; simpl.
  - destruct v; [reflexivity | discriminate].
  - discriminate.
Qed.

Lemma track_stake_movements_labels validator name current previous w :
  In w (performed (track_stake_movements validator name current previous)) ->
  g_name w = name /\
  (g_family w = VALIDATOR_CAPS_IN /\ g_third w = "nomination" \/
   g_family w = VALIDATOR_CAPS_OUT /\ g_third w = "unstake").
Proof.
  clear repr_compound float_of_str.
  unfold track_stake_movements.
  destruct previous as [p |]; [| simpl; tauto].
  destruct (py_sub current p) as [d |]; cbn [bind]; [| simpl; tauto].
  destruct (gt_zero d); [| destruct (lt_zero d)]; simpl;
    intros Hin; decompose [or] Hin; subst; simpl; auto; contradiction.
Qed.

Lemma stake_gauges_name validator name status era info w :
  In w (stake_gauges validator name status era info) -> g_name w = name.
Proof.
  clear repr_compound float_of_str.
  unfold stake_gauges. intros Hin. apply in_app_or in Hin.
  destruct Hin as [Hin | Hin].
  - simpl in Hin. decompose [or] Hin; subst; try reflexivity; contradiction.
  - destruct (gt_zero (rewards info)); simpl in Hin;
      decompose [or] Hin; subst; try reflexivity; contradiction.
Qed.

(** X14.  The labels of every gauge a cycle sets: the name is empty only
    when the validator address itself is empty; the third label is
    "nomination" on the inbound gauge, "unstake" on the outbound gauge,
    [str] of the active era index on the rewards gauge, and "active" or
    "waiting" on the four stake gauges. *)
Theorem gauge_labels
    (sub : substrate) (previous_stakes : dict stake_info) (w : gauge_set) :
  In w (gauge_sets (update_metrics sub previous_stakes)) ->
  (g_name w = "" -> g_validator w = "") /\
  match g_family w with
  | VALIDATOR_CAPS_IN => g_third w = "nomination"
  | VALIDATOR_CAPS_OUT => g_third w = "unstake"
  | VALIDATOR_REWARDS =>
      exists era, active_era_index sub = Ok era /\ g_third w = py_str era
  | _ => g_third w = "active" \/ g_third w = "waiting"
  end.
Proof.
  intros Hin.
  destruct (update_metrics_loop sub previous_stakes)
    as [[_ Hnone] | [av [stakes [ids [era [Hgather [Hsets _]]]]]]].
  { rewrite Hnone in Hin. contradiction. }
  destruct (gather_ok _ _ _ _ _ Hgather)
    as [listed [session [items [_ [_ [_ [_ [_ [_ Hera]]]]]]]]].
  rewrite Hsets in Hin.
  destruct (validators_loop_sets _ _ _ _ _ _ Hin)
    as [v [info [sets [_ [Hrun Hw]]]]].
  pose proof (validator_metrics_validator _ _ _ _ _ _ _ _ Hrun Hw) as Hv.
  rewrite (validator_metrics_sets _ _ _ _ _ _ _ Hrun) in Hw.
  apply in_app_or in Hw. destruct Hw as [Hw | Hw].
  - destruct (track_stake_movements_labels _ _ _ _ _ Hw)
      as [Hname [[Hf Ht] | [Hf Ht]]]; rewrite Hf, Hname, Hv;
      (split; [apply display_name_of_empty | exact Ht]).
  - rewrite (stake_gauges_name _ _ _ _ _ _ Hw), Hv.
    split; [apply display_name_of_empty |].
    destruct (stake_gauges_families _ _ _ _ _ _ Hw)
      as [[Hstake Ht] | [Hf [Ht _]]].
    + assert (Hstatus : g_third w = "active" \/ g_third w = "waiting").
      { rewrite Ht. unfold status_of.
        destruct (existsb (String.eqb v) av); auto. }
      destruct (g_family w); try discriminate; exact Hstatus.
    + rewrite Hf. exists era. auto.
Qed.

Lemma gauge_eqb_eq (a b : gauge) : gauge_eqb a b = true <-> a = b.
Proof.
  clear repr_compound float_of_str.
  destruct a, b; simpl; split; congruence.
Qed.

(** The value under a label set after a run of sets that agree on it. *)
Lemma apply_sets_agreeing (sets : list gauge_set) (g : gauge)
    (v n t : string) (x : num) :
  (exists w, In w sets /\ g_family w = g /\ g_validator w = v /\
             g_name w = n /\ g_third w = t) ->
  (forall w, In w sets -> g_family w = g -> g_validator w = v ->
             g_value w = x) ->
  forall r, apply_sets r sets g v n t = Some x.
Proof.
  clear repr_compound float_of_str.
  induction sets as [| w sets IH] using rev_ind; intros [w0 [Hin Hkey]] Hall r.
  - contradiction.
  - unfold apply_sets. rewrite fold_left_app. simpl. unfold apply_set.
    destruct (gauge_eqb g (g_family w) && String.eqb v (g_validator w)
              && String.eqb n (g_name w) && String.eqb t (g_third w)) eqn:E.
    + apply andb_prop in E. destruct E as [E _].
      apply andb_prop in E. destruct E as [E _].
      apply andb_prop in E. destruct E as [Eg Ev].
      apply gauge_eqb_eq in Eg. apply String.eqb_eq in Ev.
      f_equal. apply Hall; [apply in_or_app; right; left; reflexivity | |];
        congruence.
    + apply IH.
      * exists w0. split; [| exact Hkey].
        apply in_app_or in Hin. destruct Hin as [Hin | [Heq | []]];
          [exact Hin |].
        exfalso. subst w0. destruct Hkey as [Hg [Hv [Hn Ht]]].
        rewrite Hg, Hv, Hn, Ht, !String.eqb_refl in E.
        destruct g; discriminate.
      * intros w' Hw'. apply Hall. apply in_or_app. left. exact Hw'.
Qed.

Lemma stake_gauges_values validator name status era info w :
  In w (stake_gauges validator name status era info) ->
  g_value w = stake_field (g_family w) info.
Proof.
  clear repr_compound float_of_str.
  unfold stake_gauges. intros Hin. apply in_app_or in Hin.
  destruct Hin as [Hin | Hin].
  - simpl in Hin. decompose [or] Hin; subst; try reflexivity; contradiction.
  - destruct (gt_zero (rewards info)); simpl in Hin;
      decompose [or] Hin; subst; try reflexivity; contradiction.
Qed.

Lemma validators_loop_ran av ids prev era items v info :
  snd (validators_loop av ids prev era items) = Ok tt ->
  In (v, info) items ->
  exists sets,
    validator_metrics av ids prev era v info = Ok sets /\
    incl sets (fst (validators_loop av ids prev era items)).
Proof.
  induction items as [| [validator i] rest IH]; cbn [validators_loop];
    intros Hdone Hin; [contradiction |].
  destruct (validator_metrics av ids prev era validator i) as [sets |] eqn:Hrun;
    [| discriminate].
  destruct (validators_loop av ids prev era rest) as [later finished].
  cbn [fst snd] in *. destruct Hin as [Heq | Hin].
  - injection Heq as <- <-. exists sets. split; [exact Hrun |].
    apply incl_appl, incl_refl.
  - destruct (IH Hdone Hin) as [s [Hs Hincl]].
    exists s. split; [exact Hs | apply incl_appr; exact Hincl].
Qed.

Lemma dict_get_entry {A : Type} (d : dict A) (k : string) (a : A) :
  dict_get d k = Some a -> In (k, a) d.
Proof.
  clear repr_compound float_of_str.
  induction d as [| [k' a'] d IH]; simpl; [discriminate |].
  destruct (String.eqb k' k) eqn:E.
  - apply String.eqb_eq in E. intros H. injection H as ->. left. congruence.
  - intros H. right. exact (IH H).
Qed.

(** X15.  After a cycle that completes, the registry holds for every
    validator of the new [previous_stakes], under (validator, name,
    status), the validator's self stake, nominations, total stake and
    nominator count, and under (validator, name, era) its reward when that
    is greater than 0: the map kept and the values published agree. *)
Theorem completed_cycle_publishes_the_snapshot
    (sub : substrate) (previous_stakes : dict stake_info)
    (listed : list (pyval * pyval)) (session : scale_obj)
    (items : list pyval) (era : pyval) (v : string) (info : stake_info) :
  query_map sub "Staking" "Validators" = Ok listed ->
  query sub "Session" "Validators" [] = Ok (Some session) ->
  py_iter (obj_value session) = Ok items ->
  active_era_index sub = Ok era ->
  let c := update_metrics sub previous_stakes in
  let name :=
    display_name_of (get_identities sub (listed_validators listed)) v in
  let status := status_of (map py_str items) v in
  outcome c = Ok tt ->
  dict_get (previous_after c) v = Some info ->
  (forall g r, is_stake_family g = true ->
     apply_sets r (gauge_sets c) g v name status = Some (stake_field g info)) /\
  (gt_zero (rewards info) = true ->
   forall r, apply_sets r (gauge_sets c) VALIDATOR_REWARDS v name (py_str era)
             = Some (rewards info)).
Proof.
  intros Hlisted Hsession Hiter Hera c name status Hok Hget.
  subst c name status.
  destruct (update_metrics_loop sub previous_stakes)
    as [[_ Hnone] | [av [stakes [ids [era' [Hgather [Hsets [Hout Hafter]]]]]]]].
  { rewrite Hnone in Hok. discriminate. }
  destruct (gather_ok _ _ _ _ _ Hgather)
    as [listed' [session' [items' [Hq [Hs [Hi [-> [Hbuilt [-> Hera']]]]]]]]].
  rewrite Hlisted in Hq. injection Hq as <-.
  rewrite Hsession in Hs. injection Hs as <-.
  rewrite Hiter in Hi. injection Hi as <-.
  rewrite Hera in Hera'. injection Hera' as <-.
  rewrite (Hafter Hok) in Hget. rewrite Hsets. rewrite Hout in Hok.
  pose proof (get_validator_stakes_distinct_keys _ _ _ Hbuilt) as Hkeys.
  destruct (validators_loop_ran _ _ _ _ _ v info Hok (dict_get_entry _ _ _ Hget))
    as [sets [Hrun Hincl]].
  pose proof (validator_metrics_sets _ _ _ _ _ _ _ Hrun) as Hsets_v.
  assert (Hvalues : forall w,
             In w (fst (validators_loop (map py_str items)
                          (get_identities sub (listed_validators listed))
                          previous_stakes era stakes)) ->
             g_validator w = v ->
             is_movement (g_family w) = false ->
             g_value w = stake_field (g_family w) info).
  { intros w Hw Hv Hfam.
    destruct (validators_loop_sets _ _ _ _ _ _ Hw)
      as [v' [info' [sets' [Hitem [Hrun' Hw']]]]].
    pose proof (validator_metrics_validator _ _ _ _ _ _ _ _ Hrun' Hw') as Hv'.
    rewrite Hv in Hv'. subst v'.
    pose proof (dict_get_of_entry stakes v info' Hkeys Hitem) as Hget'.
    rewrite Hget in Hget'. injection Hget' as <-.
    rewrite (validator_metrics_sets _ _ _ _ _ _ _ Hrun') in Hw'.
    apply in_app_or in Hw'. destruct Hw' as [Hw' | Hw'].
    - destruct (track_stake_movements_validator _ _ _ _ _ Hw')
        as [_ [Hf | Hf]]; rewrite Hf in Hfam; discriminate.
    - exact (stake_gauges_values _ _ _ _ _ _ Hw'). }
  split.
  - intros g r Hg. apply apply_sets_agreeing.
    + eexists (GaugeSet g v _ _ (stake_field g info)).
      split; [| repeat split].
      apply Hincl. rewrite Hsets_v. apply in_or_app. right.
      unfold stake_gauges. apply in_or_app. left.
      destruct g; try discriminate; simpl; auto.
    + intros w Hw Hf Hv. rewrite <- Hf. apply Hvalues; [exact Hw | exact Hv |].
      rewrite Hf. destruct g; try discriminate; reflexivity.
  - intros Hpos r. apply apply_sets_agreeing.
    + eexists (GaugeSet VALIDATOR_REWARDS v _ _ (rewards info)).
      split; [| repeat split].
      apply Hincl. rewrite Hsets_v. apply in_or_app. right.
      unfold stake_gauges. apply in_or_app. right. rewrite Hpos.
      left. reflexivity.
    + intros w Hw Hf Hv.
      change (rewards info) with (stake_field VALIDATOR_REWARDS info).
      rewrite <- Hf. apply Hvalues; [exact Hw | exact Hv |].
      rewrite Hf. reflexivity.
Qed.

Lemma apply_sets_other_validator (g : gauge) (v : string)
    (sets : list gauge_set) :
  (forall w, In w sets -> g_family w = g -> g_validator w <> v) ->
  forall (r : registry) n t, apply_sets r sets g v n t = r g v n t.
Proof.
  clear repr_compound float_of_str.
  unfold apply_sets.
  induction sets as [| w sets IH]; intros Hother r n t; simpl.
  - reflexivity.
  - rewrite IH by (intros w' Hw'; apply Hother; right; exact Hw').
    unfold apply_set.
    destruct (gauge_eqb g (g_family w)) eqn:Eg; [| reflexivity].
    destruct (String.eqb v (g_validator w)) eqn:Ev; [| reflexivity].
    exfalso. apply gauge_eqb_eq in Eg. apply String.eqb_eq in Ev.
    apply (Hother w (or_introl eq_refl)); congruence.
Qed.

Lemma stake_gauges_rewards validator name status era info w :
  In w (stake_gauges validator name status era info) ->
  g_family w = VALIDATOR_REWARDS ->
  gt_zero (rewards info) = true /\
  w = GaugeSet VALIDATOR_REWARDS validator name era (rewards info).
Proof.
  clear repr_compound float_of_str.
  unfold stake_gauges. intros Hin Hfam. apply in_app_or in Hin.
  destruct Hin as [Hin | Hin].
  - simpl in Hin. decompose [or] Hin; subst; try discriminate; contradiction.
  - destruct (gt_zero (rewards info)); [| contradiction].
    destruct Hin as [<- | []]. split; reflexivity.
Qed.

(** C7.  In a cycle that completes, for every validator of the snapshot
    map: the rewards gauge is set for it, to the snapshot's reward under
    the labels (validator, name, era), exactly when that reward is greater
    than 0, and no other value is set on the rewards gauge for it; when
    the reward is not greater than 0, every rewards reading of the
    validator is left as it was.  The self-stake, nominations, total-stake
    and nominator-count gauges are set in either case. *)
Theorem rewards_gauge_only_when_positive
    (sub : substrate) (previous_stakes : dict stake_info)
    (listed : list (pyval * pyval)) (session : scale_obj)
    (items : list pyval) (era : pyval) (v : string) (info : stake_info) :
  query_map sub "Staking" "Validators" = Ok listed ->
  query sub "Session" "Validators" [] = Ok (Some session) ->
  py_iter (obj_value session) = Ok items ->
  active_era_index sub = Ok era ->
  let c := update_metrics sub previous_stakes in
  let name :=
    display_name_of (get_identities sub (listed_validators listed)) v in
  let status := status_of (map py_str items) v in
  outcome c = Ok tt ->
  dict_get (previous_after c) v = Some info ->
  (gt_zero (rewards info) = true ->
     In (GaugeSet VALIDATOR_REWARDS v name (py_str era) (rewards info))
        (gauge_sets c) /\
     forall r, apply_sets r (gauge_sets c) VALIDATOR_REWARDS v name (py_str era)
               = Some (rewards info)) /\
  (forall w, In w (gauge_sets c) ->
     g_family w = VALIDATOR_REWARDS -> g_validator w = v ->
     gt_zero (rewards info) = true /\
     w = GaugeSet VALIDATOR_REWARDS v name (py_str era) (rewards info)) /\
  (gt_zero (rewards info) = false ->
     forall r n t, apply_sets r (gauge_sets c) VALIDATOR_REWARDS v n t
                   = r VALIDATOR_REWARDS v n t) /\
  In (GaugeSet VALIDATOR_SELF_STAKE v name status (self_stake info))
     (gauge_sets c) /\
  In (GaugeSet VALIDATOR_NOMINATIONS v name status (nominations info))
     (gauge_sets c) /\
  In (GaugeSet VALIDATOR_TOTAL_STAKE v name status (total_stake info))
     (gauge_sets c) /\
  In (GaugeSet VALIDATOR_NOMINATOR_COUNT v name status (nominator_count info))
     (gauge_sets c).
Proof.
  intros Hlisted Hsession Hiter Hera c name status Hok Hget.
  subst c name status.
  destruct (update_metrics_loop sub previous_stakes)
    as [[_ Hnone] | [av [stakes [ids [era' [Hgather [Hsets [Hout Hafter]]]]]]]].
  { rewrite Hnone in Hok. discriminate. }
  destruct (gather_ok _ _ _ _ _ Hgather)
    as [listed' [session' [items' [Hq [Hs [Hi [-> [Hbuilt [-> Hera']]]]]]]]].
  rewrite Hlisted in Hq. injection Hq as <-.
  rewrite Hsession in Hs. injection Hs as <-.
  rewrite Hiter in Hi. injection Hi as <-.
  rewrite Hera in Hera'. injection Hera' as <-.
  rewrite (Hafter Hok) in Hget. rewrite Hsets. rewrite Hout in Hok.
  pose proof (get_validator_stakes_distinct_keys _ _ _ Hbuilt) as Hkeys.
  destruct (validators_loop_ran _ _ _ _ _ v info Hok (dict_get_entry _ _ _ Hget))
    as [sets [Hrun Hincl]].
  pose proof (validator_metrics_sets _ _ _ _ _ _ _ Hrun) as Hsets_v.
  assert (Honly : forall w,
             In w (fst (validators_loop (map py_str items)
                          (get_identities sub (listed_validators listed))
                          previous_stakes era stakes)) ->
             g_family w = VALIDATOR_REWARDS -> g_validator w = v ->
             gt_zero (rewards info) = true /\
             w = GaugeSet VALIDATOR_REWARDS v
                   (display_name_of
                      (get_identities sub (listed_validators listed)) v)
                   (py_str era) (rewards info)).
  { intros w Hw Hfam Hv.
    destruct (validators_loop_sets _ _ _ _ _ _ Hw)
      as [v' [info' [sets' [Hitem [Hrun' Hw']]]]].
    pose proof (validator_metrics_validator _ _ _ _ _ _ _ _ Hrun' Hw') as Hv'.
    rewrite Hv in Hv'. subst v'.
    pose proof (dict_get_of_entry stakes v info' Hkeys Hitem) as Hget'.
    rewrite Hget in Hget'. injection Hget' as <-.
    rewrite (validator_metrics_sets _ _ _ _ _ _ _ Hrun') in Hw'.
    apply in_app_or in Hw'. destruct Hw' as [Hw' | Hw'].
    - destruct (track_stake_movements_validator _ _ _ _ _ Hw')
        as [_ [Hf | Hf]]; rewrite Hf in Hfam; discriminate.
    - exact (stake_gauges_rewards _ _ _ _ _ _ Hw' Hfam). }
  assert (Hstake : forall w,
             In w (stake_gauges v
                     (display_name_of
                        (get_identities sub (listed_validators listed)) v)
                     (status_of (map py_str items) v) (py_str era) info) ->
             In w (fst (validators_loop (map py_str items)
                          (get_identities sub (listed_validators listed))
                          previous_stakes era stakes))).
  { intros w Hw. apply Hincl. rewrite Hsets_v. apply in_or_app. right.
    exact Hw. }
  split; [| split; [exact Honly | split]].
  - intros Hpos.
    assert (Hin : In (GaugeSet VALIDATOR_REWARDS v
                        (display_name_of
                           (get_identities sub (listed_validators listed)) v)
                        (py_str era) (rewards info))
                     (fst (validators_loop (map py_str items)
                             (get_identities sub (listed_validators listed))
                             previous_stakes era stakes))).
    { apply Hstake. unfold stake_gauges. apply in_or_app. right.
      rewrite Hpos. left. reflexivity. }
    split; [exact Hin |].
    intros r. apply apply_sets_agreeing.
    + eexists. split; [exact Hin | repeat split].
    + intros w Hw Hf Hv. destruct (Honly w Hw Hf Hv) as [_ ->]. reflexivity.
  - intros Hneg r n t. apply apply_sets_other_validator.
    intros w Hw Hf Hv. destruct (Honly w Hw Hf Hv) as [Hpos _]. congruence.
  - repeat split; apply Hstake; unfold stake_gauges; apply in_or_app; left;
      simpl; auto.
Qed.

(** ** [get_identities] and [extract_identity_value] *)

(** X16.  The identities map has exactly one record per distinct wallet of
    the input and none for any other address, and the record of a wallet
    is the same whatever the other wallets of the input are. *)
Theorem identities_cover_the_wallets
    (sub : substrate) (wallets : list string) :
  NoDup (map fst (get_identities sub wallets)) /\
  (forall w, In w wallets ->
             dict_get (get_identities sub wallets) w
             = Some (wallet_identity sub w)) /\
  (forall w, ~ In w wallets -> dict_get (get_identities sub wallets) w = None).
Proof.
  split; [| split].
  - unfold get_identities.
    assert (Hgen : forall identities : dict identity_info,
               NoDup (map fst identities) ->
               NoDup (map fst (fold_left
                                 (fun identities wallet =>
                                    dict_set identities wallet
                                             (wallet_identity sub wallet))
                                 wallets identities))).
    { induction wallets as [| w rest IH]; intros identities Hd; simpl;
        [exact Hd |].
      apply IH. apply dict_set_distinct_keys. exact Hd. }
    apply Hgen. constructor.
  - intros w Hin. unfold get_identities. rewrite get_identities_lookup.
    apply existsb_eqb_in in Hin. rewrite Hin. reflexivity.
  - intros w Hnot. unfold get_identities. rewrite get_identities_lookup.
    destruct (existsb (String.eqb w) wallets) eqn:E; [| reflexivity].
    apply existsb_eqb_in in E. contradiction.
Qed.

Lemma info_field_text (info : list (string * pyval)) (k : string) :
  info_field (PDict info) k = Ok (info_text info k).
Proof.
  unfold info_field, info_text, py_get.
  destruct (dict_get info k); reflexivity.
Qed.

(** X17.  For a wallet that is no sub-identity: when its own identity
    record is present with an [info] dict, each of the six fields is the
    extracted text of the field of that name in [info] (empty when the
    field is missing); when it has no identity record, all six are empty. *)
Theorem own_identity_record
    (sub : substrate) (wallet : string)
    (parent identity_raw : option scale_obj) :
  query sub "Identity" "SuperOf" [PStr wallet] = Ok parent ->
  has_value parent = false ->
  query sub "Identity" "IdentityOf" [PStr wallet] = Ok identity_raw ->
  (has_value identity_raw = false ->
   wallet_identity sub wallet = empty_identity) /\
  (has_value identity_raw = true ->
   forall info,
     py_get (value_of identity_raw) "info" (PDict []) = Ok (PDict info) ->
     wallet_identity sub wallet
     = IdentityInfo (info_text info "display") (info_text info "legal")
                    (info_text info "web") (info_text info "riot")
                    (info_text info "email") (info_text info "twitter")).
Proof.
  intros Hsuper Hparent Hidentity. unfold wallet_identity.
  rewrite Hsuper, Hparent. unfold own_identity. rewrite Hidentity.
  cbn [bind]. split.
  - intros ->. reflexivity.
  - intros -> info ->. cbn [bind]. rewrite !info_field_text. reflexivity.
Qed.

(** X18.  A sub-identity whose parent's record is present takes all its
    fields from the parent's record: the display is the parent's display
    and the sub-identity name (or the name alone), and legal, web, riot,
    email and twitter are the parent's. *)
Theorem sub_identity_takes_the_parent_record
    (sub : substrate) (wallet : string)
    (parent : option scale_obj) (parent_raw sub_identity_raw : pyval)
    (identity_raw : option scale_obj) (info : list (string * pyval)) :
  query sub "Identity" "SuperOf" [PStr wallet] = Ok parent ->
  has_value parent = true ->
  py_subscript_index (value_of parent) 0 = Ok parent_raw ->
  py_subscript_index (value_of parent) 1 = Ok sub_identity_raw ->
  query sub "Identity" "IdentityOf" [PStr (py_str parent_raw)] = Ok identity_raw ->
  has_value identity_raw = true ->
  py_get (value_of identity_raw) "info" (PDict []) = Ok (PDict info) ->
  wallet_identity sub wallet
  = IdentityInfo
      (sub_identity_display (info_text info "display")
                            (extract_identity_value sub_identity_raw))
      (info_text info "legal") (info_text info "web") (info_text info "riot")
      (info_text info "email") (info_text info "twitter").
Proof.
  intros Hsuper Hparent Hzero Hone Hidentity Hpresent Hinfo.
  unfold wallet_identity. rewrite Hsuper, Hparent.
  unfold parent_identity. rewrite Hone, Hzero. cbn [bind].
  rewrite Hidentity. cbn [bind]. rewrite Hpresent, Hinfo. cbn [bind].
  rewrite !info_field_text. cbn [bind or_default].
  unfold sub_identity_display.
  destruct (String.eqb (info_text info "display") ""); reflexivity.
Qed.

(** X19.  A raising identity query never escapes and never leaves a
    partial record: when the parent query raises, or the wallet has a
    parent and the query about the parent raises, or it has none and the
    query about the wallet raises, the wallet's record is all empty. *)
Theorem failing_identity_queries_give_empty_records
    (sub : substrate) (wallet : string) :
  (query sub "Identity" "SuperOf" [PStr wallet] = Raise \/
   (exists parent parent_raw sub_identity_raw,
       query sub "Identity" "SuperOf" [PStr wallet] = Ok parent /\
       has_value parent = true /\
       py_subscript_index (value_of parent) 1 = Ok sub_identity_raw /\
       py_subscript_index (value_of parent) 0 = Ok parent_raw /\
       query sub "Identity" "IdentityOf" [PStr (py_str parent_raw)] = Raise) \/
   (exists parent,
       query sub "Identity" "SuperOf" [PStr wallet] = Ok parent /\
       has_value parent = false /\
       query sub "Identity" "IdentityOf" [PStr wallet] = Raise)) ->
  wallet_identity sub wallet = empty_identity.
Proof.
  unfold wallet_identity.
  intros [-> | [[parent [parent_raw [sub_raw [-> [-> [Hone [Hzero Hq]]]]]]]
              | [parent [-> [-> Hq]]]]].
  - reflexivity.
  - unfold parent_identity. rewrite Hone, Hzero. cbn [bind]. rewrite Hq.
    reflexivity.
  - unfold own_identity. rewrite Hq. reflexivity.
Qed.

(** X20.  [extract_identity_value] on the shapes identity data takes: a
    [str] is returned as it is, a dict with a ["Raw"] key gives [str] of
    that entry even if it also has a ["None"] key, a dict with only a
    ["None"] key gives the empty string, and extracting again from a
    result changes nothing. *)
Theorem extract_identity_value_shapes :
  (forall s, extract_identity_value (PStr s) = s) /\
  (forall entries raw,
      dict_get entries "Raw" = Some raw ->
      extract_identity_value (PDict entries) = py_str raw) /\
  (forall entries,
      dict_get entries "Raw" = None -> dict_get entries "None" <> None ->
      extract_identity_value (PDict entries) = "") /\
  (forall value,
      extract_identity_value (PStr (extract_identity_value value))
      = extract_identity_value value).
Proof.
  assert (Hstr : forall s, extract_identity_value (PStr s) = s).
  { intros s. unfold extract_identity_value. cbn [truthy].
    destruct s; reflexivity. }
  split; [exact Hstr |]. split; [| split].
  - intros entries raw Hraw. unfold extract_identity_value.
    destruct entries as [| e entries]; [discriminate |].
    cbn [truthy List.length Nat.eqb negb]. rewrite Hraw. reflexivity.
  - intros entries Hraw Hnone. unfold extract_identity_value.
    destruct (negb (truthy (PDict entries))); [reflexivity |].
    rewrite Hraw. destruct (dict_get entries "None"); [reflexivity | congruence].
  - intros value. apply Hstr.
Qed.

(** ** [create_connection] *)

Lemma connection_attempts_first_success
    (connect : nat -> result substrate) (sub : substrate) :
  forall (k n a : nat),
    (k < n)%nat -> (a + n <= MAX_RETRIES)%nat ->
    (forall j, (a <= j < a + k)%nat -> open_connection connect j = Raise) ->
    open_connection connect (a + k) = Ok sub ->
    connection_attempts connect (seq a n)
    = (Ok (Some sub), repeat (Slept RETRY_DELAY) k).
Proof.
  clear repr_compound float_of_str.
  induction k as [| k IH]; intros n a Hk Hn Hfail Hok.
  - destruct n as [| n]; [lia |]. cbn [seq connection_attempts].
    rewrite Nat.add_0_r in Hok. rewrite Hok. reflexivity.
  - destruct n as [| n]; [lia |]. cbn [seq connection_attempts].
    rewrite (Hfail a) by lia.
    assert (Hlast : Nat.eqb a (MAX_RETRIES - 1) = false).
    { apply Nat.eqb_neq. unfold MAX_RETRIES in *. lia. }
    rewrite Hlast.
    rewrite (IH n (S a)).
    + reflexivity.
    + lia.
    + lia.
    + intros j Hj. apply Hfail. lia.
    + replace (S a + k)%nat with (a + S k)%nat by lia. exact Hok.
Qed.

(** X21.  [create_connection] returns the connection of the first attempt,
    among the five, at which the constructor and the [System.Number] query
    both succeed, after one sleep of [RETRY_DELAY] seconds for each failed
    attempt before it; later attempts are not made. *)
Theorem first_live_connection_is_returned
    (connect : nat -> result substrate) (k : nat) (sub : substrate) :
  (k < MAX_RETRIES)%nat ->
  (forall j, (j < k)%nat -> open_connection connect j = Raise) ->
  open_connection connect k = Ok sub ->
  create_connection connect
  = (Ok (Some sub), repeat (Slept RETRY_DELAY) k).
Proof.
  clear repr_compound float_of_str.
  intros Hk Hfail Hok. unfold create_connection.
  apply connection_attempts_first_success.
  - exact Hk.
  - lia.
  - intros j Hj. apply Hfail. lia.
  - exact Hok.
Qed.

Lemma connection_attempts_cases (connect : nat -> result substrate) :
  (exists k sub,
      (k < MAX_RETRIES)%nat /\
      (forall j, (j < k)%nat -> open_connection connect j = Raise) /\
      open_connection connect k = Ok sub /\
      create_connection connect
      = (Ok (Some sub), repeat (Slept RETRY_DELAY) k)) \/
  ((forall j, (j < MAX_RETRIES)%nat -> open_connection connect j = Raise) /\
   create_connection connect
   = (Raise, repeat (Slept RETRY_DELAY) (MAX_RETRIES - 1))).
Proof.
  clear repr_compound float_of_str.
  assert (Hgen : forall n a,
             (a + n = MAX_RETRIES)%nat ->
             (exists k sub,
                 (k < n)%nat /\
                 (forall j, (a <= j < a + k)%nat ->
                            open_connection connect j = Raise) /\
                 open_connection connect (a + k) = Ok sub /\
                 connection_attempts connect (seq a n)
                 = (Ok (Some sub), repeat (Slept RETRY_DELAY) k)) \/
             ((forall j, (a <= j < a + n)%nat ->
                         open_connection connect j = Raise) /\
              connection_attempts connect (seq a n)
              = (match n with
                 | O => Ok None
                 | S _ => Raise
                 end, repeat (Slept RETRY_DELAY) (n - 1)))).
  { induction n as [| n IH]; intros a Ha.
    - right. split; [intros j Hj; lia | reflexivity].
    - cbn [seq connection_attempts].
      destruct (open_connection connect a) as [sub |] eqn:Ea.
      + left. exists O, sub. rewrite Nat.add_0_r.
        repeat split; [lia | intros j Hj; lia | exact Ea].
      + destruct (Nat.eqb a (MAX_RETRIES - 1)) eqn:Elast.
        * apply Nat.eqb_eq in Elast.
          assert (n = O) by (unfold MAX_RETRIES in *; lia). subst n.
          right. split; [| reflexivity].
          intros j Hj. replace j with a by lia. exact Ea.
        * apply Nat.eqb_neq in Elast.
          destruct n as [| n]; [unfold MAX_RETRIES in *; lia |].
          destruct (IH (S a)) as [[k [sub [Hk [Hfail [Hok Hrun]]]]]
                                 | [Hfail Hrun]]; [lia | |].
          -- left. exists (S k), sub. repeat split.
             ++ lia.
             ++ intros j Hj. destruct (Nat.eq_dec j a) as [-> | Hne];
                  [exact Ea | apply Hfail; lia].
             ++ replace (a + S k)%nat with (S a + k)%nat by lia. exact Hok.
             ++ rewrite Hrun. reflexivity.
          -- right. split.
             ++ intros j Hj. destruct (Nat.eq_dec j a) as [-> | Hne];
                  [exact Ea | apply Hfail; lia].
             ++ rewrite Hrun. cbn [Nat.sub repeat].
                rewrite Nat.sub_0_r. reflexivity. }
  unfold create_connection.
  destruct (Hgen MAX_RETRIES O eq_refl)
    as [[k [sub [Hk [Hfail [Hok Hrun]]]]] | [Hfail Hrun]].
  - left. exists k, sub. repeat split.
    + exact Hk.
    + intros j Hj. apply Hfail. lia.
    + exact Hok.
    + exact Hrun.
  - right. split.
    + intros j Hj. apply Hfail. lia.
    + exact Hrun.
Qed.

(** X22.  [create_connection] raises exactly when all five attempts fail,
    and it has then slept four times [RETRY_DELAY] seconds: there is no
    sleep after the last failed attempt. *)
Theorem connection_fails_after_five_attempts
    (connect : nat -> result substrate) :
  (fst (create_connection connect) = Raise <->
   forall attempt, (attempt < MAX_RETRIES)%nat ->
                   open_connection connect attempt = Raise) /\
  (fst (create_connection connect) = Raise ->
   snd (create_connection connect) = repeat (Slept RETRY_DELAY) 4).
Proof.
  clear repr_compound float_of_str.
  destruct (connection_attempts_cases connect)
    as [[k [sub [Hk [Hfail [Hok Hrun]]]]] | [Hfail Hrun]]; rewrite Hrun.
  - split; [split |]; cbn [fst snd]; try discriminate.
    intros Hall. rewrite (Hall k Hk) in Hok. discriminate.
  - split; [split |]; cbn [fst snd]; intros _;
      [exact Hfail | reflexivity | reflexivity].
Qed.

(** X23.  What [create_connection] returns is never [None], and a
    connection it returns came from the constructor at one of the five
    attempts and answered the [System.Number] query without raising; the
    sleeps before it are as many as the attempts before that one. *)
Theorem returned_connection_is_live
    (connect : nat -> result substrate) :
  fst (create_connection connect) <> Ok None /\
  forall sub,
    fst (create_connection connect) = Ok (Some sub) ->
    exists attempt,
      (attempt < MAX_RETRIES)%nat /\
      connect attempt = Ok sub /\
      query sub "System" "Number" [] <> Raise /\
      snd (create_connection connect) = repeat (Slept RETRY_DELAY) attempt.
Proof.
  clear repr_compound float_of_str.
  destruct (connection_attempts_cases connect)
    as [[k [sub [Hk [Hfail [Hok Hrun]]]]] | [Hfail Hrun]]; rewrite Hrun;
    cbn [fst snd]; (split; [discriminate |]); intros sub' Hsub;
    [| discriminate].
  injection Hsub as <-. exists k.
  unfold open_connection in Hok.
  destruct (connect k) as [opened |]; cbn [bind] in Hok; [| discriminate].
  destruct (query opened "System" "Number" []) as [number |] eqn:Hq;
    cbn [bind] in Hok; [| discriminate].
  injection Hok as ->.
  split; [exact Hk |]. split; [reflexivity |].
  split; [rewrite Hq; discriminate | reflexivity].
Qed.

(** ** [metrics_loop] *)

(** X24.  A turn of the outer loop in which all five connection attempts
    fail sleeps five times 5 seconds (four retry delays and the delay of
    the handler), sets no gauge, closes nothing, and leaves the snapshot
    of the previous cycle as it was. *)
Theorem unreachable_network_round
    (r : round) (previous_stakes : dict stake_info) :
  (forall attempt, (attempt < MAX_RETRIES)%nat ->
                   open_connection (round_connect r) attempt = Raise) ->
  metrics_round r previous_stakes
  = (Failed, previous_stakes, repeat (Slept 5) 5).
Proof.
  intros Hall. unfold metrics_round.
  destruct (connection_attempts_cases (round_connect r))
    as [[k [sub [Hk [Hfail [Hok Hrun]]]]] | [Hfail Hrun]]; rewrite Hrun.
  - rewrite (Hall k Hk) in Hok. discriminate.
  - reflexivity.
Qed.

Lemma update_metrics_keeps_on_raise sub previous_stakes :
  outcome (update_metrics sub previous_stakes) = Raise ->
  previous_after (update_metrics sub previous_stakes) = previous_stakes.
Proof.
  unfold update_metrics.
  destruct (gather sub) as [[[[av stakes] ids] era] |]; [| reflexivity].
  destruct (validators_loop av ids previous_stakes era stakes)
    as [sets [[] |]]; cbn [outcome previous_after];
    [discriminate | reflexivity].
Qed.

Lemma get_validator_stakes_snapshots sub validators stakes :
  get_validator_stakes sub validators = Ok stakes ->
  well_formed_stakes stakes.
Proof.
  intros Hbuild. split.
  - exact (get_validator_stakes_distinct_keys _ _ _ Hbuild).
  - intros v info Hget. unfold get_validator_stakes in Hbuild.
    destruct (active_era_index sub) as [era |]; cbn [bind] in Hbuild;
      [| discriminate].
    injection Hbuild as <-.
    refine (dict_get_all well_formed_snapshot _ _ _ _ Hget).
    apply stakes_loop_all.
    + left. reflexivity.
    + intros w built. apply validator_stake_well_formed.
    + constructor.
Qed.

Lemma update_metrics_well_formed sub previous_stakes :
  well_formed_stakes previous_stakes ->
  well_formed_stakes (previous_after (update_metrics sub previous_stakes)).
Proof.
  intros Hprev.
  destruct (outcome (update_metrics sub previous_stakes)) as [[] |] eqn:Eo.
  - destruct (update_metrics_loop sub previous_stakes)
      as [[_ Hraise] | [av [stakes [ids [era [Hg [_ [_ Hafter]]]]]]]].
    + rewrite Hraise in Eo. discriminate.
    + rewrite (Hafter Eo).
      destruct (gather_ok _ _ _ _ _ Hg)
        as [listed [session [items [_ [_ [_ [_ [Hstakes _]]]]]]]].
      exact (get_validator_stakes_snapshots _ _ _ Hstakes).
  - rewrite (update_metrics_keeps_on_raise _ _ Eo). exact Hprev.
Qed.

Lemma poll_well_formed (views : list substrate) :
  forall previous_stakes,
    well_formed_stakes previous_stakes ->
    well_formed_stakes (snd (fst (poll views previous_stakes))).
Proof.
  induction views as [| view later IH]; intros previous_stakes Hprev.
  - exact Hprev.
  - cbn [poll].
    pose proof (update_metrics_well_formed view previous_stakes Hprev) as Hc.
    destruct (outcome (update_metrics view previous_stakes)).
    + specialize (IH _ Hc).
      destruct (poll later (previous_after (update_metrics view previous_stakes)))
        as [[p kept] events].
      exact IH.
    + exact Hc.
Qed.

Lemma metrics_round_well_formed (r : round) (previous_stakes : dict stake_info) :
  well_formed_stakes previous_stakes ->
  well_formed_stakes (snd (fst (metrics_round r previous_stakes))).
Proof.
  intros Hprev. unfold metrics_round.
  destruct (create_connection (round_connect r)) as [[[sub |] |] waits];
    try exact Hprev.
  pose proof (poll_well_formed (round_views r sub) _ Hprev) as Hpoll.
  destruct (poll (round_views r sub) previous_stakes) as [[[] kept] events];
    exact Hpoll.
Qed.

(** X25.  The global [previous_stakes] keeps its shape through a whole
    run, whatever the network does: if it starts with distinct keys and
    snapshots of the two kinds the program builds (the empty map of the
    start does), it has them after any number of reconnections, completed
    cycles and failed cycles. *)
Theorem run_keeps_the_snapshot_invariant
    (rounds : list round) (previous_stakes : dict stake_info) :
  well_formed_stakes previous_stakes ->
  well_formed_stakes (fst (metrics_loop rounds previous_stakes)).
Proof.
  revert previous_stakes.
  induction rounds as [| r later IH]; intros previous_stakes Hprev.
  - exact Hprev.
  - cbn [metrics_loop].
    pose proof (metrics_round_well_formed r previous_stakes Hprev) as Hround.
    destruct (metrics_round r previous_stakes) as [[[] kept] events];
      cbn [fst snd] in Hround.
    + exact Hround.
    + specialize (IH kept Hround).
      destruct (metrics_loop later kept) as [final more]. exact IH.
Qed.

Lemma poll_app (done rest : list substrate) :
  forall previous_stakes kept events,
    poll done previous_stakes = (Polling, kept, events) ->
    poll (done ++ rest)%list previous_stakes
    = (fst (fst (poll rest kept)), snd (fst (poll rest kept)),
       (events ++ snd (poll rest kept))%list).
Proof.
  induction done as [| view later IH]; intros previous_stakes kept events Hdone.
  - cbn [poll] in Hdone. injection Hdone as <- <-.
    cbn [app]. destruct (poll rest previous_stakes) as [[p k] e]. reflexivity.
  - cbn [poll app] in *.
    destruct (outcome (update_metrics view previous_stakes)).
    + destruct (poll later (previous_after (update_metrics view previous_stakes)))
        as [[p k] e] eqn:El.
      injection Hdone as -> -> <-.
      rewrite (IH _ _ _ El). cbn [fst snd].
      rewrite <- app_assoc. reflexivity.
    + discriminate.
Qed.

(** X26.  A cycle that raises ends the polling on its connection: after
    the waits of the connection and the events of the cycles that
    completed, the turn performs the [set] calls the failing cycle made
    before it raised, sleeps 5 seconds and closes the connection, in this
    order; the snapshot kept for the next connection is that of the last
    completed cycle, and later views of the connection are not consulted. *)
Theorem failed_cycle_ends_the_round
    (r : round) (previous_stakes kept : dict stake_info)
    (sub view : substrate) (done later : list substrate)
    (waits events : list event) :
  create_connection (round_connect r) = (Ok (Some sub), waits) ->
  round_views r sub = (done ++ view :: later)%list ->
  poll done previous_stakes = (Polling, kept, events) ->
  outcome (update_metrics view kept) = Raise ->
  metrics_round r previous_stakes
  = (Failed, kept,
     (waits ++ events ++ published (gauge_sets (update_metrics view kept))
            ++ [Slept 5; Closed])%list).
Proof.
  intros Hconnect Hviews Hdone Hraise. unfold metrics_round.
  rewrite Hconnect, Hviews, (poll_app _ _ _ _ _ Hdone).
  cbn [poll]. rewrite Hraise. cbn [fst snd].
  rewrite (update_metrics_keeps_on_raise _ _ Hraise).
  rewrite <- app_assoc. reflexivity.
Qed.

End Exporter.

(** * The statements at concrete chains *)

(** ** Instances *)

Lemma track_stake_movements_pair_witness :
  py_sub (NFloat f_100) (NFloat f_80) = Ok (NFloat f_20) /\
  returned (track_stake_movements "v" "n" (NFloat f_100) (Some (NFloat f_80)))
  = Ok (NFloat f_20, zero_float).
Proof.
  split; [reflexivity |].
  exact (proj1 (proj2 (track_stake_movements_pair
                         "v" "n" (NFloat f_100) (NFloat f_80) (NFloat f_20)
                         eq_refl)) eq_refl).
Defined.

Lemma track_stake_movements_sets_witness :
  py_sub (NFloat f_80) (NFloat f_100) = Ok (NFloat (SFopp f_20)) /\
  performed (track_stake_movements "v" "n" (NFloat f_80) (Some (NFloat f_100)))
  = [GaugeSet VALIDATOR_CAPS_OUT "v" "n" "unstake" (NFloat f_20)] /\
  performed (track_stake_movements "v" "n" (NFloat f_100) (Some (NFloat f_100)))
  = [].
Proof.
  split; [reflexivity |]. split.
  - exact (proj2 (track_stake_movements_sets
                    "v" "n" (NFloat f_80) (Some (NFloat f_100)))
                 (NFloat f_100) (NFloat (SFopp f_20)) eq_refl eq_refl).
  - exact (proj1 (proj1 (track_stake_movements_sets
                           "v" "n" (NFloat f_100) (Some (NFloat f_100)))
                        (or_intror (or_introl eq_refl)))).
Defined.

Lemma failing_validator_is_zeroed_witness :
  active_era_index chain_one_failing = Ok (PInt 5) /\
  validator_stake repr_opaque float_of_no_str chain_one_failing (PInt 5) "bad"
  = Raise /\
  exists stakes stakes',
    get_validator_stakes repr_opaque float_of_no_str chain_one_failing
                         ["a"; "bad"; "b"] = Ok stakes /\
    get_validator_stakes repr_opaque float_of_no_str chain_one_failing
                         (remove string_dec "bad" ["a"; "bad"; "b"])
    = Ok stakes' /\
    (In "bad" ["a"; "bad"; "b"] -> dict_get stakes "bad" = Some zero_stake_info) /\
    (forall w, w <> "bad" -> dict_get stakes w = dict_get stakes' w).
Proof.
  split; [reflexivity |]. split; [reflexivity |].
  exact (proj1 (failing_validator_is_zeroed
                  repr_opaque float_of_no_str chain_one_failing (PInt 5)
                  ["a"; "bad"; "b"] "bad" eq_refl eq_refl)).
Defined.

Lemma falsy_exposure_leaves_no_entry_witness :
  active_era_index chain_no_exposure = Ok (PInt 5) /\
  query chain_no_exposure "Staking" "ErasStakers" [PInt 5; PStr "gone"] = Ok None /\
  object_truthy None = false /\
  exists stakes,
    get_validator_stakes repr_opaque float_of_no_str chain_no_exposure
                         ["a"; "gone"] = Ok stakes /\
    dict_get stakes "gone" = None.
Proof.
  split; [reflexivity |]. split; [reflexivity |]. split; [reflexivity |].
  exact (proj1 (falsy_exposure_leaves_no_entry
                  repr_opaque float_of_no_str chain_no_exposure (PInt 5)
                  ["a"; "gone"] "gone" None eq_refl eq_refl eq_refl)).
Defined.

Lemma era_failure_keeps_previous_stakes_witness :
  active_era_index chain_era_failure = Raise /\
  update_metrics repr_opaque float_of_no_str chain_era_failure previous_a
  = Cycle Raise previous_a [].
Proof.
  split; [reflexivity |].
  exact (proj1 (proj2 (era_failure_keeps_previous_stakes
                         repr_opaque float_of_no_str chain_era_failure
                         previous_a eq_refl))).
Defined.

Lemma nominations_are_total_minus_self_witness :
  get_validator_stakes repr_opaque float_of_no_str chain_rounding ["v"]
  = Ok [("v", StakeInfo (NFloat f_0_2) (NFloat f_0_9) (NFloat f_0_7) (NInt 0)
                        zero_float zero_float)] /\
  py_sub (NFloat f_0_9) (NFloat f_0_2) = Ok (NFloat f_0_7).
Proof.
  split; [reflexivity |].
  exact (proj1 (nominations_are_total_minus_self
                  repr_opaque float_of_no_str chain_rounding ["v"]
                  [("v", StakeInfo (NFloat f_0_2) (NFloat f_0_9) (NFloat f_0_7)
                                   (NInt 0) zero_float zero_float)]
                  "v"
                  (StakeInfo (NFloat f_0_2) (NFloat f_0_9) (NFloat f_0_7)
                             (NInt 0) zero_float zero_float)
                  eq_refl eq_refl)).
Defined.

Lemma rewards_gauge_only_when_positive_witness :
  outcome (update_metrics repr_opaque float_of_no_str chain_paying []) = Ok tt /\
  dict_get (previous_after
              (update_metrics repr_opaque float_of_no_str chain_paying []))
           "a" = Some snapshot_paid /\
  dict_get (previous_after
              (update_metrics repr_opaque float_of_no_str chain_paying []))
           "b" = Some snapshot_1_of_3 /\
  In (GaugeSet VALIDATOR_REWARDS "a" "a" "5" (NFloat f_300))
     (gauge_sets (update_metrics repr_opaque float_of_no_str chain_paying [])) /\
  apply_sets empty_registry
    (gauge_sets (update_metrics repr_opaque float_of_no_str chain_paying []))
    VALIDATOR_REWARDS "b" "b" "5" = None /\
  In (GaugeSet VALIDATOR_TOTAL_STAKE "b" "b" "waiting" (NFloat f_3))
     (gauge_sets (update_metrics repr_opaque float_of_no_str chain_paying [])).
Proof.
  assert (H : outcome (update_metrics repr_opaque float_of_no_str
                                      chain_paying []) = Ok tt).
  { vm_compute. reflexivity. }
  assert (Ga : dict_get (previous_after
                           (update_metrics repr_opaque float_of_no_str
                                           chain_paying [])) "a"
               = Some snapshot_paid).
  { vm_compute. reflexivity. }
  assert (Gb : dict_get (previous_after
                           (update_metrics repr_opaque float_of_no_str
                                           chain_paying [])) "b"
               = Some snapshot_1_of_3).
  { vm_compute. reflexivity. }
  split; [exact H |]. split; [exact Ga |]. split; [exact Gb |].
  pose proof (rewards_gauge_only_when_positive
                repr_opaque float_of_no_str chain_paying []
                [(PStr "a", PNone); (PStr "b", PNone)]
                (ScaleObj true (PList [PStr "a"])) [PStr "a"] (PInt 5)
                "a" snapshot_paid eq_refl eq_refl eq_refl eq_refl H Ga)
    as [Hset _].
  pose proof (rewards_gauge_only_when_positive
                repr_opaque float_of_no_str chain_paying []
                [(PStr "a", PNone); (PStr "b", PNone)]
                (ScaleObj true (PList [PStr "a"])) [PStr "a"] (PInt 5)
                "b" snapshot_1_of_3 eq_refl eq_refl eq_refl eq_refl H Gb)
    as [_ [_ [Hkeep [_ [_ [Htotal _]]]]]].
  split; [exact (proj1 (Hset eq_refl)) |].
  split; [exact (Hkeep eq_refl empty_registry "b" "5") | exact Htotal].
Defined.

Lemma era_reward_is_guarded_share_witness :
  query (chain_with_rewards [("v", 30); ("w", 70)] pool_1000)
        "Staking" "ErasRewardPoints" [PInt 5]
  = answer (points_table [("v", 30); ("w", 70)]) /\
  query (chain_with_rewards [("v", 30); ("w", 70)] pool_1000)
        "Staking" "ErasValidatorReward" [PInt 5]
  = answer (PInt pool_1000) /\
  reward_over_guarded_sum "v" [("v", 30); ("w", 70)] pool_1000
  = Ok (NFloat f_300) /\
  Ok (get_era_rewards repr_opaque float_of_no_str
        (chain_with_rewards [("v", 30); ("w", 70)] pool_1000) "v" (PInt 5))
  = reward_over_guarded_sum "v" [("v", 30); ("w", 70)] pool_1000.
Proof.
  split; [reflexivity |]. split; [reflexivity |]. split; [reflexivity |].
  refine (proj1 (era_reward_is_guarded_share repr_opaque float_of_no_str
                   (chain_with_rewards [("v", 30); ("w", 70)] pool_1000)
                   "v" (PInt 5) [("v", 30); ("w", 70)] pool_1000
                   eq_refl eq_refl _ _) _).
  - repeat constructor; vm_compute; discriminate.
  - vm_compute; discriminate.
  - vm_compute; discriminate.
Defined.


Lemma sub_identity_display_name_witness :
  query (chain_sub_identity (answer record_bob)) "Identity" "SuperOf" [PStr "w"]
  = answer (PTuple [PStr "p"; PDict [("Raw", PStr "alice")]]) /\
  query (chain_sub_identity (answer record_bob)) "Identity" "IdentityOf" [PStr "p"]
  = answer record_bob /\
  display (wallet_identity repr_opaque (chain_sub_identity (answer record_bob)) "w")
  = "Bob/alice".
Proof.
  split; [reflexivity |]. split; [reflexivity |].
  exact (proj2 (proj2 (sub_identity_display_name
                         repr_opaque (chain_sub_identity (answer record_bob))
                         ["w"] "w"
                         (Some (ScaleObj true
                                  (PTuple [PStr "p"; PDict [("Raw", PStr "alice")]])))
                         (PStr "p") (PDict [("Raw", PStr "alice")])
                         (Some (ScaleObj true record_bob))
                         eq_refl eq_refl eq_refl eq_refl eq_refl))
               eq_refl
               [("display", PDict [("Raw", PStr "Bob")]);
                ("legal", PDict [("None", PNone)])]
               (PDict [("Raw", PStr "Bob")]) eq_refl eq_refl).
Defined.

(** ** Where the claims as worded fail *)

(** C1 as worded: a reward lookup that raises does not zero the snapshot. *)
Lemma reward_failure_keeps_snapshot :
  query chain_reward_failure "Staking" "ErasRewardPoints" [PInt 5] = Raise /\
  get_validator_stakes repr_opaque float_of_no_str chain_reward_failure ["v"]
  = Ok [("v", StakeInfo (NFloat f_1) (NFloat f_3) (NFloat f_2) (NInt 1)
                        zero_float zero_float)] /\
  StakeInfo (NFloat f_1) (NFloat f_3) (NFloat f_2) (NInt 1) zero_float zero_float
  <> zero_stake_info.
Proof. split; [reflexivity |]. split; [reflexivity | discriminate]. Qed.

(** C3 as worded: over a table whose points sum to zero the plain formula
    divides by zero, while the program answers 0.0. *)
Lemma zero_sum_breaks_plain_formula :
  get_era_rewards repr_opaque float_of_no_str
    (chain_with_rewards [("v", 0)] pool_1000) "v" (PInt 5) = zero_float /\
  reward_over_sum "v" [("v", 0)] pool_1000 = Raise /\
  Ok (get_era_rewards repr_opaque float_of_no_str
        (chain_with_rewards [("v", 0)] pool_1000) "v" (PInt 5))
  <> reward_over_sum "v" [("v", 0)] pool_1000.
Proof. split; [reflexivity |]. split; [reflexivity | discriminate]. Qed.

(** C6 as worded: with 0.2 CAPS of its own in 0.9, the snapshot has
    nominations 0.7, and 0.2 + 0.7 is 0.8999999999999999, not 0.9. *)
Lemma stake_sum_is_rounded :
  get_validator_stakes repr_opaque float_of_no_str chain_rounding ["v"]
  = Ok [("v", StakeInfo (NFloat f_0_2) (NFloat f_0_9) (NFloat f_0_7) (NInt 0)
                        zero_float zero_float)] /\
  py_add (NFloat f_0_2) (NFloat f_0_7) = Ok (NFloat f_below_0_9) /\
  py_eq (NFloat f_below_0_9) (NFloat f_0_9) = false.
Proof. split; [reflexivity |]. split; reflexivity. Qed.

(** C8 as worded: a sub-identity "alice" whose parent has no identity
    record, hence no display name, is shown as the empty string. *)
Lemma parent_without_record_gives_empty_display :
  query (chain_sub_identity (answer PNone)) "Identity" "SuperOf" [PStr "w"]
  = answer (PTuple [PStr "p"; PDict [("Raw", PStr "alice")]]) /\
  extract_identity_value repr_opaque (PDict [("Raw", PStr "alice")]) = "alice" /\
  query (chain_sub_identity (answer PNone)) "Identity" "IdentityOf" [PStr "p"]
  = answer PNone /\
  display (wallet_identity repr_opaque (chain_sub_identity (answer PNone)) "w")
  = "" /\
  display (wallet_identity repr_opaque (chain_sub_identity (answer PNone)) "w")
  <> "alice".
Proof. repeat (split; [reflexivity |]). discriminate. Qed.


(** ** Instances of the further properties *)

Lemma snapshot_keys_are_the_processed_validators_witness :
  active_era_index chain_no_exposure = Ok (PInt 5) /\
  exists stakes,
    get_validator_stakes repr_opaque float_of_no_str chain_no_exposure
                         ["a"; "gone"; "a"] = Ok stakes /\
    NoDup (map fst stakes) /\
    (In "gone" (map fst stakes) <->
     In "gone" ["a"; "gone"; "a"] /\
     validator_stake repr_opaque float_of_no_str chain_no_exposure (PInt 5)
                     "gone" <> Ok None).
Proof.
  split; [reflexivity |].
  destruct (get_validator_stakes repr_opaque float_of_no_str chain_no_exposure
                                 ["a"; "gone"; "a"]) as [stakes |] eqn:E;
    [| vm_compute in E; discriminate].
  exists stakes. split; [reflexivity |].
  pose proof (snapshot_keys_are_the_processed_validators
                repr_opaque float_of_no_str chain_no_exposure (PInt 5)
                ["a"; "gone"; "a"] stakes eq_refl E) as [Hdistinct Hkeys].
  split; [exact Hdistinct | exact (Hkeys "gone")].
Defined.

Lemma repeated_validators_change_nothing_witness :
  incl ["a"] ["a"; "bad"] /\
  get_validator_stakes repr_opaque float_of_no_str chain_one_failing
                       (["a"; "bad"] ++ ["a"])%list
  = get_validator_stakes repr_opaque float_of_no_str chain_one_failing
                         ["a"; "bad"].
Proof.
  assert (H : incl ["a"] ["a"; "bad"]).
  { intros x [<- | []]. left. reflexivity. }
  exact (conj H (repeated_validators_change_nothing
                   repr_opaque float_of_no_str chain_one_failing
                   ["a"; "bad"] ["a"] H)).
Defined.

Lemma snapshots_are_well_formed_witness :
  get_validator_stakes repr_opaque float_of_no_str chain_rounding ["v"]
  = Ok [("v", StakeInfo (NFloat f_0_2) (NFloat f_0_9) (NFloat f_0_7) (NInt 0)
                        zero_float zero_float)] /\
  well_formed_snapshot
    (StakeInfo (NFloat f_0_2) (NFloat f_0_9) (NFloat f_0_7) (NInt 0)
               zero_float zero_float).
Proof.
  split; [reflexivity |].
  exact (snapshots_are_well_formed
           repr_opaque float_of_no_str chain_rounding ["v"]
           [("v", StakeInfo (NFloat f_0_2) (NFloat f_0_9) (NFloat f_0_7)
                            (NInt 0) zero_float zero_float)]
           "v"
           (StakeInfo (NFloat f_0_2) (NFloat f_0_9) (NFloat f_0_7)
                      (NInt 0) zero_float zero_float)
           eq_refl eq_refl).
Defined.

Lemma snapshot_of_an_exposure_witness :
  query chain_one_failing "Staking" "ErasStakers" [PInt 5; PStr "a"]
  = answer exposure_1_of_3 /\
  exists stakes,
    get_validator_stakes repr_opaque float_of_no_str chain_one_failing
                         ["a"; "bad"] = Ok stakes /\
    dict_get stakes "a"
    = Some (StakeInfo
              (NFloat (f_div (nearest_double 1000000000000000000) f_1e18))
              (NFloat (f_div (nearest_double 3000000000000000000) f_1e18))
              (NFloat (f_sub
                         (f_div (nearest_double 3000000000000000000) f_1e18)
                         (f_div (nearest_double 1000000000000000000) f_1e18)))
              (NInt 1)
              (get_era_rewards repr_opaque float_of_no_str chain_one_failing
                               "a" (PInt 5))
              zero_float).
Proof.
  split; [reflexivity |].
  refine (snapshot_of_an_exposure
            repr_opaque float_of_no_str chain_one_failing (PInt 5)
            ["a"; "bad"] "a"
            [("total", PInt 3000000000000000000);
             ("own", PInt 1000000000000000000);
             ("others", PList [PDict [("who", PStr "n");
                                      ("value", PInt 2000000000000000000)]])]
            1000000000000000000 3000000000000000000
            eq_refl (or_introl eq_refl) eq_refl eq_refl eq_refl _ _ _).
  - vm_compute; discriminate.
  - vm_compute; discriminate.
  - intros others H. injection H as <-. eexists. reflexivity.
Defined.

Lemma exposure_without_stakes_is_zeroed_witness :
  query chain_partial_exposure "Staking" "ErasStakers" [PInt 5; PStr "a"]
  = answer (PDict [("total", PInt 3000000000000000000)]) /\
  exists stakes,
    get_validator_stakes repr_opaque float_of_no_str chain_partial_exposure
                         ["a"] = Ok stakes /\
    dict_get stakes "a" = Some zero_stake_info.
Proof.
  split; [reflexivity |].
  refine (exposure_without_stakes_is_zeroed
            repr_opaque float_of_no_str chain_partial_exposure (PInt 5)
            ["a"] "a" (PDict [("total", PInt 3000000000000000000)])
            eq_refl (or_introl eq_refl) eq_refl _).
  intros entries H. injection H as <-. left. reflexivity.
Defined.

Lemma malformed_entries_are_ignored_witness :
  filter entry_is_pair points_with_junk = obj_items [("v", 30); ("w", 70)] /\
  get_era_rewards repr_opaque float_of_no_str
    (chain_with_rewards [("v", 30); ("w", 70)] pool_1000) "v" (PInt 5)
  = get_era_rewards repr_opaque float_of_no_str
      (chain_with_reward_data (PList points_with_junk) (answer (PInt pool_1000)))
      "v" (PInt 5).
Proof.
  split; [reflexivity |].
  exact (malformed_entries_are_ignored
           repr_opaque float_of_no_str
           (chain_with_reward_data (PList points_with_junk)
                                   (answer (PInt pool_1000)))
           (chain_with_rewards [("v", 30); ("w", 70)] pool_1000)
           "v" (PInt 5) points_with_junk eq_refl eq_refl eq_refl).
Defined.

Lemma unreadable_points_zero_every_reward_witness :
  py_float float_of_no_str PNone = Raise /\
  get_era_rewards repr_opaque float_of_no_str
    (chain_with_reward_data
       (PList [PList [PStr "v"; PInt 30]; PList [PStr "w"; PNone]])
       (answer (PInt pool_1000)))
    "v" (PInt 5)
  = zero_float.
Proof.
  split; [reflexivity |].
  exact (unreadable_points_zero_every_reward
           repr_opaque float_of_no_str
           (chain_with_reward_data
              (PList [PList [PStr "v"; PInt 30]; PList [PStr "w"; PNone]])
              (answer (PInt pool_1000)))
           (PInt 5) [PList [PStr "v"; PInt 30]; PList [PStr "w"; PNone]]
           (PStr "w") PNone [] eq_refl (or_intror (or_introl eq_refl)) eq_refl
           "v").
Defined.

Lemma missing_reward_data_gives_zero_witness :
  query (chain_with_reward_data (points_table [("v", 30); ("w", 70)]) (Ok None))
        "Staking" "ErasValidatorReward" [PInt 5] = Ok None /\
  get_era_rewards repr_opaque float_of_no_str
    (chain_with_reward_data (points_table [("v", 30); ("w", 70)]) (Ok None))
    "v" (PInt 5)
  = zero_float.
Proof.
  split; [reflexivity |].
  apply (missing_reward_data_gives_zero repr_opaque float_of_no_str).
  right. right. exists None. split; reflexivity.
Defined.

Lemma no_points_no_reward_witness :
  find (fun e => String.eqb (fst e) "v") [("v", 0); ("w", 70)] = Some ("v", 0) /\
  get_era_rewards repr_opaque float_of_no_str
    (chain_with_rewards [("v", 0); ("w", 70)] pool_1000) "v" (PInt 5)
  = zero_float.
Proof.
  split; [reflexivity |].
  apply (no_points_no_reward repr_opaque float_of_no_str
           (chain_with_rewards [("v", 0); ("w", 70)] pool_1000) "v" (PInt 5)
           [("v", 0); ("w", 70)]).
  - repeat constructor; vm_compute; discriminate.
  - repeat constructor; vm_compute; discriminate.
  - intros e H. vm_compute in H. injection H as <-. reflexivity.
  - reflexivity.
  - intros obj Hobj. injection Hobj as <-. exists pool_1000.
    split; [vm_compute; discriminate | reflexivity].
Defined.

Lemma movement_and_reward_values_are_positive_witness :
  In caps_in_a
     (gauge_sets (update_metrics repr_opaque float_of_no_str chain_no_exposure
                                 previous_a_low)) /\
  gt_zero (g_value caps_in_a) = true.
Proof.
  assert (H : In caps_in_a
                 (gauge_sets (update_metrics repr_opaque float_of_no_str
                                             chain_no_exposure previous_a_low))).
  { vm_compute. left. reflexivity. }
  exact (conj H (movement_and_reward_values_are_positive
                   repr_opaque float_of_no_str chain_no_exposure
                   previous_a_low caps_in_a H (or_introl eq_refl))).
Defined.

Lemma movement_needs_a_previous_entry_witness :
  In caps_in_a
     (gauge_sets (update_metrics repr_opaque float_of_no_str chain_no_exposure
                                 previous_a_low)) /\
  previous_a_low <> [] /\
  dict_get previous_a_low (g_validator caps_in_a) <> None.
Proof.
  assert (H : In caps_in_a
                 (gauge_sets (update_metrics repr_opaque float_of_no_str
                                             chain_no_exposure previous_a_low))).
  { vm_compute. left. reflexivity. }
  exact (conj H (movement_needs_a_previous_entry
                   repr_opaque float_of_no_str chain_no_exposure
                   previous_a_low caps_in_a H eq_refl)).
Defined.

Lemma unchanged_chain_reports_no_movement_witness :
  outcome (update_metrics repr_opaque float_of_no_str chain_no_exposure
                          previous_a_low) = Ok tt /\
  In caps_in_a
     (gauge_sets (update_metrics repr_opaque float_of_no_str chain_no_exposure
                                 previous_a_low)) /\
  outcome (update_metrics repr_opaque float_of_no_str chain_no_exposure
             (previous_after
                (update_metrics repr_opaque float_of_no_str chain_no_exposure
                                previous_a_low))) = Ok tt /\
  ~ In caps_in_a
       (gauge_sets
          (update_metrics repr_opaque float_of_no_str chain_no_exposure
             (previous_after
                (update_metrics repr_opaque float_of_no_str chain_no_exposure
                                previous_a_low)))).
Proof.
  assert (H : outcome (update_metrics repr_opaque float_of_no_str
                                      chain_no_exposure previous_a_low) = Ok tt).
  { vm_compute. reflexivity. }
  split; [exact H |]. split; [vm_compute; left; reflexivity |].
  pose proof (unchanged_chain_reports_no_movement
                repr_opaque float_of_no_str chain_no_exposure previous_a_low H)
    as [Hagain [_ Hnone]].
  split; [exact Hagain |].
  intros Hin. specialize (Hnone caps_in_a Hin). discriminate Hnone.
Defined.

Lemma only_listed_validators_are_published_witness :
  query_map chain_no_exposure "Staking" "Validators"
  = Ok [(PStr "a", PNone); (PStr "gone", PNone)] /\
  dict_get (previous_after
              (update_metrics repr_opaque float_of_no_str chain_no_exposure
                              [("zed", snapshot_1_of_3)])) "zed" = None.
Proof.
  split; [reflexivity |].
  refine (proj2 (only_listed_validators_are_published
                   repr_opaque float_of_no_str chain_no_exposure
                   [("zed", snapshot_1_of_3)]
                   [(PStr "a", PNone); (PStr "gone", PNone)] eq_refl)
                _ "zed" _).
  - vm_compute. reflexivity.
  - intros [H | [H | []]]; discriminate H.
Defined.

Lemma gauge_labels_witness :
  In caps_in_a
     (gauge_sets (update_metrics repr_opaque float_of_no_str chain_no_exposure
                                 previous_a_low)) /\
  g_third caps_in_a = "nomination".
Proof.
  assert (H : In caps_in_a
                 (gauge_sets (update_metrics repr_opaque float_of_no_str
                                             chain_no_exposure previous_a_low))).
  { vm_compute. left. reflexivity. }
  exact (conj H (proj2 (gauge_labels repr_opaque float_of_no_str
                          chain_no_exposure previous_a_low caps_in_a H))).
Defined.

Lemma completed_cycle_publishes_the_snapshot_witness :
  outcome (update_metrics repr_opaque float_of_no_str chain_no_exposure
                          previous_a_low) = Ok tt /\
  dict_get (previous_after
              (update_metrics repr_opaque float_of_no_str chain_no_exposure
                              previous_a_low)) "a" = Some snapshot_1_of_3 /\
  apply_sets empty_registry
    (gauge_sets (update_metrics repr_opaque float_of_no_str chain_no_exposure
                                previous_a_low))
    VALIDATOR_TOTAL_STAKE "a" "a" "active"
  = Some (NFloat f_3).
Proof.
  assert (H : outcome (update_metrics repr_opaque float_of_no_str
                                      chain_no_exposure previous_a_low) = Ok tt).
  { vm_compute. reflexivity. }
  assert (G : dict_get (previous_after
                          (update_metrics repr_opaque float_of_no_str
                                          chain_no_exposure previous_a_low)) "a"
              = Some snapshot_1_of_3).
  { vm_compute. reflexivity. }
  split; [exact H |]. split; [exact G |].
  exact (proj1 (completed_cycle_publishes_the_snapshot
                  repr_opaque float_of_no_str chain_no_exposure previous_a_low
                  [(PStr "a", PNone); (PStr "gone", PNone)]
                  (ScaleObj true (PList [PStr "a"])) [PStr "a"] (PInt 5)
                  "a" snapshot_1_of_3 eq_refl eq_refl eq_refl eq_refl H G)
               VALIDATOR_TOTAL_STAKE empty_registry eq_refl).
Defined.

Lemma own_identity_record_witness :
  query (chain_sub_identity (answer record_bob)) "Identity" "SuperOf" [PStr "p"]
  = Ok None /\
  wallet_identity repr_opaque (chain_sub_identity (answer record_bob)) "p"
  = IdentityInfo "Bob" "" "" "" "" "".
Proof.
  split; [reflexivity |].
  exact (proj2 (own_identity_record
                  repr_opaque (chain_sub_identity (answer record_bob)) "p"
                  None (Some (ScaleObj true record_bob))
                  eq_refl eq_refl eq_refl)
               eq_refl
               [("display", PDict [("Raw", PStr "Bob")]);
                ("legal", PDict [("None", PNone)])]
               eq_refl).
Defined.

Lemma sub_identity_takes_the_parent_record_witness :
  query (chain_sub_identity (answer record_no_display))
        "Identity" "IdentityOf" [PStr "p"] = answer record_no_display /\
  wallet_identity repr_opaque (chain_sub_identity (answer record_no_display)) "w"
  = IdentityInfo "alice" "Bob Ltd" "" "" "" "".
Proof.
  split; [reflexivity |].
  exact (sub_identity_takes_the_parent_record
           repr_opaque (chain_sub_identity (answer record_no_display)) "w"
           (Some (ScaleObj true
                    (PTuple [PStr "p"; PDict [("Raw", PStr "alice")]])))
           (PStr "p") (PDict [("Raw", PStr "alice")])
           (Some (ScaleObj true record_no_display))
           [("display", PDict [("None", PNone)]);
            ("legal", PDict [("Raw", PStr "Bob Ltd")])]
           eq_refl eq_refl eq_refl eq_refl eq_refl eq_refl eq_refl).
Defined.

Lemma failing_identity_queries_give_empty_records_witness :
  query (chain_sub_identity Raise) "Identity" "IdentityOf" [PStr "p"] = Raise /\
  wallet_identity repr_opaque (chain_sub_identity Raise) "w" = empty_identity.
Proof.
  split; [reflexivity |].
  apply (failing_identity_queries_give_empty_records repr_opaque).
  right. left.
  exists (Some (ScaleObj true
                  (PTuple [PStr "p"; PDict [("Raw", PStr "alice")]]))),
         (PStr "p"), (PDict [("Raw", PStr "alice")]).
  repeat split.
Defined.

Lemma first_live_connection_is_returned_witness :
  open_connection connect_on_third 0 = Raise /\
  open_connection connect_on_third 1 = Raise /\
  open_connection connect_on_third 2 = Ok chain_rounding /\
  create_connection connect_on_third
  = (Ok (Some chain_rounding), [Slept 5; Slept 5]).
Proof.
  split; [reflexivity |]. split; [reflexivity |]. split; [reflexivity |].
  apply (first_live_connection_is_returned connect_on_third 2 chain_rounding).
  - unfold MAX_RETRIES. lia.
  - intros j Hj. destruct j as [| [| j]]; [reflexivity | reflexivity | lia].
  - reflexivity.
Defined.

Lemma unreachable_network_round_witness :
  open_connection (round_connect round_unreachable) 4 = Raise /\
  metrics_round repr_opaque float_of_no_str round_unreachable previous_a
  = (Failed, previous_a, [Slept 5; Slept 5; Slept 5; Slept 5; Slept 5]).
Proof.
  split; [reflexivity |].
  apply (unreachable_network_round repr_opaque float_of_no_str
                                   round_unreachable previous_a).
  intros attempt _. reflexivity.
Defined.

Lemma run_keeps_the_snapshot_invariant_witness :
  well_formed_stakes [] /\
  well_formed_stakes
    (fst (metrics_loop repr_opaque float_of_no_str
                       [round_unreachable; round_two_cycles] [])).
Proof.
  assert (H : well_formed_stakes []).
  { split; [constructor | intros v info Hget; discriminate Hget]. }
  exact (conj H (run_keeps_the_snapshot_invariant
                   repr_opaque float_of_no_str
                   [round_unreachable; round_two_cycles] [] H)).
Defined.

Lemma failed_cycle_ends_the_round_witness :
  poll repr_opaque float_of_no_str [chain_no_exposure] []
  = (Polling, [("a", snapshot_1_of_3)],
     [Published (GaugeSet VALIDATOR_SELF_STAKE "a" "a" "active" (NFloat f_1));
      Published (GaugeSet VALIDATOR_NOMINATIONS "a" "a" "active" (NFloat f_2));
      Published (GaugeSet VALIDATOR_TOTAL_STAKE "a" "a" "active" (NFloat f_3));
      Published (GaugeSet VALIDATOR_NOMINATOR_COUNT "a" "a" "active" (NInt 1));
      Slept 60]) /\
  metrics_round repr_opaque float_of_no_str round_two_cycles []
  = (Failed, [("a", snapshot_1_of_3)],
     [Slept 5; Slept 5;
      Published (GaugeSet VALIDATOR_SELF_STAKE "a" "a" "active" (NFloat f_1));
      Published (GaugeSet VALIDATOR_NOMINATIONS "a" "a" "active" (NFloat f_2));
      Published (GaugeSet VALIDATOR_TOTAL_STAKE "a" "a" "active" (NFloat f_3));
      Published (GaugeSet VALIDATOR_NOMINATOR_COUNT "a" "a" "active" (NInt 1));
      Slept 60; Slept 5; Closed]).
Proof.
  assert (H : poll repr_opaque float_of_no_str [chain_no_exposure] []
              = (Polling, [("a", snapshot_1_of_3)],
                 [Published (GaugeSet VALIDATOR_SELF_STAKE "a" "a" "active"
                                      (NFloat f_1));
                  Published (GaugeSet VALIDATOR_NOMINATIONS "a" "a" "active"
                                      (NFloat f_2));
                  Published (GaugeSet VALIDATOR_TOTAL_STAKE "a" "a" "active"
                                      (NFloat f_3));
                  Published (GaugeSet VALIDATOR_NOMINATOR_COUNT "a" "a" "active"
                                      (NInt 1));
                  Slept 60])).
  { vm_compute. reflexivity. }
  split; [exact H |].
  exact (failed_cycle_ends_the_round
           repr_opaque float_of_no_str round_two_cycles []
           [("a", snapshot_1_of_3)] chain_rounding chain_era_failure
           [chain_no_exposure] [] [Slept 5; Slept 5] _
           eq_refl eq_refl H eq_refl).
Defined.
